(** * Deepchecks: accumulation, drift ranking and configuration checks

    A shallow embedding of four checks of the repository:

    - [TrainTestPredictionDrift]
      (deepchecks/vision/checks/distribution/train_test_prediction_drift.py),
    - [ModelErrorAnalysis]
      (deepchecks/vision/checks/performance/model_error_analysis.py),
    - [SegmentPerformance]
      (deepchecks/tabular/checks/performance/segment_performance.py),
    - [MixedDataTypes]
      (deepchecks/tabular/checks/integrity/mixed_data_types.py),

    and of the dataset [SimpleClassificationDataset]
    (deepchecks/vision/simple_classification_data.py).

    A check instance ([self]) is a record; a method takes the instance and
    returns the instance it leaves behind together with its return value.
    A method that can raise returns a [result].  Python dictionaries whose
    order is not observed ([defaultdict(list)] buffers) are [gmap]s, an
    [OrderedDict] is an association list.  Floating point scores and
    ratios are exact rationals ([Q]); NaN is not a score. *)

From stdpp Require Import gmap strings list.
From Stdlib Require Import QArith Sorting.Sorted Sorting.Permutation.
From Stdlib Require Import Lqa Structures.OrderedTypeEx.

Open Scope string_scope.
Open Scope list_scope.

(** ** Python values, exceptions and the [result] monad *)

Module Py.

(** Scalars that live in property buffers and in table cells. *)
Inductive pyval : Type :=
| PInt (n : Z)
| PFloat (q : Q)
| PStr (s : string).

Definition is_int (v : pyval) : bool :=
  match v with PInt _ => true | _ => false end.

Definition is_str (v : pyval) : bool :=
  match v with PStr _ => true | _ => false end.

(** The exceptions the four checks raise or let through. *)
Inductive exception : Type :=
| DeepchecksValueError (msg : string)
| DeepchecksProcessError (msg : string)
| DeepchecksNotSupportedError (msg : string)
| DatasetValidationError (msg : string)
| NotImplementedError (msg : string)
| RuntimeError (msg : string)
| TypeError (msg : string)
| KeyError (msg : string)
| ValueError (msg : string)
| AttributeError (msg : string)
| OverflowError (msg : string).

Inductive warning : Type :=
| DeprecationWarning (msg : string).

Inductive result (A : Type) : Type :=
| Ok (a : A)
| Raise (e : exception).
Arguments Ok {A} a.
Arguments Raise {A} e.

Definition bind {A B : Type} (r : result A) (k : A → result B) : result B :=
  match r with
  | Ok a => k a
  | Raise e => Raise e
  end.

(** [for x in xs: acc = body(acc, x)], stopping at the first exception. *)
Fixpoint foldM {A S : Type} (body : S → A → result S) (acc : S) (xs : list A)
  : result S :=
  match xs with
  | [] => Ok acc
  | x :: xs' => bind (body acc x) (fun acc' => foldM body acc' xs')
  end.

(** Reading an attribute that still holds [None] where an object is used. *)
Definition not_none {A : Type} (o : option A) : result A :=
  match o with
  | Some a => Ok a
  | None => Raise (TypeError "NoneType")
  end.

(** Truth value of an [int] or [None], and Python's [a or b]. *)
Definition truthy (a : option Z) : bool :=
  match a with
  | Some n => negb (n =? 0)%Z
  | None => false
  end.

Definition py_or (a b : option Z) : option Z :=
  if truthy a then a else b.

(** A column name: any hashable object; strings and integers here. *)
Inductive Hashable : Type :=
| HStr (s : string)
| HInt (n : Z).

#[global] Instance Hashable_eq_dec : EqDecision Hashable.
Proof. solve_decision. Defined.

(** An ordered dictionary ([OrderedDict], or a [dict], which keeps the
    order of insertion): assignment to a present key keeps its position. *)
Fixpoint od_set {K V : Type} `{EqDecision K} (k : K) (v : V)
    (d : list (K * V)) : list (K * V) :=
  match d with
  | [] => [(k, v)]
  | (k', v') :: d' =>
      if decide (k = k') then (k, v) :: d' else (k', v') :: od_set k v d'
  end.

Fixpoint od_get {K V : Type} `{EqDecision K} (k : K) (d : list (K * V))
  : option V :=
  match d with
  | [] => None
  | (k', v') :: d' => if decide (k = k') then Some v' else od_get k d'
  end.

(** NumPy's true division of two integers; [None] stands for the
    quotient that is not finite (a zero divisor). *)
Definition true_divide (a b : Z) : option Q :=
  if (b =? 0)%Z then None else Some (inject_Z a / inject_Z b)%Q.

(** [sorted(xs, key=key, reverse=True)].  Python's sort is stable and
    [reverse=True] keeps the original order of elements with equal keys:
    an element is placed after every element whose key is strictly
    greater and before every later element whose key is not. *)
Fixpoint insert_reverse {A : Type} (key : A → Q) (x : A) (l : list A) : list A :=
  match l with
  | [] => [x]
  | y :: l' =>
      if Qle_bool (key y) (key x) then x :: y :: l'
      else y :: insert_reverse key x l'
  end.

Fixpoint sorted_reverse {A : Type} (key : A → Q) (xs : list A) : list A :=
  match xs with
  | [] => []
  | x :: xs' => insert_reverse key x (sorted_reverse key xs')
  end.

End Py.
Import Py.


#[global] Instance result_bind : MBind Py.result :=
  fun A B k r => Py.bind r k.
#[global] Instance result_ret : MRet Py.result := @Py.Ok.
#[global] Instance Qeq_decision : RelDecision Qeq := Qeq_dec.
#[global] Instance result_fmap : FMap Py.result :=
  fun A B f r => match r with Ok a => Ok (f a) | Raise e => Raise e end.

(** ** Conditions *)

Module Conditions.

Inductive ConditionCategory : Type :=
| PASS
| FAIL
| WARN.

#[global] Instance ConditionCategory_eq_dec : EqDecision ConditionCategory.
Proof. solve_decision. Defined.

(** [ConditionResult(category, details)]; the details are kept as the
    data the source formats into a string, and are empty where the
    source gives no details. *)
Record ConditionResult (D : Type) : Type := Condition {
  category : ConditionCategory;
  details : list D;
}.
Arguments Condition {D} category details.
Arguments category {D} c.
Arguments details {D} c.

End Conditions.
Import Conditions.

#[global] Instance Qlt_decision : RelDecision Qlt :=
  fun x y => match Qlt_le_dec x y with
             | left H => left H
             | right H => right (Qle_not_lt _ _ H)
             end.

(** ** Names shared by the vision checks *)

Module Vision.

Inductive TaskType : Type :=
| CLASSIFICATION
| OBJECT_DETECTION
| OTHER_TASK.

Inductive DatasetKind : Type :=
| TRAIN
| TEST.

#[global] Instance DatasetKind_eq_dec : EqDecision DatasetKind.
Proof. solve_decision. Defined.

(** What a caller passes as [dataset_kind]: a member of the enumeration
    or any other object. *)
Inductive kind_arg : Type :=
| Kind (k : DatasetKind)
| NotAKind.

(** The ['output_type'] of a property. *)
Inductive OutputType : Type :=
| continuous
| discrete
| class_id.

#[global] Instance OutputType_eq_dec : EqDecision OutputType.
Proof. solve_decision. Defined.

(** A property: a dictionary with the keys ['name'], ['method'] and
    ['output_type']. *)
Record property (Arg Out : Type) : Type := Property {
  name : string;
  method : Arg → Out;
  output_type : OutputType;
}.
Arguments Property {Arg Out} name method output_type.
Arguments name {Arg Out} p.
Arguments method {Arg Out} p.
Arguments output_type {Arg Out} p.

(** A vision dataset as the checks see it. *)
Record VisionData : Type := {
  task_type : TaskType;
  label_id_to_name : pyval → string;
}.

Record Context : Type := {
  train : VisionData;
  test : VisionData;
}.

End Vision.
Import Vision.

(** ** TrainTestPredictionDrift *)

Module TrainTestPredictionDrift.

Inductive ColumnType : Type :=
| numerical
| categorical.

(** What the check imports from modules that are not part of the
    sources at hand: the batch type, the helpers of
    [label_prediction_properties] and the numeric core of
    [calc_drift_and_plot]. *)
Class Env : Type := {
  Batch : Type;
  Predictions : Type;
  Extracted : Type;
  Display : Type;
  predictions : Batch → Predictions;
  properties_flatten : Extracted → list pyval;
  validate_properties : list (property Predictions Extracted) → result unit;
  DEFAULT_CLASSIFICATION_PREDICTION_PROPERTIES :
    list (property Predictions Extracted);
  DEFAULT_OBJECT_DETECTION_PREDICTION_PROPERTIES :
    list (property Predictions Extracted);
  drift_value :
    ColumnType → list pyval → list pyval → option Z → result Q;
  drift_display :
    ColumnType → list pyval → list pyval → string → option Z → string →
    Display;
}.

(** Modelled from the spec: [get_column_type] of
    deepchecks.vision.utils.label_prediction_properties, which is not
    among the sources.  Class ids and discrete values are categorical,
    continuous values are numerical. *)
Definition get_column_type (o : OutputType) : ColumnType :=
  match o with
  | continuous => numerical
  | discrete => categorical
  | class_id => categorical
  end.

(** The two method names the check's condition compares against. *)
Definition scorer_name (c : ColumnType) : string :=
  match c with
  | numerical => "Earth Mover's Distance"
  | categorical => "PSI"
  end.

(** A buffer: a [defaultdict(list)] from property names to values. *)
Abbreviation buffers := (gmap string (list pyval)).

Section WithEnv.
Context {env : Env}.

Definition prop : Type := property Predictions Extracted.

(** Modelled from the spec: [calc_drift_and_plot] of
    deepchecks.utils.distribution.drift, which is not among the
    sources.  The scorer is selected by the column type: PSI for a
    categorical column, Earth Mover's Distance for a numerical one;
    the score and the chart are the collaborator's. *)
Definition calc_drift_and_plot
    (train_column test_column : list pyval) (value_name : string)
    (column_type : ColumnType)
    (max_num_categories_for_drift max_num_categories_for_display : option Z)
    (show_categories_by : string) : result (Q * string * Display) :=
  value ← drift_value column_type train_column test_column
            max_num_categories_for_drift;
  mret (value, scorer_name column_type,
        drift_display column_type train_column test_column value_name
          max_num_categories_for_display show_categories_by).

(** The instance: the attributes [__init__] sets. *)
Record t : Type := Self {
  user_prediction_properties : option (list prop);
  max_num_categories_for_drift : option Z;
  max_num_categories_for_display : option Z;
  show_categories_by : string;
  _prediction_properties : option (list prop);
  _train_prediction_properties : option buffers;
  _test_prediction_properties : option buffers;
}.

Definition set_train (self : t) (b : buffers) : t :=
  Self (user_prediction_properties self)
       (max_num_categories_for_drift self)
       (max_num_categories_for_display self)
       (show_categories_by self)
       (_prediction_properties self)
       (Some b)
       (_test_prediction_properties self).

Definition set_test (self : t) (b : buffers) : t :=
  Self (user_prediction_properties self)
       (max_num_categories_for_drift self)
       (max_num_categories_for_display self)
       (show_categories_by self)
       (_prediction_properties self)
       (_train_prediction_properties self)
       (Some b).

Definition deprecation_message : string :=
  "TrainTestPredictionDrift: max_num_categories is deprecated. please use max_num_categories_for_drift and max_num_categories_for_display instead".

(** [__init__]: the instance and the warnings emitted. *)
Definition __init__
    (prediction_properties : option (list prop))
    (max_num_categories_for_drift max_num_categories_for_display : option Z)
    (show_categories_by : string)
    (max_num_categories : option Z) : result (t * list warning) :=
  _ ← match prediction_properties with
      | Some ps => validate_properties ps
      | None => mret tt
      end;
  let '(for_drift, for_display, warnings) :=
    match max_num_categories with
    | Some m =>
        (py_or max_num_categories_for_drift (Some m),
         py_or max_num_categories_for_display (Some m),
         [DeprecationWarning deprecation_message])
    | None =>
        (max_num_categories_for_drift, max_num_categories_for_display, [])
    end in
  mret (Self prediction_properties for_drift for_display
          show_categories_by None None None,
        warnings).

Definition initialize_run (self : t) (context : Context) : result t :=
  let task_type := task_type (train context) in
  properties ←
    match user_prediction_properties self with
    | Some ps => mret ps
    | None =>
        match task_type with
        | CLASSIFICATION =>
            mret DEFAULT_CLASSIFICATION_PREDICTION_PROPERTIES
        | OBJECT_DETECTION =>
            mret DEFAULT_OBJECT_DETECTION_PREDICTION_PROPERTIES
        | OTHER_TASK =>
            Raise (NotImplementedError
              "Check must receive either prediction_properties or run on Classification or Object Detection class")
        end
    end;
  mret (Self (user_prediction_properties self)
          (max_num_categories_for_drift self)
          (max_num_categories_for_display self)
          (show_categories_by self)
          (Some properties) (Some ∅) (Some ∅)).

(** One turn of the loop of [update]:
    [properties[name] += properties_flatten(method(batch.predictions))]
    on a [defaultdict(list)]. *)
Definition extend_property (batch : Batch) (properties : option buffers)
    (prediction_property : prop) : result (option buffers) :=
  d ← not_none properties;
  mret (Some (<[name prediction_property :=
                 d !!! name prediction_property ++
                 properties_flatten
                   (method prediction_property (predictions batch))]> d)).

Definition update (self : t) (context : Context) (batch : Batch)
    (dataset_kind : kind_arg) : result t :=
  match dataset_kind with
  | Kind TRAIN =>
      ps ← not_none (_prediction_properties self);
      properties ← foldM (extend_property batch)
                     (_train_prediction_properties self) ps;
      mret (Self (user_prediction_properties self)
              (max_num_categories_for_drift self)
              (max_num_categories_for_display self)
              (show_categories_by self)
              (_prediction_properties self)
              properties
              (_test_prediction_properties self))
  | Kind TEST =>
      ps ← not_none (_prediction_properties self);
      properties ← foldM (extend_property batch)
                     (_test_prediction_properties self) ps;
      mret (Self (user_prediction_properties self)
              (max_num_categories_for_drift self)
              (max_num_categories_for_display self)
              (show_categories_by self)
              (_prediction_properties self)
              (_train_prediction_properties self)
              properties)
  | NotAKind =>
      Raise (DeepchecksNotSupportedError "Unsupported dataset kind")
  end.

(** The value of the check: per property the score and the method. *)
Record drift_entry : Type := Entry {
  Drift_score : Q;
  Method : string;
}.

(** An element of the [display] list: the head note (which quotes the
    property names) or the chart of one property. *)
Inductive display_item : Type :=
| Headnote (names : list string)
| Figure (d : Display).

Record CheckResult : Type := {
  value : list (string * drift_entry);
  display : list display_item;
  header : string;
}.

(** [d[k]] on a dictionary without default. *)
Definition getitem {V : Type} (k : string) (d : list (string * V))
  : result V :=
  match od_get k d with
  | Some v => Ok v
  | None => Raise (KeyError k)
  end.

(** [[lookup(class_id) for class_id in column]] *)
Definition to_names (lookup : pyval → string) (column : list pyval)
  : list pyval :=
  (λ class_id, PStr (lookup class_id)) <$> column.

(** The body of the loop of [compute] over the properties. *)
Definition compute_property (context : Context)
    (st : t * list (string * drift_entry) * list (string * Display))
    (prediction_property : prop)
  : result (t * list (string * drift_entry) * list (string * Display)) :=
  let '(self, values_dict, displays_dict) := st in
  let name := name prediction_property in
  let output_type := output_type prediction_property in
  self ←
    match output_type with
    | class_id =>
        tr ← not_none (_train_prediction_properties self);
        let self1 :=
          set_train self
            (<[name := to_names (label_id_to_name (train context))
                         (tr !!! name)]> tr) in
        te ← not_none (_test_prediction_properties self1);
        mret (set_test self1
                (<[name := to_names (label_id_to_name (test context))
                             (te !!! name)]> te))
    | _ => mret self
    end;
  tr ← not_none (_train_prediction_properties self);
  te ← not_none (_test_prediction_properties self);
  '(value, method, display) ←
    calc_drift_and_plot (tr !!! name) (te !!! name) name
      (get_column_type output_type)
      (max_num_categories_for_drift self)
      (max_num_categories_for_display self)
      (show_categories_by self);
  mret (self,
        od_set name (Entry value method) values_dict,
        od_set name display displays_dict).

(** The key of [sorted]: [values_dict[col]['Drift score']]. *)
Definition score_of (values_dict : list (string * drift_entry))
    (col : string) : result Q :=
  e ← getitem col values_dict;
  mret (Drift_score e).

Definition compute (self : t) (context : Context)
  : result (t * CheckResult) :=
  ps ← not_none (_prediction_properties self);
  let prediction_properties_names := name <$> ps in
  '(self', values_dict, displays_dict) ←
    foldM (compute_property context) (self, [], []) ps;
  keys ← mapM (score_of values_dict) prediction_properties_names;
  let columns_order :=
    fst <$> sorted_reverse snd (zip prediction_properties_names keys) in
  figures ← mapM (λ col, d ← getitem col displays_dict; mret (Figure d))
              columns_order;
  mret (self',
        {| value := values_dict;
           display := Headnote prediction_properties_names :: figures;
           header := "Train Test Prediction Drift" |}).

(** The batches of a run as the check receives them: each with the
    kind of the dataset it comes from, in arrival order. *)
Definition feed (self : t) (context : Context)
    (calls : list (DatasetKind * Batch)) : result t :=
  foldM (λ s call, update s context (snd call) (Kind (fst call)))
    self calls.

(** One run of the check: [initialize_run], the updates, [compute]. *)
Definition run (self : t) (context : Context)
    (calls : list (DatasetKind * Batch)) : result (t * CheckResult) :=
  self ← initialize_run self context;
  self ← feed self context calls;
  compute self context.

(** What one property extracts from one batch, flattened. *)
Definition extracted (p : prop) (batch : Batch) : list pyval :=
  properties_flatten (method p (predictions batch)).

(** The batches of one kind, in arrival order. *)
Definition batches_of (k : DatasetKind) (calls : list (DatasetKind * Batch))
  : list Batch :=
  snd <$> filter (λ call, fst call = k) calls.

(** What the properties declared under one name extract from one batch,
    in declaration order. *)
Definition extracted_by_name (n : string) (ps : list prop) (batch : Batch)
  : list pyval :=
  concat ((λ p, extracted p batch) <$> filter (λ p, name p = n) ps).

(** The state of an instance between [initialize_run] and [compute]. *)
Definition ready (self : t) (ps : list prop) (tr te : buffers) : Prop :=
  _prediction_properties self = Some ps ∧
  _train_prediction_properties self = Some tr ∧
  _test_prediction_properties self = Some te.

(** The key of [sorted] as a total function of the column name. *)
Definition drift_score_of (values_dict : list (string * drift_entry))
    (col : string) : Q :=
  match od_get col values_dict with
  | Some e => Drift_score e
  | None => 0%Q
  end.

(** The column [compute] hands to the scorer for one property, and the
    buffer it leaves behind: class ids are replaced by their names. *)
Definition scored_column (lookup : pyval → string) (p : prop) (d : buffers)
  : list pyval :=
  match output_type p with
  | class_id => to_names lookup (d !!! name p)
  | _ => d !!! name p
  end.

Definition stored_after (lookup : pyval → string) (p : prop) (d : buffers)
  : buffers :=
  match output_type p with
  | class_id => <[name p := to_names lookup (d !!! name p)]> d
  | _ => d
  end.




(** The attributes of the instance that hold its configuration. *)
Definition config (self : t)
  : option (list prop) * option Z * option Z * string :=
  (user_prediction_properties self, max_num_categories_for_drift self,
   max_num_categories_for_display self, show_categories_by self).

(** A part of the message of the condition: the properties above the
    PSI threshold, or those above the threshold of the Earth Mover's
    Distance, each with its score (which the source prints with two
    significant digits). *)
Inductive drift_detail : Type :=
| AbovePSI (columns : list (string * Q))
| AboveEarthMovers (columns : list (string * Q)).

(** [{props: d['Drift score'] for props, d in result.items()
      if d['Drift score'] > threshold and d['Method'] == method}] *)
Definition not_passing (threshold : Q) (method : string)
    (result : list (string * drift_entry)) : list (string * Q) :=
  (λ kv, (fst kv, Drift_score (snd kv)))
  <$> filter (λ kv, (threshold < Drift_score (snd kv))%Q ∧
                    Method (snd kv) = method) result.

(** The function [condition] of
    [add_condition_drift_score_not_greater_than]. *)
Definition condition (max_allowed_psi_score max_allowed_earth_movers_score : Q)
    (result : list (string * drift_entry)) : ConditionResult drift_detail :=
  let not_passing_categorical_columns :=
    not_passing max_allowed_psi_score "PSI" result in
  let not_passing_numeric_columns :=
    not_passing max_allowed_earth_movers_score "Earth Mover's Distance"
      result in
  let return_str :=
    match not_passing_categorical_columns with
    | [] => []
    | _ => [AbovePSI not_passing_categorical_columns]
    end ++
    match not_passing_numeric_columns with
    | [] => []
    | _ => [AboveEarthMovers not_passing_numeric_columns]
    end in
  match return_str with
  | [] => Condition PASS []
  | _ => Condition FAIL return_str
  end.

End WithEnv.

End TrainTestPredictionDrift.

(** ** ModelErrorAnalysis *)

Module ModelErrorAnalysis.

(** What the check imports from modules that are not part of the sources
    at hand: batches, the image properties, the per-sample scores, the
    data frames of pandas and the error model of
    deepchecks.utils.performance.error_model. *)
Class Env : Type := {
  Batch : Type;
  Images : Type;
  Outputs : Type;
  Frame : Type;
  ErrorFi : Type;
  Predicted : Type;
  Display : Type;
  Value : Type;
  images : Batch → Images;
  predictions : Batch → Outputs;
  labels : Batch → Outputs;
  to_numpy : Outputs → Outputs;
  default_image_properties : list (property Images (list pyval));
  validate_properties : list (property Images (list pyval)) → result unit;
  assert_task_type : Context → list TaskType → result unit;
  per_sample_cross_entropy : Outputs → Outputs → list Q;
  per_sample_mean_iou : Outputs → Outputs → list Q;
  DataFrame : option (gmap string (list pyval)) → result Frame;
  dropna_columns_all : Frame → Frame;
  columns : Frame → list string;
  select_columns : Frame → list string → result Frame;
  model_error_contribution :
    Frame → option (list Q) → Frame → option (list Q) → list string →
    list string → Q → Z → result (ErrorFi * Predicted);
  error_model_display_dataframe :
    ErrorFi → Predicted → Frame → list string → Z → Q → Z → Q → Z →
    result (list Display * Value);
}.

Section WithEnv.
Context {env : Env}.

Definition prop : Type := property Images (list pyval).

Record t : Type := Self {
  random_state : Z;
  min_error_model_score : Q;
  min_segment_size : Q;
  max_properties_to_show : Z;
  min_property_contribution : Q;
  n_display_samples : Z;
  image_properties : list prop;
  _train_properties : option (gmap string (list pyval));
  _test_properties : option (gmap string (list pyval));
  _train_scores : option (list Q);
  _test_scores : option (list Q);
}.

(** The attributes of the instance that hold its configuration. *)
Definition config (self : t) : Z * Q * Q * Z * Q * Z * list prop :=
  (random_state self, min_error_model_score self, min_segment_size self,
   max_properties_to_show self, min_property_contribution self,
   n_display_samples self, image_properties self).

Definition with_run_state (self : t)
    (train_properties test_properties : option (gmap string (list pyval)))
    (train_scores test_scores : option (list Q)) : t :=
  Self (random_state self) (min_error_model_score self)
       (min_segment_size self) (max_properties_to_show self)
       (min_property_contribution self) (n_display_samples self)
       (image_properties self)
       train_properties test_properties train_scores test_scores.

Definition __init__
    (image_properties : option (list prop))
    (max_properties_to_show : Z)
    (min_property_contribution min_error_model_score min_segment_size : Q)
    (n_display_samples random_state : Z) : result t :=
  properties ←
    match image_properties with
    | None => mret default_image_properties
    | Some ps => _ ← validate_properties ps; mret ps
    end;
  mret (Self random_state min_error_model_score min_segment_size
          max_properties_to_show min_property_contribution
          n_display_samples properties None None None None).

Definition initialize_run (self : t) (context : Context) : result t :=
  _ ← assert_task_type context [CLASSIFICATION; OBJECT_DETECTION];
  mret (with_run_state self (Some ∅) (Some ∅) (Some []) (Some [])).

(** One turn of the first loop of [update]:
    [properties[name].extend(method(images))]. *)
Definition extend_property (batch : Batch)
    (properties : option (gmap string (list pyval)))
    (single_property : prop) : result (option (gmap string (list pyval))) :=
  d ← not_none properties;
  mret (Some (<[name single_property :=
                 d !!! name single_property ++
                 method single_property (images batch)]> d)).

Definition update (self : t) (context : Context) (batch : Batch)
    (dataset_kind : kind_arg) : result t :=
  match dataset_kind with
  | NotAKind =>
      Raise (RuntimeError
        "Internal Error! Part of code that must be unreacheable was reached.")
  | Kind k =>
      let dataset := match k with TRAIN => train context | TEST => test context end in
      let properties :=
        match k with
        | TRAIN => _train_properties self
        | TEST => _test_properties self
        end in
      let scores :=
        match k with
        | TRAIN => _train_scores self
        | TEST => _test_scores self
        end in
      properties ← foldM (extend_property batch) properties
                     (image_properties self);
      scoring_func ←
        match task_type dataset with
        | CLASSIFICATION =>
            mret (λ predictions labels,
                    per_sample_cross_entropy labels predictions)
        | OBJECT_DETECTION =>
            mret (λ predictions labels,
                    per_sample_mean_iou predictions labels)
        | OTHER_TASK =>
            Raise (DeepchecksValueError
                     "Should not reach here! Unsupported task type")
        end;
      let predictions := to_numpy (predictions batch) in
      let labels := to_numpy (labels batch) in
      scores ←
        match scores with
        | Some l => mret (Some (l ++ scoring_func predictions labels))
        | None => Raise (AttributeError "NoneType")
        end;
      mret match k with
           | TRAIN =>
               with_run_state self properties (_test_properties self)
                 scores (_test_scores self)
           | TEST =>
               with_run_state self (_train_properties self) properties
                 (_train_scores self) scores
           end
  end.

Inductive display_item : Type :=
| Headnote
| Figure (d : Display).

(** What [compute] hands back to its caller. *)
Inductive outcome : Type :=
| CheckResult (value : Value) (display : option (list display_item))
| CheckFailure (check : t) (exception : exception).

(** [try: model_error_contribution(...) except DeepchecksProcessError]:
    only that class of exception is caught. *)
Definition compute (self : t) (context : Context) : result outcome :=
  train_frame ← DataFrame (_train_properties self);
  let train_property_df := dropna_columns_all train_frame in
  test_frame ← DataFrame (_test_properties self);
  test_property_df ← select_columns test_frame (columns train_property_df);
  match model_error_contribution train_property_df (_train_scores self)
          test_property_df (_test_scores self) (columns train_property_df) []
          (min_error_model_score self) (random_state self) with
  | Raise (DeepchecksProcessError msg) =>
      mret (CheckFailure self (DeepchecksProcessError msg))
  | Raise e => Raise e
  | Ok (error_fi, error_model_predicted) =>
      '(display, value) ←
        error_model_display_dataframe error_fi error_model_predicted
          test_property_df [] (max_properties_to_show self)
          (min_property_contribution self) (n_display_samples self)
          (min_segment_size self) (random_state self);
      let display :=
        match display with
        | [] => None
        | _ => Some (Headnote :: (Figure <$> display))
        end in
      mret (CheckResult value display)
  end.

(** The batches of a run, each with the kind of its dataset. *)
Definition feed (self : t) (context : Context)
    (calls : list (DatasetKind * Batch)) : result t :=
  foldM (λ s call, update s context (snd call) (Kind (fst call))) self calls.

(** One run of the check: [initialize_run], the updates, [compute]. *)
Definition run (self : t) (context : Context)
    (calls : list (DatasetKind * Batch)) : result (t * outcome) :=
  self ← initialize_run self context;
  self ← feed self context calls;
  out ← compute self context;
  mret (self, out).

(** The scores [update] appends for one batch of a dataset of the given
    task type (none for a task type it raises on). *)
Definition batch_scores (task : TaskType) (batch : Batch) : list Q :=
  match task with
  | CLASSIFICATION =>
      per_sample_cross_entropy (to_numpy (labels batch))
        (to_numpy (predictions batch))
  | OBJECT_DETECTION =>
      per_sample_mean_iou (to_numpy (predictions batch))
        (to_numpy (labels batch))
  | OTHER_TASK => []
  end.

(** The batches of one kind, in arrival order. *)
Definition batches_of (k : DatasetKind) (calls : list (DatasetKind * Batch))
  : list Batch :=
  snd <$> filter (λ call, fst call = k) calls.

(** What the properties declared under one name yield for one batch. *)
Definition extracted_by_name (n : string) (ps : list prop) (batch : Batch)
  : list pyval :=
  concat ((λ p, method p (images batch)) <$> filter (λ p, name p = n) ps).

(** The dataset and the two buffers [update] selects for a kind. *)
Definition dataset_of (context : Context) (k : DatasetKind) : VisionData :=
  match k with TRAIN => train context | TEST => test context end.

Definition properties_of (self : t) (k : DatasetKind)
  : option (gmap string (list pyval)) :=
  match k with
  | TRAIN => _train_properties self
  | TEST => _test_properties self
  end.

Definition scores_of (self : t) (k : DatasetKind) : option (list Q) :=
  match k with
  | TRAIN => _train_scores self
  | TEST => _test_scores self
  end.

(** The state of an instance between [initialize_run] and [compute]. *)
Definition ready (self : t) (train_properties test_properties :
    gmap string (list pyval)) (train_scores test_scores : list Q) : Prop :=
  _train_properties self = Some train_properties ∧
  _test_properties self = Some test_properties ∧
  _train_scores self = Some train_scores ∧
  _test_scores self = Some test_scores.

End WithEnv.

End ModelErrorAnalysis.

(** ** SegmentPerformance *)

Module SegmentPerformance.

(** The truth value of [feature_1] in [if feature_1 and ...]: [None], the
    empty string and zero are false. *)
Definition truthy_feature (f : option Hashable) : bool :=
  match f with
  | None => false
  | Some (HStr EmptyString) => false
  | Some (HStr (String _ _)) => true
  | Some (HInt n) => negb (n =? 0)%Z
  end.

(** What the check imports from modules that are not part of the sources
    at hand: the tabular dataset, the scorer and [partition_column]. *)
Class Env : Type := {
  Data : Type;
  Model : Type;
  Scorer : Type;
  Filter : Type;
  features : Data → list Hashable;
  assert_features : Data → result unit;
  get_single_scorer : option (list (string * Scorer)) → result Scorer;
  partition_column : Data → Hashable → Z → result (list Filter);
  apply_filter : Filter → Data → Data;
  label : Filter → string;
  rows : Data → nat;
  score : Scorer → Model → Data → Q;
  sort_values_descending : list (Hashable * Q) → list (Hashable * Q);
}.

Section WithEnv.
Context {env : Env}.

Record Context : Type := {
  train : Data;
  test : Data;
  model : Model;
  features_importance : option (list (Hashable * Q));
}.

Record t : Type := Self {
  feature_1 : option Hashable;
  feature_2 : option Hashable;
  max_segments : Z;
  user_scorer : option (list (string * Scorer));
}.

(** [__init__]; [max_segments] arrives as any scalar, and
    [isinstance(max_segments, int)] holds of an integer only.  The
    messages are the source's without their inner quotation marks. *)
Definition __init__
    (feature_1 feature_2 : option Hashable)
    (alternative_scorer : option (string * Scorer))
    (max_segments : pyval) : result t :=
  if truthy_feature feature_1 && bool_decide (feature_1 = feature_2) then
    Raise (DeepchecksValueError
             "feature_1 must be different than feature_2")
  else
    match max_segments with
    | PInt n =>
        if (n <? 0)%Z then
          Raise (DeepchecksValueError "num_segments must be positive integer")
        else
          mret (Self feature_1 feature_2 n
                  (match alternative_scorer with
                   | Some named => Some [named]
                   | None => None
                   end))
    | _ => Raise (DeepchecksValueError "num_segments must be positive integer")
    end.

(** A cell of the heat map: the score ([None] for NaN, when the filtered
    frame is empty) and the count.  A dataset and its frame are one
    object here: [rows] is [len], [score scorer model df] is
    [scorer(model, dataset.copy(df))]. *)
Definition cell (scorer : Scorer) (model : Model) (feature_2_df : Data)
  : option Q * nat :=
  (if (rows feature_2_df =? 0)%nat then None
   else Some (score scorer model feature_2_df),
   rows feature_2_df).

(** The value of the check, a dictionary with the keys ['scores'],
    ['counts'], ['feature_1'] and ['feature_2']; and what the heat map
    shows besides: the labels of its two axes. *)
Record value_t : Type := {
  scores : list (list (option Q));
  counts : list (list nat);
  value_feature_1 : Hashable;
  value_feature_2 : Hashable;
}.

Record CheckResult : Type := {
  value : value_t;
  x : list string;
  y : list string;
}.

(** [a, b, *_ = xs] *)
Definition first_two {A : Type} (xs : list A) : result (A * A) :=
  match xs with
  | a :: b :: _ => Ok (a, b)
  | _ => Raise (ValueError "not enough values to unpack")
  end.

(** [run_logic]: the instance it leaves behind, the context it leaves
    behind (the importances are sorted in place) and the result.  The
    triple bound after the choice of the features is the instance
    together with [self.feature_1] and [self.feature_2] as they then
    are. *)
Definition run_logic (self : t) (context : Context) (dataset_type : string)
  : result (t * Context * CheckResult) :=
  let dataset :=
    if String.eqb dataset_type "train" then train context else test context in
  scorer ← get_single_scorer (user_scorer self);
  _ ← assert_features dataset;
  let features := features dataset in
  if (length features <? 2)%nat then
    Raise (DatasetValidationError "Dataset must have at least 2 features")
  else
    '(self, context, f1, f2) ←
      match feature_1 self, feature_2 self with
      | None, None =>
          match features_importance context with
          | None =>
              '(f1, f2) ← first_two features;
              mret (Self (Some f1) (Some f2) (max_segments self)
                      (user_scorer self), context, f1, f2)
          | Some importance =>
              let sorted := sort_values_descending importance in
              '(f1, f2) ← first_two (fst <$> sorted);
              mret (Self (Some f1) (Some f2) (max_segments self)
                      (user_scorer self),
                    {| train := train context; test := test context;
                       model := model context;
                       features_importance := Some sorted |},
                    f1, f2)
          end
      | Some f1, Some f2 => mret (self, context, f1, f2)
      | _, _ =>
          Raise (DeepchecksValueError
                   "Must define both feature_1 and feature_2 or none of them")
      end;
    feature_1_filters ← partition_column dataset f1 (max_segments self);
    feature_2_filters ← partition_column dataset f2 (max_segments self);
    let cells :=
      (λ feature_1_filter,
         let feature_1_df := apply_filter feature_1_filter dataset in
         (λ feature_2_filter,
            cell scorer (model context)
              (apply_filter feature_2_filter feature_1_df))
         <$> feature_2_filters)
      <$> feature_1_filters in
    mret (self, context,
          {| value := {| scores := (fmap fst) <$> cells;
                         counts := (fmap snd) <$> cells;
                         value_feature_1 := f1;
                         value_feature_2 := f2 |};
             x := label <$> feature_2_filters;
             y := label <$> feature_1_filters |}).

End WithEnv.

End SegmentPerformance.

(** ** MixedDataTypes *)

Module MixedDataTypes.

(** An entry of a column: a value, or one of the two missing values. *)
Inductive cell : Type :=
| Value (v : pyval)
| NaN
| NoneValue.

Definition is_missing (c : cell) : bool :=
  match c with
  | Value _ => false
  | NaN => true
  | NoneValue => true
  end.

(** What the check imports: [float] applied to a string (whether it
    parses), [is_string_column] of deepchecks.utils.strings and
    [select_from_dataframe] of deepchecks.utils.dataframes. *)
Class Env : Type := {
  Frame : Type;
  float_parses : string → bool;
  is_string_column : list cell → bool;
  select_from_dataframe :
    Frame → option (list Hashable) → option (list Hashable) →
    result (list (Hashable * list cell));
}.

Section WithEnv.
Context {env : Env}.

(** [Series.dropna()] and [Series.count()] *)
Definition dropna (column_data : list cell) : list cell :=
  filter (λ c, is_missing c = false) column_data.

Definition count (column_data : list cell) : nat :=
  length (dropna column_data).

(** [float(n)] of an [int] raises an [OverflowError] when [n] does not
    round to a finite double: from [2**1024 - 2**970] on, in absolute
    value. *)
Definition float_overflows (n : Z) : bool :=
  (2 ^ 1024 - 2 ^ 970 <=? Z.abs n)%Z.

(** The local function [is_float]: [float(x)] succeeds, raises the
    [ValueError] that is caught, or raises a [TypeError] or an
    [OverflowError] that is not. *)
Definition is_float (x : cell) : result bool :=
  match x with
  | Value (PStr s) => Ok (float_parses s)
  | Value (PInt n) =>
      if float_overflows n then
        Raise (OverflowError "int too large to convert to float")
      else Ok true
  | Value (PFloat _) => Ok true
  | NaN => Ok true
  | NoneValue => Raise (TypeError "float() argument must be a string or a real number")
  end.


(** The entries [is_float] answers [True] for. *)
Definition number_like (x : cell) : bool :=
  match is_float x with
  | Ok true => true
  | _ => false
  end.

(** [sum(flags)] over booleans *)
Definition sum_bools (flags : list bool) : nat :=
  length (filter (λ b, b = true) flags).

Definition _check_mixed_percentage (column_data : list cell)
  : result (list (string * option Q)) :=
  let total_rows := count column_data in
  flags ← mapM is_float column_data;
  let nums := sum_bools flags in
  if bool_decide (nums = total_rows) || bool_decide (nums = 0%nat) then
    mret []
  else
    let nums_pct := true_divide (Z.of_nat nums) (Z.of_nat total_rows) in
    let strs_pct :=
      true_divide (Z.abs (Z.of_nat nums - Z.of_nat total_rows))
        (Z.of_nat total_rows) in
    mret [("strings", strs_pct); ("numbers", nums_pct)].

Definition _get_data_mix (column_data : list cell)
  : result (list (string * option Q)) :=
  if is_string_column column_data then _check_mixed_percentage column_data
  else mret [].

Record t : Type := Self {
  columns : option (list Hashable);
  ignore_columns : option (list Hashable);
  n_top_columns : Z;
}.

(** A dictionary of two ratios as the check reports it for a column. *)
Definition is_mix (mix : list (string * option Q)) : Prop :=
  ∃ strs_pct nums_pct : Q,
    mix = [("strings", Some strs_pct); ("numbers", Some nums_pct)] ∧
    (0 < strs_pct)%Q ∧ (strs_pct < 1)%Q ∧
    (0 < nums_pct)%Q ∧ (nums_pct < 1)%Q ∧
    (strs_pct + nums_pct == 1)%Q.

(** One turn of the loop of [run_logic] over the columns. *)
Definition run_logic_column
    (result_dict : list (Hashable * list (string * option Q)))
    (column : Hashable * list cell)
  : result (list (Hashable * list (string * option Q))) :=
  let column_data := dropna (snd column) in
  mix ← _get_data_mix column_data;
  match mix with
  | [] => mret result_dict
  | _ => mret (od_set (fst column) mix result_dict)
  end.

(** [run_logic], up to the value of the check. *)
Definition run_logic (self : t) (data : Frame)
  : result (list (Hashable * list (string * option Q))) :=
  df ← select_from_dataframe data (columns self) (ignore_columns self);
  foldM run_logic_column [] df.

(** [ratios[key]] *)
Definition ratio (key : string) (ratios : list (string * option Q))
  : result (option Q) :=
  match od_get key ratios with
  | Some r => Ok r
  | None => Raise (KeyError key)
  end.

(** [min(a, b)] of two rationals: [b] when [b < a], else [a]. *)
Definition min_Q (a b : Q) : Q :=
  if Qlt_le_dec b a then b else a.

(** [min(a, b)] of two ratios; a ratio that is not finite is, in the
    values of this check, the quotient of a positive count by zero and
    so above every rational. *)
Definition min_ratio (a b : option Q) : option Q :=
  match a, b with
  | Some x, Some y => Some (min_Q x y)
  | Some x, None => Some x
  | None, Some y => Some y
  | None, None => None
  end.

(** [low < r < high] *)
Definition in_range (low high : Q) (r : option Q) : bool :=
  match r with
  | Some q => bool_decide (low < q)%Q && bool_decide (q < high)%Q
  | None => false
  end.

(** One turn of the loop of the condition over the columns. *)
Definition condition_column (ratio_range : Q * Q)
    (failing_columns : list Hashable)
    (item : Hashable * list (string * option Q)) : result (list Hashable) :=
  strings ← ratio "strings" (snd item);
  numbers ← ratio "numbers" (snd item);
  let rarer_ratio := min_ratio strings numbers in
  if in_range (fst ratio_range) (snd ratio_range) rarer_ratio
  then mret (failing_columns ++ [fst item])
  else mret failing_columns.

(** The function [condition] of
    [add_condition_rare_type_ratio_not_in_range]; the details are the
    failing columns. *)
Definition condition (ratio_range : Q * Q)
    (result_dict : list (Hashable * list (string * option Q)))
  : result (ConditionResult Hashable) :=
  failing_columns ← foldM (condition_column ratio_range) [] result_dict;
  match failing_columns with
  | [] => mret (Condition PASS [])
  | _ => mret (Condition WARN failing_columns)
  end.

(** The rarer ratio of a column of the value (both keys are there in
    the values of this check). *)
Definition rarer_ratio (ratios : list (string * option Q)) : option Q :=
  min_ratio (default None (od_get "strings" ratios))
            (default None (od_get "numbers" ratios)).

(** What one column contributes to the value of the check. *)
Definition reported (column : Hashable * list cell)
  : option (Hashable * list (string * option Q)) :=
  match _get_data_mix (dropna (snd column)) with
  | Ok (entry :: mix) => Some (fst column, entry :: mix)
  | _ => None
  end.

End WithEnv.

End MixedDataTypes.

(** * deepchecks.vision.simple_classification_data *)

Module SimpleClassificationData.

(** The exceptions of this module: the [IndexError] of a list, beside
    those of [Py]. *)
Inductive exception : Type :=
| IndexError (msg : string)
| Builtin (e : Py.exception).

Inductive result (A : Type) : Type :=
| Ok (a : A)
| Raise (e : exception).
Arguments Ok {A} a.
Arguments Raise {A} e.

Definition bind {A B : Type} (r : result A) (k : A → result B) : result B :=
  match r with
  | Ok a => k a
  | Raise e => Raise e
  end.

#[global] Instance dataset_result_bind : MBind result :=
  fun A B k r => bind r k.
#[global] Instance dataset_result_ret : MRet result := @Ok.

(** [sorted(names)] on strings, which Python compares by code point:
    the names in ascending order. *)
Fixpoint insert (x : string) (l : list string) : list string :=
  match l with
  | [] => [x]
  | y :: l' => if String.ltb y x then y :: insert x l' else x :: y :: l'
  end.

Fixpoint sorted (names : list string) : list string :=
  match names with
  | [] => []
  | x :: names' => insert x (sorted names')
  end.

(** [dict(pairs)]: the pairs are assigned one after the other. *)
Definition dict {K V : Type} `{EqDecision K} (pairs : list (K * V))
  : list (K * V) :=
  foldl (λ d kv, od_set (fst kv) (snd kv) d) [] pairs.

(** [range(n)] *)
Definition range (n : nat) : list Z := seqZ 0 (Z.of_nat n).

(** [l[index]]: a negative index counts from the end. *)
Definition list_getitem {A : Type} (l : list A) (index : Z) : result A :=
  let n := Z.of_nat (length l) in
  let i := if (index <? 0)%Z then (index + n)%Z else index in
  if (i <? 0)%Z || (n <=? i)%Z then
    Raise (IndexError "list index out of range")
  else
    match l !! Z.to_nat i with
    | Some x => Ok x
    | None => Raise (IndexError "list index out of range")
    end.

(** [d[key]] *)
Definition dict_getitem {V : Type} (d : list (string * V)) (key : string)
  : result V :=
  match od_get key d with
  | Some v => Ok v
  | None => Raise (Builtin (KeyError key))
  end.

(** What the module imports: pathlib ([Path(root).absolute()] as a
    string, whether it exists and is a folder, [glob], [sorted] on
    paths, [parent.name]), [str.lower], [cv2.imread] (which gives
    [None] for a file it cannot read) and [cv2.cvtColor] to RGB, and the
    constructor of torchvision's [VisionDataset], which sets the
    attributes [transforms], [transform] and [target_transform]. *)
Class Env : Type := {
  Path : Type;
  Image : Type;
  absolute : string → string;
  is_folder : string → bool;
  glob : string → string → list Path;
  sorted_paths : list Path → list Path;
  parent_name : Path → string;
  lower : string → string;
  imread : Path → option Image;
  cvtColor : option Image → result Image;
  VisionDataset :
    string →
    option (Image → Z → result (Image * Z)) →
    option (Image → result Image) →
    option (Z → result Z) →
    result (option (Image → Z → result (Image * Z)) *
            option (Image → result Image) *
            option (Z → result Z));
}.

Section WithEnv.
Context {env : Env}.

(** [SimpleClassificationDataset] *)
Record t : Type := Self {
  root_path : string;
  transforms : option (Image → Z → result (Image * Z));
  transform : option (Image → result Image);
  target_transform : option (Z → result Z);
  image_extension : string;
  images : list Path;
  classes_map : list (string * Z);
  reverse_classes_map : list (Z * string);
}.

Definition __init__ (root : string) (train : bool)
    (transforms : option (Image → Z → result (Image * Z)))
    (transform : option (Image → result Image))
    (target_transform : option (Z → result Z))
    (image_extension : string) : result t :=
  let root_path := absolute root in
  if negb (is_folder root_path) then
    Raise (Builtin (ValueError
      (root_path ++ " - path does not exist or is not a folder")))
  else
    attributes ← VisionDataset root_path transforms transform target_transform;
    let image_extension := lower image_extension in
    let images :=
      if train then
        sorted_paths (glob root_path ("train/*/*." ++ image_extension))
      else
        sorted_paths (glob root_path ("test/*/*." ++ image_extension)) in
    if (length images =? 0)%nat then
      Raise (Builtin (ValueError
        (root_path ++ " - is empty or has incorrect structure")))
    else
      let classes := remove_dups (parent_name <$> images) in
      let classes := sorted classes in
      let classes_map := dict (zip classes (range (length classes))) in
      let reverse_classes_map :=
        dict ((λ kv : string * Z, (snd kv, fst kv)) <$> classes_map) in
      mret (Self root_path (fst (fst attributes)) (snd (fst attributes))
              (snd attributes) image_extension images classes_map
              reverse_classes_map).

Definition __getitem__ (self : t) (index : Z) : result (Image * Z) :=
  image_file ← list_getitem (images self) index;
  image ← cvtColor (imread image_file);
  target ← dict_getitem (classes_map self) (parent_name image_file);
  match transforms self with
  | Some transforms => transforms image target
  | None =>
      image ← match transform self with
              | Some transform => transform image
              | None => mret image
              end;
      target ← match target_transform self with
               | Some target_transform => target_transform target
               | None => mret target
               end;
      mret (image, target)
  end.

Definition __len__ (self : t) : nat := length (images self).

End WithEnv.

End SimpleClassificationData.

(** ** Running examples for the prediction drift check *)

Module DriftSample.
Import TrainTestPredictionDrift.

(** Modelled from the spec: what a property's method yields for one
    sample, and [properties_flatten] of
    deepchecks.vision.utils.label_prediction_properties, which is not
    among the sources.  All values of all samples of the batch are
    concatenated into one sequence; the grouping by sample is lost. *)
Inductive per_sample : Type :=
| One (v : pyval)
| Many (vs : list pyval).

Definition properties_flatten (out : list per_sample) : list pyval :=
  concat ((λ o, match o with One v => [v] | Many vs => vs end) <$> out).

(** Predictions of a detector: per image, the class id of every box. *)
Definition samples_per_class : property (list (list Z)) (list per_sample) :=
  Property "Samples Per Class"
    (λ preds, (λ boxes, Many (PInt <$> boxes)) <$> preds) class_id.

Definition boxes_per_image : property (list (list Z)) (list per_sample) :=
  Property "Number of Bounding Boxes Per Image"
    (λ preds, (λ boxes : list Z, One (PInt (Z.of_nat (length boxes))))
              <$> preds)
    continuous.

Definition first_class : property (list (list Z)) (list per_sample) :=
  Property "Class of First Box"
    (λ preds, (λ boxes, One (PInt (hd 0%Z boxes))) <$> preds) discrete.

(** A stand-in for the scorer, to run the examples: the difference of
    the two sample counts. *)
Definition count_difference (train_column test_column : list pyval) : Q :=
  inject_Z (Z.abs (Z.of_nat (length train_column) -
                   Z.of_nat (length test_column))).

Definition sample_env : Env := {|
  Batch := list (list Z);
  Predictions := list (list Z);
  Extracted := list per_sample;
  Display := string * list pyval * list pyval;
  predictions := λ batch, batch;
  TrainTestPredictionDrift.properties_flatten := properties_flatten;
  validate_properties := λ _, Ok tt;
  DEFAULT_CLASSIFICATION_PREDICTION_PROPERTIES := [samples_per_class];
  DEFAULT_OBJECT_DETECTION_PREDICTION_PROPERTIES :=
    [samples_per_class; boxes_per_image; first_class];
  drift_value := λ _ train_column test_column _,
    Ok (count_difference train_column test_column);
  drift_display := λ _ train_column test_column value_name _ _,
    (value_name, train_column, test_column);
|}.

Definition class_names (v : pyval) : string :=
  match v with
  | PInt 0 => "cat"
  | PInt 1 => "dog"
  | _ => "other"
  end.

Definition detection : VisionData :=
  {| task_type := OBJECT_DETECTION; label_id_to_name := class_names |}.

Definition sample_context : Context :=
  {| train := detection; test := detection |}.

(** [TrainTestPredictionDrift()] with every argument at its default. *)
Definition fresh : @t sample_env :=
  @Self sample_env None (Some 10%Z) (Some 10%Z) "train_largest"
    None None None.

(** [fresh] after [initialize_run]. *)
Definition started : @t sample_env :=
  @Self sample_env None (Some 10%Z) (Some 10%Z) "train_largest"
    (Some [samples_per_class; boxes_per_image; first_class])
    (Some ∅) (Some ∅).

(** An instance with properties of the caller, after [initialize_run]
    and the updates [(TRAIN, batch1)], [(TEST, batch2)]. *)
Definition loaded : @t sample_env :=
  @Self sample_env
    (Some [boxes_per_image; samples_per_class; first_class])
    (Some 10%Z) (Some 10%Z) "train_largest"
    (Some [boxes_per_image; samples_per_class; first_class])
    (Some (<["Class of First Box" := [PInt 0; PInt 1]]>
            (<["Samples Per Class" :=
                 [PInt 0; PInt 1; PInt 1; PInt 1; PInt 0]]>
              (<["Number of Bounding Boxes Per Image" := [PInt 2; PInt 3]]>
                ∅))))
    (Some (<["Class of First Box" := [PInt 1]]>
            (<["Samples Per Class" := [PInt 1]]>
              (<["Number of Bounding Boxes Per Image" := [PInt 1]]> ∅)))).

(** Two images: a cat and a dog, then two dogs and a cat. *)
Definition batch1 : list (list Z) := [[0; 1]; [1; 1; 0]]%Z.

(** One image with one dog. *)
Definition batch2 : list (list Z) := [[1]]%Z.

(** A second stand-in for the scorer: it gives up on an empty column. *)
Definition strict_env : Env := {|
  Batch := list (list Z);
  Predictions := list (list Z);
  Extracted := list per_sample;
  Display := string * list pyval * list pyval;
  predictions := λ batch, batch;
  TrainTestPredictionDrift.properties_flatten := properties_flatten;
  validate_properties := λ _, Ok tt;
  DEFAULT_CLASSIFICATION_PREDICTION_PROPERTIES := [samples_per_class];
  DEFAULT_OBJECT_DETECTION_PREDICTION_PROPERTIES :=
    [samples_per_class; boxes_per_image; first_class];
  drift_value := λ _ train_column test_column _,
    match train_column, test_column with
    | [], _ => Raise (DeepchecksValueError "empty column")
    | _, [] => Raise (DeepchecksValueError "empty column")
    | _, _ => Ok (count_difference train_column test_column)
    end;
  drift_display := λ _ train_column test_column value_name _ _,
    (value_name, train_column, test_column);
|}.

(** An instance whose second property has met no TEST value. *)
Definition lacking : @t strict_env :=
  @Self strict_env
    (Some [boxes_per_image; samples_per_class; first_class])
    (Some 10%Z) (Some 10%Z) "train_largest"
    (Some [boxes_per_image; samples_per_class; first_class])
    (Some (<["Class of First Box" := [PInt 0]]>
            (<["Samples Per Class" := [PInt 0; PInt 1]]>
              (<["Number of Bounding Boxes Per Image" := [PInt 2]]> ∅))))
    (Some (<["Class of First Box" := [PInt 1]]>
            (<["Number of Bounding Boxes Per Image" := [PInt 0]]> ∅))).

(** A second property of class ids, declared under the name of
    [samples_per_class]: the class of the first box of each image. *)
Definition first_class_id : property (list (list Z)) (list per_sample) :=
  Property "Samples Per Class"
    (λ preds, (λ boxes, One (PInt (hd 0%Z boxes))) <$> preds) class_id.

(** [TrainTestPredictionDrift(prediction_properties=[...])] with these
    two properties of one name. *)
Definition twins : @t sample_env :=
  @Self sample_env
    (Some [samples_per_class; first_class_id])
    (Some 10%Z) (Some 10%Z) "train_largest" None None None.

(** An instance with the configuration of [loaded], fresh from
    [__init__]. *)
Definition configured : @t sample_env :=
  @Self sample_env
    (Some [boxes_per_image; samples_per_class; first_class])
    (Some 10%Z) (Some 10%Z) "train_largest" None None None.

End DriftSample.

(** ** Running examples for the other checks *)

Module ErrorSample.
Import ModelErrorAnalysis.

(** A stand-in for the error model: it gives up, with the exception of
    its class, when the frame of properties has no column. *)
Definition sample_env : Env := {|
  Batch := list Z;
  Images := list Z;
  Outputs := list Z;
  Frame := list (string * list pyval);
  ErrorFi := unit;
  Predicted := unit;
  Display := string;
  Value := list string;
  images := λ batch, batch;
  predictions := λ batch, batch;
  labels := λ batch, batch;
  to_numpy := λ out, out;
  default_image_properties :=
    [Property "Brightness" (λ imgs, PInt <$> imgs) continuous];
  ModelErrorAnalysis.validate_properties := λ _, Ok tt;
  assert_task_type := λ _ _, Ok tt;
  per_sample_cross_entropy := λ labels predictions, inject_Z <$> predictions;
  per_sample_mean_iou := λ predictions labels, inject_Z <$> predictions;
  DataFrame := λ d, Ok (map_to_list (default ∅ d));
  dropna_columns_all := λ frame, frame;
  columns := λ frame, fst <$> frame;
  select_columns := λ frame cols,
    Ok (filter (λ col, fst col ∈ cols) frame);
  model_error_contribution := λ train_df _ _ _ _ _ _ _,
    match train_df with
    | [] => Raise (DeepchecksProcessError "no usable feature columns")
    | _ => Ok (tt, tt)
    end;
  error_model_display_dataframe := λ _ _ test_df _ _ _ _ _ _,
    Ok (fst <$> test_df, fst <$> test_df);
|}.

(** An instance without image properties, after [initialize_run]. *)
Definition empty_handed : @t sample_env :=
  @Self sample_env 42%Z 0.5%Q 0.05%Q 20%Z 0.15%Q 5000%Z []
    (Some ∅) (Some ∅) (Some []) (Some []).

Definition classification : VisionData :=
  {| task_type := CLASSIFICATION; label_id_to_name := λ _, "class" |}.

Definition sample_context : Vision.Context :=
  {| Vision.train := classification; Vision.test := classification |}.

(** An instance with the default property, fresh from [__init__], and
    the same instance as an earlier run left it. *)
Definition fresh : @t sample_env :=
  @Self sample_env 42%Z 0.5%Q 0.05%Q 20%Z 0.15%Q 5000%Z
    [Property "Brightness" (λ imgs, PInt <$> imgs) continuous]
    None None None None.

Definition used : @t sample_env :=
  @Self sample_env 42%Z 0.5%Q 0.05%Q 20%Z 0.15%Q 5000%Z
    [Property "Brightness" (λ imgs, PInt <$> imgs) continuous]
    (Some (<["Brightness" := [PInt 7; PInt 9]]> ∅))
    (Some (<["Brightness" := [PInt 5]]> ∅))
    (Some [7%Q; 9%Q]) (Some [5%Q]).

End ErrorSample.

Module SegmentSample.
Import SegmentPerformance.

(** A dataset: its feature names and its number of rows.  The stand-in
    for [partition_column] makes one segment, named after the feature. *)
Definition sample_env : Env := {|
  Data := list Hashable * nat;
  Model := unit;
  Scorer := unit;
  Filter := string;
  features := fst;
  assert_features := λ _, Ok tt;
  get_single_scorer := λ _, Ok tt;
  partition_column := λ _ feature _,
    Ok [match feature with HStr s => s | HInt _ => "column" end];
  apply_filter := λ _ data, data;
  label := λ f, f;
  rows := snd;
  score := λ _ _ _, 1%Q;
  sort_values_descending := λ importance, importance;
|}.

(** [SegmentPerformance()] with every argument at its default. *)
Definition fresh : @t sample_env := @Self sample_env None None 10%Z None.

Definition adults : @Context sample_env :=
  @Build_Context sample_env
    ([HStr "age"; HStr "income"; HStr "sex"], 100%nat)
    ([HStr "age"; HStr "income"; HStr "sex"], 50%nat)
    tt None.

Definition houses : @Context sample_env :=
  @Build_Context sample_env
    ([HStr "rooms"; HStr "area"], 80%nat)
    ([HStr "rooms"; HStr "area"], 40%nat)
    tt None.

(** A context with the importances of the features, in descending
    order (the stand-in for the sort leaves a list as it is). *)
Definition ranked : @Context sample_env :=
  @Build_Context sample_env
    ([HStr "age"; HStr "income"; HStr "sex"], 100%nat)
    ([HStr "age"; HStr "income"; HStr "sex"], 50%nat)
    tt
    (Some [(HStr "sex", 0.5%Q); (HStr "age", 0.3%Q); (HStr "income", 0.2%Q)]).

End SegmentSample.

Module MixedSample.
Import MixedDataTypes.

(** A stand-in for [float] on strings: a non-empty string of decimal
    digits parses. *)
Fixpoint all_digits (s : string) : bool :=
  match s with
  | EmptyString => true
  | String c s' =>
      (Nat.leb 48 (Ascii.nat_of_ascii c) && Nat.leb (Ascii.nat_of_ascii c) 57)
      && all_digits s'
  end.

Definition digits (s : string) : bool :=
  match s with
  | EmptyString => false
  | _ => all_digits s
  end.

(** A stand-in for [is_string_column]: some entry is a string. *)
Definition has_string (column : list cell) : bool :=
  existsb (λ c, match c with Value (PStr _) => true | _ => false end) column.

Definition sample_env : Env := {|
  Frame := list (Hashable * list cell);
  float_parses := digits;
  is_string_column := has_string;
  select_from_dataframe := λ frame _ _, Ok frame;
|}.

(** [MixedDataTypes()] and a frame of three columns: ages with one word
    among ninety-nine numbers written as strings would be too long to
    write down; here one word among four entries, a column of numbers,
    and a column with as many words as numbers. *)
Definition check : t := Self None None 10%Z.

Definition table : list (Hashable * list cell) :=
  [(HStr "age", [Value (PStr "31"); Value (PStr "n/a"); NaN;
                 Value (PStr "47"); Value (PStr "52")]);
   (HStr "height", [Value (PInt 180); Value (PInt 165)]);
   (HInt 7, [Value (PStr "a"); Value (PStr "1"); NoneValue])].

End MixedSample.

Module DatasetSample.
Import SimpleClassificationData.

(** A stand-in for the file system: a root folder with three train
    images in two class folders and no test image; an image is named by
    its file. *)
Definition sample_env : Env := {|
  Path := string * string;
  Image := string;
  absolute := λ root, root;
  is_folder := λ root_path, String.eqb root_path "/data";
  glob := λ root_path pattern,
    if String.eqb pattern "train/*/*.jpg" then
      [("dog", "rex.jpg"); ("cat", "tom.jpg"); ("dog", "fido.jpg")]
    else [];
  sorted_paths := λ paths,
    filter (λ p, fst p = "cat") paths ++ filter (λ p, fst p ≠ "cat") paths;
  parent_name := fst;
  lower := λ s, s;
  imread := λ image_file, Some (snd image_file);
  cvtColor := λ image,
    match image with
    | Some pixels => Ok pixels
    | None => Raise (Builtin (TypeError "cv2.error"))
    end;
  VisionDataset := λ _ transforms transform target_transform,
    Ok (transforms, transform, target_transform);
|}.

End DatasetSample.

(** * Part II: properties *)

(** ** The result monad and the ordered dictionary *)

Section PyFacts.

Lemma bind_Ok_inv {A B : Type} (r : result A) (k : A → result B) (b : B) :
  r ≫= k = Ok b → ∃ a, r = Ok a ∧ k a = Ok b.
Proof.
  destruct r as [a|e]; simpl; intros H; [eauto | discriminate].
Qed.

Lemma od_get_set_eq {K V : Type} `{EqDecision K} (k : K) (v : V)
    (d : list (K * V)) :
  od_get k (od_set k v d) = Some v.
Proof.
  induction d as [|[k' v'] d IH]; simpl.
  - by rewrite decide_True.
  - destruct (decide (k = k')) as [->|Hne]; simpl.
    + by rewrite decide_True.
    + by rewrite decide_False.
Qed.

Lemma od_get_set_ne {K V : Type} `{EqDecision K} (k k0 : K) (v : V)
    (d : list (K * V)) :
  k0 ≠ k → od_get k0 (od_set k v d) = od_get k0 d.
Proof.
  intros Hne. induction d as [|[k' v'] d IH]; simpl.
  - by rewrite decide_False.
  - destruct (decide (k = k')) as [->|Hne']; simpl.
    + by rewrite !decide_False.
    + destruct (decide (k0 = k')); auto.
Qed.

Lemma foldM_app {A S : Type} (body : S → A → result S) (acc : S)
    (xs ys : list A) :
  foldM body acc (xs ++ ys) = foldM body acc xs ≫= λ acc', foldM body acc' ys.
Proof.
  revert acc. induction xs as [|x xs IH]; intros acc; simpl; [reflexivity|].
  destruct (body acc x); simpl; auto.
Qed.

Lemma mapM_Ok_inv {A B : Type} (f : A → result B) (l : list A) (k : list B) :
  mapM f l = Ok k → Forall2 (λ a b, f a = Ok b) l k.
Proof.
  revert k. induction l as [|a l IH]; intros k; simpl.
  - intros [= <-]. constructor.
  - intros H. apply bind_Ok_inv in H as (b & Hb & H).
    apply bind_Ok_inv in H as (k' & Hk' & H). injection H as <-.
    constructor; auto.
Qed.

Lemma mapM_Ok {A B : Type} (f : A → result B) (g : A → B) (l : list A) :
  (∀ a, a ∈ l → f a = Ok (g a)) → mapM f l = Ok (g <$> l).
Proof.
  induction l as [|a l IH]; intros H; simpl; [reflexivity|].
  rewrite (H a) by (apply elem_of_cons; by left). simpl.
  rewrite IH; [reflexivity|]. intros b Hb. apply H.
  apply elem_of_cons. by right.
Qed.

(** *** [sorted(..., reverse=True)]: a stable descending sort *)

Lemma insert_reverse_perm {A : Type} (key : A → Q) (x : A) (l : list A) :
  insert_reverse key x l ≡ₚ x :: l.
Proof.
  induction l as [|y l IH]; simpl; [reflexivity|].
  destruct (Qle_bool (key y) (key x)); [reflexivity|].
  rewrite IH. apply Permutation_swap.
Qed.

Lemma sorted_reverse_perm {A : Type} (key : A → Q) (l : list A) :
  sorted_reverse key l ≡ₚ l.
Proof.
  induction l as [|x l IH]; simpl; [reflexivity|].
  by rewrite insert_reverse_perm, IH.
Qed.

Lemma insert_reverse_descending {A : Type} (key : A → Q) (x : A) (l : list A) :
  StronglySorted (λ a b, (key b <= key a)%Q) l →
  StronglySorted (λ a b, (key b <= key a)%Q) (insert_reverse key x l).
Proof.
  induction 1 as [|y l Hl IH Hy]; simpl.
  - repeat constructor.
  - destruct (Qle_bool (key y) (key x)) eqn:Hle.
    + apply Qle_bool_iff in Hle. constructor.
      * by constructor.
      * constructor; [exact Hle|].
        eapply Forall_impl; [exact Hy|]. simpl. intros z Hz.
        by eapply Qle_trans.
    + constructor; [exact IH|].
      eapply Permutation_Forall.
      * symmetry. apply Permutation_sym, Permutation_sym, insert_reverse_perm.
      * constructor; [|exact Hy].
        destruct (Qlt_le_dec (key x) (key y)) as [Hlt|Hge].
        -- by apply Qlt_le_weak.
        -- apply Qle_bool_iff in Hge. congruence.
Qed.

Lemma sorted_reverse_descending {A : Type} (key : A → Q) (l : list A) :
  StronglySorted (λ a b, (key b <= key a)%Q) (sorted_reverse key l).
Proof.
  induction l as [|x l IH]; simpl; [constructor|].
  by apply insert_reverse_descending.
Qed.

Lemma insert_reverse_stable {A : Type} (key : A → Q) (q : Q) (x : A)
    (l : list A) :
  filter (λ a, (key a == q)%Q) (insert_reverse key x l) =
  filter (λ a, (key a == q)%Q) (x :: l).
Proof.
  induction l as [|y l IH]; simpl; [reflexivity|].
  destruct (Qle_bool (key y) (key x)) eqn:Hle; [reflexivity|].
  rewrite (filter_cons _ y), IH, !filter_cons.
  destruct (decide (key y == q)%Q) as [Hy|Hy];
    destruct (decide (key x == q)%Q) as [Hx|Hx]; try reflexivity.
  exfalso. assert (Qle_bool (key y) (key x) = true); [|congruence].
  apply Qle_bool_iff. rewrite Hx, Hy. apply Qle_refl.
Qed.

Lemma sorted_reverse_stable {A : Type} (key : A → Q) (q : Q) (l : list A) :
  filter (λ a, (key a == q)%Q) (sorted_reverse key l) =
  filter (λ a, (key a == q)%Q) l.
Proof.
  induction l as [|x l IH]; simpl; [reflexivity|].
  by rewrite insert_reverse_stable, !filter_cons, IH.
Qed.

Lemma insert_reverse_fmap {A B : Type} (f : A → B) (key : B → Q) (x : A)
    (l : list A) :
  insert_reverse key (f x) (f <$> l) = f <$> insert_reverse (key ∘ f) x l.
Proof.
  induction l as [|y l IH]; [reflexivity|].
  rewrite fmap_cons. cbn [insert_reverse]. unfold compose at 1 2.
  destruct (Qle_bool (key (f y)) (key (f x))); [reflexivity|].
  by rewrite IH, fmap_cons.
Qed.

(** Sorting decorated elements is sorting the elements by the key that
    decorates them. *)
Lemma sorted_reverse_fmap {A B : Type} (f : A → B) (key : B → Q) (l : list A) :
  sorted_reverse key (f <$> l) = f <$> sorted_reverse (key ∘ f) l.
Proof.
  induction l as [|x l IH]; [reflexivity|].
  rewrite fmap_cons. cbn [sorted_reverse].
  by rewrite IH, insert_reverse_fmap.
Qed.

End PyFacts.

(** ** TrainTestPredictionDrift: accumulation *)

Section DriftAccumulation.
Import TrainTestPredictionDrift.
Context {env : Env}.

Lemma extracted_by_name_cons (n : string) (p : prop) (ps : list prop)
    (batch : Batch) :
  extracted_by_name n (p :: ps) batch =
  (if decide (name p = n) then extracted p batch else []) ++
  extracted_by_name n ps batch.
Proof.
  unfold extracted_by_name. rewrite filter_cons.
  destruct (decide (name p = n)); reflexivity.
Qed.

Lemma extracted_by_name_absent (n : string) (ps : list prop) (batch : Batch) :
  n ∉ name <$> ps → extracted_by_name n ps batch = [].
Proof.
  induction ps as [|q ps IH]; intros Hn; [reflexivity|].
  rewrite fmap_cons in Hn. apply not_elem_of_cons in Hn as [Hne Hn].
  rewrite extracted_by_name_cons, decide_False by congruence.
  by apply IH.
Qed.

Lemma extracted_by_name_unique (p : prop) (ps : list prop) (batch : Batch) :
  NoDup (name <$> ps) → p ∈ ps →
  extracted_by_name (name p) ps batch = extracted p batch.
Proof.
  induction ps as [|q ps IH]; intros Hnd Hin.
  - by apply elem_of_nil in Hin.
  - rewrite fmap_cons in Hnd. apply NoDup_cons in Hnd as [Hq Hnd].
    rewrite extracted_by_name_cons.
    apply elem_of_cons in Hin as [->|Hin].
    + rewrite decide_True by done.
      rewrite extracted_by_name_absent by done. by rewrite app_nil_r.
    + rewrite decide_False.
      * by apply IH.
      * intros Heq. apply Hq. rewrite Heq. by apply list_elem_of_fmap_2.
Qed.

(** The loop of [update] on an initialised buffer never raises; under
    each name it appends what the properties of that name extract. *)
Lemma extend_properties (batch : Batch) (ps : list prop) (d : buffers) :
  ∃ d', foldM (extend_property batch) (Some d) ps = Ok (Some d') ∧
        ∀ n, d' !!! n = d !!! n ++ extracted_by_name n ps batch.
Proof.
  revert d. induction ps as [|p ps IH]; intros d.
  - exists d. split; [reflexivity|]. intros n.
    unfold extracted_by_name. simpl. by rewrite app_nil_r.
  - simpl.
    destruct (IH (<[name p := d !!! name p ++ extracted p batch]> d))
      as (d' & Hfold & Hd').
    exists d'. split; [exact Hfold|]. intros n.
    rewrite Hd', extracted_by_name_cons.
    destruct (decide (name p = n)) as [<-|Hne].
    + by rewrite lookup_total_insert_eq, <- app_assoc.
    + by rewrite lookup_total_insert_ne.
Qed.

(** One [update] of a ready instance: the buffer of the batch's kind
    grows, the other buffer and the configuration stay. *)
Lemma update_ready (self : t) (context : Context) (batch : Batch)
    (k : DatasetKind) (ps : list prop) (tr te : buffers) :
  ready self ps tr te →
  ∃ self' tr' te',
    update self context batch (Kind k) = Ok self' ∧
    ready self' ps tr' te' ∧ config self' = config self ∧
    (∀ n, tr' !!! n =
          tr !!! n ++
          (if decide (k = TRAIN) then extracted_by_name n ps batch else [])) ∧
    (∀ n, te' !!! n =
          te !!! n ++
          (if decide (k = TEST) then extracted_by_name n ps batch else [])).
Proof.
  intros (Hps & Htr & Hte). unfold update.
  destruct k; rewrite Hps; simpl.
  - rewrite Htr. destruct (extend_properties batch ps tr) as (d' & -> & Hd').
    simpl. eexists _, d', te. split; [reflexivity|].
    repeat split; simpl; auto.
    intros n. by rewrite app_nil_r.
  - rewrite Hte. destruct (extend_properties batch ps te) as (d' & -> & Hd').
    simpl. eexists _, tr, d'. split; [reflexivity|].
    repeat split; simpl; auto.
    intros n. by rewrite app_nil_r.
Qed.

Lemma batches_of_cons (k k' : DatasetKind) (batch : Batch)
    (calls : list (DatasetKind * Batch)) :
  batches_of k ((k', batch) :: calls) =
  (if decide (k' = k) then [batch] else []) ++ batches_of k calls.
Proof.
  unfold batches_of. rewrite filter_cons. simpl.
  destruct (decide (k' = k)); reflexivity.
Qed.

(** Any sequence of updates of a ready instance succeeds, and each buffer
    holds, under each name, what was there followed by the values
    extracted from the batches of its own kind, in arrival order. *)
Lemma feed_ready (context : Context) (calls : list (DatasetKind * Batch))
    (self : t) (ps : list prop) (tr te : buffers) :
  ready self ps tr te →
  ∃ self' tr' te',
    feed self context calls = Ok self' ∧
    ready self' ps tr' te' ∧ config self' = config self ∧
    (∀ n, tr' !!! n =
          tr !!! n ++
          concat (extracted_by_name n ps <$> batches_of TRAIN calls)) ∧
    (∀ n, te' !!! n =
          te !!! n ++
          concat (extracted_by_name n ps <$> batches_of TEST calls)).
Proof.
  revert self tr te. induction calls as [|[k batch] calls IH];
    intros self tr te Hready.
  - exists self, tr, te. repeat split; try apply Hready.
    + intros n. simpl. by rewrite app_nil_r.
    + intros n. simpl. by rewrite app_nil_r.
  - destruct (update_ready self context batch k ps tr te Hready)
      as (self1 & tr1 & te1 & Hupd & Hready1 & Hcfg1 & Htr1 & Hte1).
    destruct (IH self1 tr1 te1 Hready1)
      as (self2 & tr2 & te2 & Hfeed & Hready2 & Hcfg2 & Htr2 & Hte2).
    exists self2, tr2, te2. unfold feed in *. cbn [foldM fst snd].
    rewrite Hupd. cbn [Py.bind].
    split; [exact Hfeed|]. split; [exact Hready2|].
    split; [congruence|].
    split; intros n.
    + rewrite Htr2, Htr1, batches_of_cons.
      destruct k; simpl; rewrite <- ?app_assoc; simpl; by rewrite ?app_nil_r.
    + rewrite Hte2, Hte1, batches_of_cons.
      destruct k; simpl; rewrite <- ?app_assoc; simpl; by rewrite ?app_nil_r.
Qed.

(** [initialize_run] leaves a ready instance with empty buffers and the
    configuration it found. *)
Lemma initialize_run_ready (self self0 : t) (context : Context) :
  initialize_run self context = Ok self0 →
  ∃ ps, ready self0 ps ∅ ∅ ∧ config self0 = config self.
Proof.
  unfold initialize_run. intros H.
  apply bind_Ok_inv in H as (ps & _ & H). simpl in H.
  injection H as <-. exists ps. by repeat split.
Qed.

End DriftAccumulation.


(** ** TrainTestPredictionDrift: compute *)

Section DriftCompute.
Import TrainTestPredictionDrift.
Context {env : Env}.

Lemma stored_after_same (lookup : pyval → string) (p : prop) (d : buffers) :
  stored_after lookup p d !!! name p = scored_column lookup p d.
Proof.
  unfold stored_after, scored_column.
  destruct (output_type p); auto. by rewrite lookup_total_insert_eq.
Qed.

Lemma stored_after_other (lookup : pyval → string) (p : prop) (d : buffers)
    (n : string) :
  n ≠ name p → stored_after lookup p d !!! n = d !!! n.
Proof.
  intros Hne. unfold stored_after.
  destruct (output_type p); auto. by rewrite lookup_total_insert_ne.
Qed.

(** One turn of the loop of [compute] on a ready instance: it raises
    exactly when the scorer does. *)
Lemma compute_property_ready (ctx : Context) (self : t) (ps0 : list prop)
    (tr te : buffers) (vd : list (string * drift_entry))
    (dd : list (string * Display)) (q : prop) :
  ready self ps0 tr te →
  ∃ self1,
    ready self1 ps0 (stored_after (label_id_to_name (train ctx)) q tr)
                    (stored_after (label_id_to_name (test ctx)) q te) ∧
    config self1 = config self ∧
    compute_property ctx (self, vd, dd) q =
      (value ← drift_value (get_column_type (output_type q))
                 (scored_column (label_id_to_name (train ctx)) q tr)
                 (scored_column (label_id_to_name (test ctx)) q te)
                 (max_num_categories_for_drift self);
       mret (self1,
             od_set (name q)
               (Entry value (scorer_name (get_column_type (output_type q))))
               vd,
             od_set (name q)
               (drift_display (get_column_type (output_type q))
                  (scored_column (label_id_to_name (train ctx)) q tr)
                  (scored_column (label_id_to_name (test ctx)) q te)
                  (name q) (max_num_categories_for_display self)
                  (show_categories_by self))
               dd)).
Proof.
  intros (Hps & Htr & Hte).
  unfold compute_property, stored_after, scored_column, calc_drift_and_plot.
  destruct (output_type q) eqn:Hot; simpl.
  - exists self. split; [by repeat split|]. split; [reflexivity|].
    rewrite Htr, Hte. simpl.
    by destruct (drift_value _ _ _ _).
  - exists self. split; [by repeat split|]. split; [reflexivity|].
    rewrite Htr, Hte. simpl.
    by destruct (drift_value _ _ _ _).
  - rewrite Htr. simpl. rewrite Hte. simpl.
    eexists. split; [|split]; [| |rewrite !lookup_total_insert_eq;
      destruct (drift_value _ _ _ _); reflexivity].
    + by repeat split.
    + reflexivity.
Qed.

Lemma scored_column_ext (lookup : pyval → string) (p : prop) (d d' : buffers) :
  d !!! name p = d' !!! name p →
  scored_column lookup p d = scored_column lookup p d'.
Proof. unfold scored_column. by intros ->. Qed.



(** Unfolds one turn of the loop in a hypothesis on the whole loop. *)
Ltac loop_step ctx self ps0 tr te vd dd q Hready H :=
  let self1 := fresh "self1" in
  let Hready1 := fresh "Hready1" in
  let Hcfg1 := fresh "Hcfg1" in
  let Hstep := fresh "Hstep" in
  let value := fresh "value" in
  let Hvalue := fresh "Hvalue" in
  cbn [foldM] in H;
  destruct (compute_property_ready ctx self ps0 tr te vd dd q Hready)
    as (self1 & Hready1 & Hcfg1 & Hstep);
  rewrite Hstep in H;
  destruct (drift_value _ _ _ _) as [value|] eqn:Hvalue;
    [cbn [Py.bind mbind result_bind mret result_ret] in H | discriminate H].

(** The loop of [compute]: the configuration stays, the instance stays
    ready, whatever is stored under a name that no property of the loop
    bears stays, and a property whose name is borne once is scored on
    its own column. *)
Lemma compute_loop (ctx : Context) (ps0 ps : list prop) :
  ∀ (self : t) (tr te : buffers) (vd : list (string * drift_entry))
    (dd : list (string * Display)) self' vd' dd',
  ready self ps0 tr te →
  foldM (compute_property ctx) (self, vd, dd) ps = Ok (self', vd', dd') →
  config self' = config self ∧
  ∃ tr' te',
    ready self' ps0 tr' te' ∧
    (∀ n, n ∉ name <$> ps →
       tr' !!! n = tr !!! n ∧ te' !!! n = te !!! n ∧
       od_get n vd' = od_get n vd ∧ od_get n dd' = od_get n dd) ∧
    (NoDup (name <$> ps) → ∀ p, p ∈ ps →
       let train_column :=
         scored_column (label_id_to_name (train ctx)) p tr in
       let test_column :=
         scored_column (label_id_to_name (test ctx)) p te in
       tr' !!! name p = train_column ∧ te' !!! name p = test_column ∧
       ∃ value,
         drift_value (get_column_type (output_type p)) train_column
           test_column (max_num_categories_for_drift self) = Ok value ∧
         od_get (name p) vd' =
           Some (Entry value (scorer_name (get_column_type (output_type p)))) ∧
         od_get (name p) dd' =
           Some (drift_display (get_column_type (output_type p))
                   train_column test_column (name p)
                   (max_num_categories_for_display self)
                   (show_categories_by self))).
Proof.
  induction ps as [|q ps IH]; intros self tr te vd dd self' vd' dd' Hready H.
  - injection H as <- <- <-. split; [reflexivity|].
    exists tr, te. split; [exact Hready|]. split; [by intros|].
    intros _ p Hp. by apply elem_of_nil in Hp.
  - loop_step ctx self ps0 tr te vd dd q Hready H.
    destruct (IH _ _ _ _ _ _ _ _ Hready1 H)
      as (Hcfg & tr' & te' & Hready' & Hframe & Hentry).
    split; [congruence|]. exists tr', te'. split; [exact Hready'|].
    split.
    + intros n Hn. rewrite fmap_cons in Hn.
      apply not_elem_of_cons in Hn as [Hne Hn].
      destruct (Hframe n Hn) as (-> & -> & -> & ->).
      by rewrite !stored_after_other, !od_get_set_ne.
    + intros Hnd p Hp. rewrite fmap_cons in Hnd.
      apply NoDup_cons in Hnd as [Hq Hnd].
      assert (Hd : max_num_categories_for_drift self1 =
                   max_num_categories_for_drift self) by
        (unfold config in Hcfg1; congruence).
      assert (Hs : max_num_categories_for_display self1 =
                   max_num_categories_for_display self) by
        (unfold config in Hcfg1; congruence).
      assert (Hb : show_categories_by self1 = show_categories_by self) by
        (unfold config in Hcfg1; congruence).
      apply elem_of_cons in Hp as [->|Hp].
      * destruct (Hframe (name q) Hq) as (-> & -> & -> & ->).
        rewrite !stored_after_same, !od_get_set_eq. simpl.
        split; [reflexivity|]. split; [reflexivity|]. eauto.
      * assert (Hne : name p ≠ name q).
        { intros Heq. apply Hq. rewrite <- Heq. by apply list_elem_of_fmap_2. }
        specialize (Hentry Hnd p Hp). simpl in Hentry.
        rewrite Hd, Hs, Hb in Hentry.
        rewrite !(scored_column_ext _ p (stored_after _ q _) _) in Hentry
          by (by apply stored_after_other).
        exact Hentry.
Qed.


(** Every name met by the loop, or present before it, is a key of both
    dictionaries after it. *)
Lemma compute_loop_keys (ctx : Context) (ps0 ps : list prop) :
  ∀ (self : t) (tr te : buffers) (vd : list (string * drift_entry))
    (dd : list (string * Display)) self' vd' dd',
  ready self ps0 tr te →
  foldM (compute_property ctx) (self, vd, dd) ps = Ok (self', vd', dd') →
  ∀ n, n ∈ name <$> ps ∨ (is_Some (od_get n vd) ∧ is_Some (od_get n dd)) →
       is_Some (od_get n vd') ∧ is_Some (od_get n dd').
Proof.
  induction ps as [|q ps IH]; intros self tr te vd dd self' vd' dd' Hready H n.
  - injection H as <- <- <-. intros [Hn|Hn]; [|exact Hn].
    by apply elem_of_nil in Hn.
  - loop_step ctx self ps0 tr te vd dd q Hready H.
    intros Hn. apply (IH _ _ _ _ _ _ _ _ Hready1 H).
    rewrite fmap_cons in Hn. destruct Hn as [Hn|Hn].
    + apply elem_of_cons in Hn as [->|Hn]; [right|by left].
      by rewrite !od_get_set_eq.
    + right. destruct (decide (n = name q)) as [->|Hne].
      * by rewrite !od_get_set_eq.
      * by rewrite !od_get_set_ne.
Qed.

(** The loop raises only if the scorer does. *)
Lemma compute_loop_total (ctx : Context) (ps0 ps : list prop) :
  (∀ c a b m, ∃ v, drift_value c a b m = Ok v) →
  ∀ (self : t) (tr te : buffers) (vd : list (string * drift_entry))
    (dd : list (string * Display)),
  ready self ps0 tr te →
  ∃ st, foldM (compute_property ctx) (self, vd, dd) ps = Ok st.
Proof.
  intros Hscore. induction ps as [|q ps IH]; intros self tr te vd dd Hready.
  - by eexists.
  - cbn [foldM].
    destruct (compute_property_ready ctx self ps0 tr te vd dd q Hready)
      as (self1 & Hready1 & _ & ->).
    destruct (Hscore (get_column_type (output_type q))
                (scored_column (label_id_to_name (train ctx)) q tr)
                (scored_column (label_id_to_name (test ctx)) q te)
                (max_num_categories_for_drift self)) as [v ->].
    cbn [Py.bind mbind result_bind mret result_ret].
    by apply IH with (tr := stored_after (label_id_to_name (train ctx)) q tr)
                     (te := stored_after (label_id_to_name (test ctx)) q te).
Qed.

Lemma zip_decorate {A B : Type} (f : A → B) (l : list A) :
  zip l (f <$> l) = (λ a, (a, f a)) <$> l.
Proof.
  induction l as [|a l IH]; [reflexivity|].
  rewrite !fmap_cons. cbn [zip zip_with]. by rewrite <- IH.
Qed.

Lemma fst_decorate {A B : Type} (f : A → B) (l : list A) :
  fst <$> ((λ a, (a, f a)) <$> l) = l.
Proof.
  induction l as [|a l IH]; [reflexivity|].
  rewrite !fmap_cons. cbn [fst]. by rewrite IH.
Qed.

Lemma mapM_total {A B : Type} (f : A → result B) (l : list A) :
  (∀ a, a ∈ l → ∃ b, f a = Ok b) →
  ∃ k, mapM f l = Ok k ∧ Forall2 (λ a b, f a = Ok b) l k.
Proof.
  induction l as [|a l IH]; intros H.
  - exists []. split; [reflexivity|constructor].
  - destruct (H a) as [b Hb]; [apply elem_of_cons; by left|].
    destruct IH as (k & Hk & Hall).
    { intros a' Ha'. apply H. apply elem_of_cons. by right. }
    exists (b :: k). simpl. rewrite Hb. simpl. rewrite Hk. simpl.
    split; [reflexivity|]. by constructor.
Qed.

(** [compute] on a ready instance raises exactly when its loop does;
    otherwise the value is the dictionary of the loop and the charts
    follow the head note in the order [sorted] gives the names. *)
Lemma compute_ready (ctx : Context) (self : t) (ps : list prop)
    (tr te : buffers) :
  ready self ps tr te →
  match foldM (compute_property ctx) (self, [], []) ps with
  | Raise e => compute self ctx = Raise e
  | Ok (self', vd, dd) =>
      ∃ figs,
        compute self ctx =
          Ok (self', {| value := vd;
                        display := Headnote (name <$> ps) :: figs;
                        header := "Train Test Prediction Drift" |}) ∧
        Forall2 (λ col fig, ∃ d, od_get col dd = Some d ∧ fig = Figure d)
          (sorted_reverse (drift_score_of vd) (name <$> ps)) figs
  end.
Proof.
  intros Hready. pose proof Hready as (Hps & _ & _).
  unfold compute. rewrite Hps. cbn [not_none mbind result_bind Py.bind].
  destruct (foldM (compute_property ctx) (self, [], []) ps)
    as [[[self' vd] dd]|e] eqn:Hloop; [|reflexivity].
  pose proof (compute_loop_keys ctx ps ps _ _ _ _ _ _ _ _ Hready Hloop) as Hkeys.
  destruct (mapM_total
              (λ col, d ← getitem col dd; mret (Figure d))
              (sorted_reverse (drift_score_of vd) (name <$> ps)))
    as (figs & Hfigs & Hall).
  { intros n Hn. rewrite sorted_reverse_perm in Hn.
    destruct (Hkeys n (or_introl Hn)) as [_ [d Hd]].
    exists (Figure d). unfold getitem. by rewrite Hd. }
  exists figs. split.
  - cbn [mbind result_bind Py.bind].
    rewrite (mapM_Ok (score_of vd) (drift_score_of vd)).
    2:{ intros n Hn. destruct (Hkeys n (or_introl Hn)) as [[e He] _].
        unfold score_of, getitem, drift_score_of. by rewrite He. }
    cbn [mbind result_bind Py.bind].
    rewrite zip_decorate, sorted_reverse_fmap, fst_decorate.
    change (snd ∘ (λ a, (a, drift_score_of vd a))) with (drift_score_of vd).
    unfold mbind, result_bind in Hfigs |- *. rewrite Hfigs. reflexivity.
  - eapply Forall2_impl; [exact Hall|]. simpl. intros col fig Hfig.
    unfold getitem in Hfig. destruct (od_get col dd) as [d|]; [|discriminate].
    injection Hfig as <-. eauto.
Qed.

End DriftCompute.

Section DriftAccumulationClaims.
Import TrainTestPredictionDrift.
Context {env : Env}.

(** C1, amended.  After [initialize_run] and any sequence of [update]
    calls, the
    buffer of each declared property for TRAIN is the concatenation, in
    arrival order, of the flattened values its method extracts from the
    TRAIN batches only, and likewise for TEST, the declared properties
    having pairwise distinct names (a buffer is kept per name).  In
    particular, after two updates with the same TRAIN batch, [compute]
    finds that batch's values twice in the train buffer and the test
    buffer empty, and scores the property on them (on their names, for
    class ids). *)
Theorem accumulator_buffers_by_kind (self self0 : t) (ctx : Context)
    (ps : list prop) :
  initialize_run self ctx = Ok self0 →
  _prediction_properties self0 = Some ps →
  NoDup (name <$> ps) →
  (∀ calls : list (DatasetKind * Batch),
     ∃ self1 tr te,
       feed self0 ctx calls = Ok self1 ∧
       _train_prediction_properties self1 = Some tr ∧
       _test_prediction_properties self1 = Some te ∧
       ∀ p, p ∈ ps →
         tr !!! name p = concat (extracted p <$> batches_of TRAIN calls) ∧
         te !!! name p = concat (extracted p <$> batches_of TEST calls)) ∧
  (∀ batch1 : Batch,
     ∃ self1 tr te,
       feed self0 ctx [(TRAIN, batch1); (TRAIN, batch1)] = Ok self1 ∧
       _train_prediction_properties self1 = Some tr ∧
       _test_prediction_properties self1 = Some te ∧
       ∀ p, p ∈ ps →
         tr !!! name p = extracted p batch1 ++ extracted p batch1 ∧
         te !!! name p = [] ∧
         ∀ self2 res, compute self1 ctx = Ok (self2, res) →
           ∃ score,
             drift_value (get_column_type (output_type p))
               (match output_type p with
                | class_id =>
                    (λ class_id,
                       PStr (label_id_to_name (train ctx) class_id))
                    <$> (extracted p batch1 ++ extracted p batch1)
                | _ => extracted p batch1 ++ extracted p batch1
                end)
               [] (max_num_categories_for_drift self) = Ok score ∧
             od_get (name p) (value res) =
               Some (Entry score
                       (scorer_name (get_column_type (output_type p))))).
Proof.
  intros Hinit Hps Hnd.
  destruct (initialize_run_ready _ _ _ Hinit) as (ps' & Hready & Hcfg0).
  assert (ps' = ps) as ->.
  { destruct Hready as (Hps' & _). congruence. }
  assert (Hgen : ∀ calls : list (DatasetKind * Batch),
     ∃ self1 tr te,
       feed self0 ctx calls = Ok self1 ∧
       (ready self1 ps tr te ∧ config self1 = config self) ∧
       ∀ p, p ∈ ps →
         tr !!! name p = concat (extracted p <$> batches_of TRAIN calls) ∧
         te !!! name p = concat (extracted p <$> batches_of TEST calls)).
  { intros calls.
    destruct (feed_ready ctx calls self0 ps ∅ ∅ Hready)
      as (self1 & tr & te & Hfeed & Hready1 & Hcfg1 & Htrn & Hten).
    exists self1, tr, te. split; [exact Hfeed|].
    split; [split; [exact Hready1|congruence]|]. intros p Hp. split.
    - rewrite Htrn, lookup_total_empty. simpl. f_equal.
      apply list_fmap_ext. intros _ batch _.
      by apply extracted_by_name_unique.
    - rewrite Hten, lookup_total_empty. simpl. f_equal.
      apply list_fmap_ext. intros _ batch _.
      by apply extracted_by_name_unique. }
  split.
  { intros calls.
    destruct (Hgen calls) as (self1 & tr & te & Hfeed & [(_ & Htr & Hte) _] & Hbuf).
    by exists self1, tr, te. }
  intros batch1.
  destruct (Hgen [(TRAIN, batch1); (TRAIN, batch1)])
    as (self1 & tr & te & Hfeed & [Hready1 Hcfg1] & Hbuf).
  pose proof Hready1 as (_ & Htr & Hte).
  exists self1, tr, te. do 3 (split; [assumption|]).
  intros p Hp. destruct (Hbuf p Hp) as [Htrp Htep].
  simpl in Htrp, Htep. rewrite app_nil_r in Htrp.
  do 2 (split; [assumption|]).
  intros self2 res Hcompute.
  pose proof (compute_ready ctx self1 ps tr te Hready1) as H.
  destruct (foldM (compute_property ctx) (self1, [], []) ps)
    as [[[self2' vd] dd]|e] eqn:Hloop; [|congruence].
  destruct H as (figs & Heq & _). rewrite Heq in Hcompute.
  injection Hcompute as <- <-.
  destruct (compute_loop ctx ps ps _ _ _ _ _ _ _ _ Hready1 Hloop)
    as (_ & tr2 & te2 & _ & _ & Hentry).
  destruct (Hentry Hnd p Hp) as (_ & _ & score & Hscore & Hvd & _).
  exists score. split; [|exact Hvd].
  assert (Hd : max_num_categories_for_drift self1 =
               max_num_categories_for_drift self) by
    (unfold config in *; congruence).
  rewrite Hd in Hscore. unfold scored_column in Hscore.
  rewrite Htrp, Htep in Hscore. by destruct (output_type p).
Qed.

End DriftAccumulationClaims.

Section DriftAccumulationExamples.
Import TrainTestPredictionDrift DriftSample.
#[local] Existing Instance sample_env.

Example initialize_run_fresh :
  initialize_run fresh sample_context = Ok started.
Proof. reflexivity. Qed.

Example feed_train_test_train :
  (λ s, (_train_prediction_properties s ≫= (.!! "Samples Per Class"),
         _test_prediction_properties s ≫= (.!! "Samples Per Class")))
  <$> feed started sample_context
        [(TRAIN, batch1); (TEST, batch2); (TRAIN, batch2)]
  = Ok (Some [PInt 0; PInt 1; PInt 1; PInt 1; PInt 0; PInt 1],
        Some [PInt 1]).
Proof. vm_compute. reflexivity. Qed.

Lemma accumulator_buffers_by_kind_witness :
  ∃ self1 tr te,
    feed started sample_context
      [(TRAIN, batch1); (TEST, batch2); (TRAIN, batch2)] = Ok self1 ∧
    _train_prediction_properties self1 = Some tr ∧
    _test_prediction_properties self1 = Some te ∧
    ∀ p, p ∈ [samples_per_class; boxes_per_image; first_class] →
      tr !!! name p =
        concat (extracted p <$>
                batches_of TRAIN
                  [(TRAIN, batch1); (TEST, batch2); (TRAIN, batch2)]) ∧
      te !!! name p =
        concat (extracted p <$>
                batches_of TEST
                  [(TRAIN, batch1); (TEST, batch2); (TRAIN, batch2)]).
Proof.
  refine (proj1 (@accumulator_buffers_by_kind sample_env fresh started
                   sample_context _ _ _ _) _).
  - reflexivity.
  - reflexivity.
  - apply (bool_decide_unpack _). vm_compute. reflexivity.
Defined.

(** Two properties declared under one name share one buffer: after one
    TRAIN batch the buffer of the second holds the values of the first
    followed by its own, not its own alone. *)
Lemma shared_name_shares_buffer :
  ∃ self0 self1 tr,
    initialize_run twins sample_context = Ok self0 ∧
    _prediction_properties self0 = Some [samples_per_class; first_class_id] ∧
    feed self0 sample_context [(TRAIN, batch1)] = Ok self1 ∧
    _train_prediction_properties self1 = Some tr ∧
    tr !!! name first_class_id =
      [PInt 0; PInt 1; PInt 1; PInt 1; PInt 0; PInt 0; PInt 1] ∧
    concat (extracted first_class_id <$> batches_of TRAIN [(TRAIN, batch1)]) =
      [PInt 0; PInt 1] ∧
    tr !!! name first_class_id ≠
      concat (extracted first_class_id <$> batches_of TRAIN [(TRAIN, batch1)]).
Proof.
  eexists _, _, _. split; [reflexivity|]. split; [reflexivity|].
  split; [reflexivity|]. split; [reflexivity|].
  split; [reflexivity|]. split; [reflexivity|].
  vm_compute. discriminate.
Qed.

End DriftAccumulationExamples.

Section DriftComputeClaims.
Import TrainTestPredictionDrift.
Context {env : Env}.



(** C5.  In the display of the drift check the charts follow the head
    note in descending order of drift score, and charts of properties
    with equal scores keep the order in which the properties are
    declared. *)
Theorem drift_displays_ranked (self self' : t) (ctx : Context)
    (ps : list prop) (tr te : buffers) (res : CheckResult) :
  ready self ps tr te →
  compute self ctx = Ok (self', res) →
  ∃ columns_order figs dd,
    foldM (compute_property ctx) (self, [], []) ps =
      Ok (self', value res, dd) ∧
    display res = Headnote (name <$> ps) :: figs ∧
    Forall2 (λ col fig, ∃ d, od_get col dd = Some d ∧ fig = Figure d)
      columns_order figs ∧
    columns_order ≡ₚ name <$> ps ∧
    StronglySorted
      (λ a b, (drift_score_of (value res) b <=
               drift_score_of (value res) a)%Q) columns_order ∧
    ∀ q, filter (λ n, (drift_score_of (value res) n == q)%Q) columns_order =
         filter (λ n, (drift_score_of (value res) n == q)%Q) (name <$> ps).
Proof.
  intros Hready Hcompute. pose proof (compute_ready ctx self ps tr te Hready) as H.
  destruct (foldM (compute_property ctx) (self, [], []) ps)
    as [[[self1 vd] dd]|e]; [|congruence].
  destruct H as (figs & Heq & Hfigs). rewrite Heq in Hcompute.
  injection Hcompute as <- <-. simpl.
  exists (sorted_reverse (drift_score_of vd) (name <$> ps)), figs, dd.
  split; [reflexivity|]. split; [reflexivity|]. split; [exact Hfigs|].
  split; [apply sorted_reverse_perm|].
  split; [apply sorted_reverse_descending|].
  intros q. apply sorted_reverse_stable.
Qed.


(** C4, amended.  The declared properties having pairwise distinct
    names, for a property of output type [class_id] both buffers hold
    the values its method extracted, untouched, after every sequence of
    updates; [compute] replaces the class ids by the names
    [label_id_to_name] gives them, and the score of the property is
    computed on those names. *)
Theorem class_ids_translated_at_compute (self self0 : t) (ctx : Context)
    (ps : list prop) (p : prop) (calls : list (DatasetKind * Batch)) :
  initialize_run self ctx = Ok self0 →
  _prediction_properties self0 = Some ps →
  NoDup (name <$> ps) →
  p ∈ ps →
  output_type p = class_id →
  ∃ self1 tr te,
    feed self0 ctx calls = Ok self1 ∧
    _train_prediction_properties self1 = Some tr ∧
    _test_prediction_properties self1 = Some te ∧
    tr !!! name p = concat (extracted p <$> batches_of TRAIN calls) ∧
    te !!! name p = concat (extracted p <$> batches_of TEST calls) ∧
    ((∀ batch, Forall (λ v, is_int v = true) (extracted p batch)) →
     Forall (λ v, is_int v = true) (tr !!! name p) ∧
     Forall (λ v, is_int v = true) (te !!! name p)) ∧
    ∀ self2 res, compute self1 ctx = Ok (self2, res) →
      let train_names :=
        (λ class_id, PStr (label_id_to_name (train ctx) class_id))
        <$> tr !!! name p in
      let test_names :=
        (λ class_id, PStr (label_id_to_name (test ctx) class_id))
        <$> te !!! name p in
      ∃ score tr2 te2,
        drift_value categorical train_names test_names
          (max_num_categories_for_drift self) = Ok score ∧
        od_get (name p) (value res) = Some (Entry score "PSI") ∧
        _train_prediction_properties self2 = Some tr2 ∧
        _test_prediction_properties self2 = Some te2 ∧
        tr2 !!! name p = train_names ∧ te2 !!! name p = test_names ∧
        Forall (λ v, is_str v = true) (tr2 !!! name p) ∧
        Forall (λ v, is_str v = true) (te2 !!! name p).
Proof.
  intros Hinit Hps Hnd Hp Hot.
  destruct (initialize_run_ready _ _ _ Hinit) as (ps' & Hready & Hcfg0).
  assert (ps' = ps) as ->.
  { destruct Hready as (Hps' & _). congruence. }
  destruct (feed_ready ctx calls self0 ps ∅ ∅ Hready)
    as (self1 & tr & te & Hfeed & Hready1 & Hcfg1 & Htr & Hte).
  pose proof Hready1 as (_ & Htr1 & Hte1).
  assert (Htrp : tr !!! name p = concat (extracted p <$> batches_of TRAIN calls)).
  { rewrite Htr, lookup_total_empty. simpl. f_equal.
    apply list_fmap_ext. intros _ batch _. by apply extracted_by_name_unique. }
  assert (Htep : te !!! name p = concat (extracted p <$> batches_of TEST calls)).
  { rewrite Hte, lookup_total_empty. simpl. f_equal.
    apply list_fmap_ext. intros _ batch _. by apply extracted_by_name_unique. }
  exists self1, tr, te. do 5 (split; [assumption|]). split.
  - intros Hint. rewrite Htrp, Htep. split.
    + apply Forall_concat, Forall_fmap, Forall_forall. intros b _. apply Hint.
    + apply Forall_concat, Forall_fmap, Forall_forall. intros b _. apply Hint.
  - intros self2 res Hcompute.
    pose proof (compute_ready ctx self1 ps tr te Hready1) as H.
    destruct (foldM (compute_property ctx) (self1, [], []) ps)
      as [[[self2' vd] dd]|e] eqn:Hloop; [|congruence].
    destruct H as (figs & Heq & _). rewrite Heq in Hcompute.
    injection Hcompute as <- <-.
    destruct (compute_loop ctx ps ps _ _ _ _ _ _ _ _ Hready1 Hloop)
      as (_ & tr2 & te2 & (_ & Htr2 & Hte2) & _ & Hentry).
    destruct (Hentry Hnd p Hp) as (Htr2p & Hte2p & score & Hscore & Hvd & _).
    unfold scored_column in *. rewrite Hot in *. simpl in *.
    assert (Hd : max_num_categories_for_drift self1 =
                 max_num_categories_for_drift self) by
      (unfold config in *; congruence).
    rewrite Hd in Hscore.
    exists score, tr2, te2. do 6 (split; [assumption|]).
    rewrite Htr2p, Hte2p. unfold to_names.
    split; apply Forall_fmap, Forall_forall; by intros.
Qed.

End DriftComputeClaims.

Section DriftComputeExamples.
Import TrainTestPredictionDrift DriftSample.
#[local] Existing Instance sample_env.

(** Scores 1, 4 and 1 for the three properties in declaration order: the
    chart of the second comes first, the two others keep their order. *)
Example compute_loaded_order :
  (λ r, (λ item, match item with
                 | Figure d => fst (fst d)
                 | Headnote _ => "head note"
                 end) <$> display (snd r))
  <$> compute loaded sample_context
  = Ok ["head note"; "Samples Per Class";
        "Number of Bounding Boxes Per Image"; "Class of First Box"].
Proof. vm_compute. reflexivity. Qed.

Example compute_loaded_value :
  (λ r, (λ kv, (fst kv, Qnum (Drift_score (snd kv)), Method (snd kv)))
        <$> value (snd r))
  <$> compute loaded sample_context
  = Ok [("Number of Bounding Boxes Per Image", 1%Z, "Earth Mover's Distance");
        ("Samples Per Class", 4%Z, "PSI");
        ("Class of First Box", 1%Z, "PSI")].
Proof. vm_compute. reflexivity. Qed.

Lemma drift_displays_ranked_witness :
  ∃ self' res,
    compute loaded sample_context = Ok (self', res) ∧
    ∃ columns_order figs dd,
      foldM (compute_property sample_context) (loaded, [], [])
        [boxes_per_image; samples_per_class; first_class] =
        Ok (self', value res, dd) ∧
      display res =
        Headnote (name <$> [boxes_per_image; samples_per_class; first_class])
        :: figs ∧
      Forall2 (λ col fig, ∃ d, od_get col dd = Some d ∧ fig = Figure d)
        columns_order figs ∧
      columns_order ≡ₚ
        name <$> [boxes_per_image; samples_per_class; first_class] ∧
      StronglySorted
        (λ a b, (drift_score_of (value res) b <=
                 drift_score_of (value res) a)%Q) columns_order ∧
      ∀ q, filter (λ n, (drift_score_of (value res) n == q)%Q) columns_order =
           filter (λ n, (drift_score_of (value res) n == q)%Q)
             (name <$> [boxes_per_image; samples_per_class; first_class]).
Proof.
  eexists _, _. split; [reflexivity|].
  eapply (@drift_displays_ranked sample_env loaded).
  - repeat split; reflexivity.
  - reflexivity.
Defined.


Lemma class_ids_translated_at_compute_witness :
  ∃ self1 tr te,
    feed started sample_context [(TRAIN, batch1); (TEST, batch2)] = Ok self1 ∧
    _train_prediction_properties self1 = Some tr ∧
    _test_prediction_properties self1 = Some te ∧
    tr !!! name samples_per_class =
      concat (extracted samples_per_class <$>
              batches_of TRAIN [(TRAIN, batch1); (TEST, batch2)]) ∧
    te !!! name samples_per_class =
      concat (extracted samples_per_class <$>
              batches_of TEST [(TRAIN, batch1); (TEST, batch2)]) ∧
    ((∀ batch, Forall (λ v, is_int v = true)
                 (extracted samples_per_class batch)) →
     Forall (λ v, is_int v = true) (tr !!! name samples_per_class) ∧
     Forall (λ v, is_int v = true) (te !!! name samples_per_class)) ∧
    ∀ self2 res, compute self1 sample_context = Ok (self2, res) →
      let train_names :=
        (λ class_id, PStr (class_names class_id))
        <$> tr !!! name samples_per_class in
      let test_names :=
        (λ class_id, PStr (class_names class_id))
        <$> te !!! name samples_per_class in
      ∃ score tr2 te2,
        drift_value categorical train_names test_names (Some 10%Z) = Ok score ∧
        od_get (name samples_per_class) (value res) =
          Some (Entry score "PSI") ∧
        _train_prediction_properties self2 = Some tr2 ∧
        _test_prediction_properties self2 = Some te2 ∧
        tr2 !!! name samples_per_class = train_names ∧
        te2 !!! name samples_per_class = test_names ∧
        Forall (λ v, is_str v = true) (tr2 !!! name samples_per_class) ∧
        Forall (λ v, is_str v = true) (te2 !!! name samples_per_class).
Proof.
  apply (@class_ids_translated_at_compute sample_env fresh started
           sample_context [samples_per_class; boxes_per_image; first_class]
           samples_per_class [(TRAIN, batch1); (TEST, batch2)]).
  - reflexivity.
  - reflexivity.
  - apply (bool_decide_unpack _). vm_compute. reflexivity.
  - apply elem_of_cons. left. reflexivity.
  - reflexivity.
Defined.

(** The buffers of the class ids before and after [compute]. *)
Example class_ids_then_names :
  (λ s, _train_prediction_properties s ≫= (.!! "Samples Per Class"))
  <$> feed started sample_context [(TRAIN, batch1); (TEST, batch2)]
  = Ok (Some [PInt 0; PInt 1; PInt 1; PInt 1; PInt 0]) ∧
  (λ r, _train_prediction_properties (fst r) ≫= (.!! "Samples Per Class"))
  <$> (feed started sample_context [(TRAIN, batch1); (TEST, batch2)]
       ≫= λ s, compute s sample_context)
  = Ok (Some [PStr "cat"; PStr "dog"; PStr "dog"; PStr "dog"; PStr "cat"]).
Proof. split; vm_compute; reflexivity. Qed.

(** Two properties of class ids declared under one name: [compute]
    replaces the shared buffer by the names at the first and looks those
    names up again at the second, so that the chart and the score
    reported for the name come from the names of names (here ["other"]),
    not from the names of the class ids. *)
Lemma shared_name_translated_twice :
  ∃ self0 self1 self2 res tr te,
    initialize_run twins sample_context = Ok self0 ∧
    _prediction_properties self0 = Some [samples_per_class; first_class_id] ∧
    feed self0 sample_context [(TRAIN, batch1); (TEST, batch2)] = Ok self1 ∧
    _train_prediction_properties self1 = Some tr ∧
    _test_prediction_properties self1 = Some te ∧
    compute self1 sample_context = Ok (self2, res) ∧
    (λ class_id, PStr (class_names class_id)) <$> tr !!! name first_class_id =
      [PStr "cat"; PStr "dog"; PStr "dog"; PStr "dog"; PStr "cat";
       PStr "cat"; PStr "dog"] ∧
    (λ class_id, PStr (class_names class_id)) <$> te !!! name first_class_id =
      [PStr "dog"; PStr "dog"] ∧
    display res =
      [Headnote ["Samples Per Class"; "Samples Per Class"];
       Figure ("Samples Per Class",
               [PStr "other"; PStr "other"; PStr "other"; PStr "other";
                PStr "other"; PStr "other"; PStr "other"],
               [PStr "other"; PStr "other"]);
       Figure ("Samples Per Class",
               [PStr "other"; PStr "other"; PStr "other"; PStr "other";
                PStr "other"; PStr "other"; PStr "other"],
               [PStr "other"; PStr "other"])] ∧
    (_train_prediction_properties self2 ≫= (.!! name first_class_id)) =
      Some [PStr "other"; PStr "other"; PStr "other"; PStr "other";
            PStr "other"; PStr "other"; PStr "other"] ∧
    (_train_prediction_properties self2 ≫= (.!! name first_class_id)) ≠
      Some ((λ class_id, PStr (class_names class_id))
            <$> tr !!! name first_class_id).
Proof.
  eexists _, _, _, _, _, _. split; [reflexivity|]. split; [reflexivity|].
  split; [reflexivity|]. split; [reflexivity|]. split; [reflexivity|].
  split; [vm_compute; reflexivity|]. split; [reflexivity|].
  split; [reflexivity|]. split; [reflexivity|]. split; [reflexivity|].
  vm_compute. discriminate.
Qed.

End DriftComputeExamples.

(** ** TrainTestPredictionDrift: the deprecated parameter *)

Section DriftInit.
Import TrainTestPredictionDrift.
Context {env : Env}.

Lemma py_or_truthy (a b : option Z) : truthy a = true → py_or a b = a.
Proof. unfold py_or. by intros ->. Qed.

(** With both new parameters true in the sense of [or], the deprecated
    one changes nothing but the warnings. *)
Lemma init_deprecated_truthy (props : option (list prop))
    (for_drift for_display : option Z) (show : string) (m : Z) :
  truthy for_drift = true → truthy for_display = true →
  fst <$> __init__ props for_drift for_display show (Some m) =
  fst <$> __init__ props for_drift for_display show None.
Proof.
  intros Hd Hs. unfold __init__.
  rewrite (py_or_truthy _ _ Hd), (py_or_truthy _ _ Hs).
  destruct props as [ps|]; simpl; [destruct (validate_properties ps)|]; reflexivity.
Qed.

(** C10.  With [max_num_categories_for_drift] and
    [max_num_categories_for_display] at their defaults (10 and 10), a
    value for the deprecated [max_num_categories] gives the instance
    that its absence gives; the construction then emits the deprecation
    warning and nothing else. *)
Theorem deprecated_max_num_categories_ignored (props : option (list prop))
    (show : string) (m : Z) :
  fst <$> __init__ props (Some 10%Z) (Some 10%Z) show (Some m) =
  fst <$> __init__ props (Some 10%Z) (Some 10%Z) show None ∧
  snd <$> __init__ props (Some 10%Z) (Some 10%Z) show (Some m) =
  (λ _, [DeprecationWarning deprecation_message])
  <$> __init__ props (Some 10%Z) (Some 10%Z) show None ∧
  snd <$> __init__ props (Some 10%Z) (Some 10%Z) show None =
  (λ _, []) <$> __init__ props (Some 10%Z) (Some 10%Z) show None.
Proof.
  split; [by apply init_deprecated_truthy|].
  unfold __init__.
  destruct props as [ps|]; simpl; [destruct (validate_properties ps)|];
    by repeat split.
Qed.

End DriftInit.

Section DriftInitExamples.
Import TrainTestPredictionDrift DriftSample.
#[local] Existing Instance sample_env.

(** The deprecated value does replace a new parameter that is 0 or
    [None]. *)
Example deprecated_value_fills_falsy :
  (λ r, (max_num_categories_for_drift (fst r),
         max_num_categories_for_display (fst r)))
  <$> __init__ None (Some 0%Z) None "train_largest" (Some 7%Z)
  = Ok (Some 7%Z, Some 7%Z).
Proof. reflexivity. Qed.

End DriftInitExamples.

(** ** SegmentPerformance: construction *)

Section SegmentInit.
Import SegmentPerformance.
Context {env : Env}.

(** The guard on [max_segments] lets through every integer that is not
    negative and nothing else. *)
Lemma init_max_segments (f1 f2 : option Hashable)
    (scorer : option (string * Scorer)) (k : Z) :
  truthy_feature f1 && bool_decide (f1 = f2) = false →
  __init__ f1 f2 scorer (PInt k) =
  if (k <? 0)%Z then
    Raise (DeepchecksValueError "num_segments must be positive integer")
  else
    Ok (Self f1 f2 k (match scorer with Some named => Some [named] | None => None end)).
Proof. unfold __init__. by intros ->. Qed.

(** A negative bound is refused at construction. *)
Lemma negative_max_segments_rejected (f1 f2 : option Hashable)
    (scorer : option (string * Scorer)) (k : Z) :
  (k < 0)%Z → ∃ msg, __init__ f1 f2 scorer (PInt k) = Raise (DeepchecksValueError msg).
Proof.
  intros Hk. unfold __init__.
  destruct (truthy_feature f1 && bool_decide (f1 = f2)); [by eexists|].
  apply Z.ltb_lt in Hk. rewrite Hk. by eexists.
Qed.

(** C2, at the bound 0.  The constructor accepts [max_segments=0]: no
    exception is raised and the instance carries the bound 0. *)
Theorem max_segments_zero_accepted :
  __init__ None None None (PInt 0) = Ok (Self None None 0%Z None).
Proof. reflexivity. Qed.

(** Two equal features are refused when the first one is true in the
    sense of [if feature_1 and ...]. *)
Lemma identical_truthy_features_rejected (f : Hashable)
    (scorer : option (string * Scorer)) (k : pyval) :
  truthy_feature (Some f) = true →
  ∃ msg, __init__ (Some f) (Some f) scorer k = Raise (DeepchecksValueError msg).
Proof.
  intros Hf. unfold __init__. rewrite Hf, bool_decide_eq_true_2 by done.
  by eexists.
Qed.

(** Distinct features, or none at all, pass the guard on the features. *)
Lemma distinct_features_accepted (f1 f2 : option Hashable)
    (scorer : option (string * Scorer)) (k : Z) :
  f1 ≠ f2 ∨ (f1 = None ∧ f2 = None) → (0 <= k)%Z →
  ∃ self, __init__ f1 f2 scorer (PInt k) = Ok self ∧
          feature_1 self = f1 ∧ feature_2 self = f2.
Proof.
  intros Hf Hk. rewrite init_max_segments.
  - apply Z.ltb_ge in Hk. rewrite Hk. by eexists.
  - destruct Hf as [Hne|[-> ->]]; [|reflexivity].
    rewrite bool_decide_eq_false_2 by done. apply andb_false_r.
Qed.

(** C6, at the feature 0.  The constructor accepts the same feature
    twice when that feature is the column named 0: no exception is
    raised and both attributes hold it. *)
Theorem identical_zero_features_accepted :
  __init__ (Some (HInt 0)) (Some (HInt 0)) None (PInt 10) =
  Ok (Self (Some (HInt 0)) (Some (HInt 0)) 10%Z None).
Proof. reflexivity. Qed.

(** So does it for the column named by the empty string. *)
Lemma identical_empty_features_accepted :
  __init__ (Some (HStr EmptyString)) (Some (HStr EmptyString)) None (PInt 10) =
  Ok (Self (Some (HStr EmptyString)) (Some (HStr EmptyString)) 10%Z None).
Proof. reflexivity. Qed.

End SegmentInit.

(** ** SegmentPerformance: the features of a run *)

Section SegmentRun.
Import SegmentPerformance.
Context {env : Env}.

(** A run of an instance constructed without features stores the first
    two features of the dataset in the instance. *)
Lemma run_logic_stores_features (self self' : t) (ctx ctx' : Context)
    (dataset_type : string) (res : CheckResult) (f1 f2 : Hashable)
    (rest : list Hashable) :
  feature_1 self = None → feature_2 self = None →
  features_importance ctx = None →
  features (if String.eqb dataset_type "train" then train ctx else test ctx)
    = f1 :: f2 :: rest →
  run_logic self ctx dataset_type = Ok (self', ctx', res) →
  feature_1 self' = Some f1 ∧ feature_2 self' = Some f2 ∧
  value_feature_1 (value res) = f1 ∧ value_feature_2 (value res) = f2.
Proof.
  intros H1 H2 Himp Hfeat H. unfold run_logic in H.
  rewrite H1, H2, Himp, Hfeat in H.
  destruct (get_single_scorer (user_scorer self)); [|discriminate].
  destruct (assert_features _); [|discriminate].
  simpl in H.
  destruct (partition_column _ f1 _); [|discriminate]. simpl in H.
  destruct (partition_column _ f2 _); [|discriminate]. simpl in H.
  by injection H as <- <- <-.
Qed.

(** A run of an instance that holds two features uses them, whatever the
    features of the dataset are. *)
Lemma run_logic_uses_stored_features (self self' : t) (ctx ctx' : Context)
    (dataset_type : string) (res : CheckResult) (f1 f2 : Hashable) :
  feature_1 self = Some f1 → feature_2 self = Some f2 →
  run_logic self ctx dataset_type = Ok (self', ctx', res) →
  value_feature_1 (value res) = f1 ∧ value_feature_2 (value res) = f2.
Proof.
  intros H1 H2 H. unfold run_logic in H. rewrite H1, H2 in H.
  destruct (get_single_scorer (user_scorer self)); [|discriminate].
  destruct (assert_features _); [|discriminate].
  simpl in H.
  destruct (length _ <? 2)%nat; [discriminate|]. simpl in H.
  destruct (partition_column _ f1 _); [|discriminate]. simpl in H.
  destruct (partition_column _ f2 _); [|discriminate]. simpl in H.
  by injection H as <- <- <-.
Qed.

End SegmentRun.

Section SegmentRunExamples.
Import SegmentPerformance SegmentSample.
#[local] Existing Instance sample_env.

(** The features a fresh instance reports on the second dataset. *)
Example fresh_run_on_houses :
  (λ r, (value_feature_1 (value (snd r)), value_feature_2 (value (snd r))))
  <$> run_logic fresh houses "train"
  = Ok (HStr "rooms", HStr "area").
Proof. reflexivity. Qed.

(** C8, at [SegmentPerformance].  An instance constructed without
    features is run on one dataset and then on another: the first run
    writes the two features it chose into the instance, and the second
    run reports those and not the ones an instance fresh from the
    constructor reports on the second dataset. *)
Theorem second_run_differs_from_fresh :
  ∃ used first_ctx first_result,
    run_logic fresh adults "train" = Ok (used, first_ctx, first_result) ∧
    (feature_1 used, feature_2 used) =
      (Some (HStr "age"), Some (HStr "income")) ∧
    (feature_1 fresh, feature_2 fresh) = (None, None) ∧
    (λ r, (value_feature_1 (value (snd r)),
           value_feature_2 (value (snd r))))
      <$> run_logic used houses "train"
      = Ok (HStr "age", HStr "income") ∧
    (λ r, (value_feature_1 (value (snd r)),
           value_feature_2 (value (snd r))))
      <$> run_logic fresh houses "train"
      = Ok (HStr "rooms", HStr "area").
Proof.
  eexists _, _, _. split; [reflexivity|]. by repeat split.
Qed.

End SegmentRunExamples.

(** ** The vision checks across runs *)

Section ErrorAnalysisRuns.
Import ModelErrorAnalysis.
Context {env : Env}.

(** [initialize_run] replaces every buffer: what it leaves depends on the
    configuration of the instance alone. *)
Lemma error_analysis_initialize_resets (self1 self2 : t) (ctx : Context) :
  config self1 = config self2 →
  initialize_run self1 ctx = initialize_run self2 ctx.
Proof.
  intros Hcfg. unfold initialize_run, with_run_state.
  unfold config in Hcfg. injection Hcfg as -> -> -> -> -> -> ->.
  reflexivity.
Qed.

(** A run of an instance that was run before is the run of an instance
    with the same configuration fresh from the constructor. *)
Lemma error_analysis_run_as_fresh (self1 self2 : t) (ctx : Context)
    (calls : list (DatasetKind * Batch)) :
  config self1 = config self2 → run self1 ctx calls = run self2 ctx calls.
Proof.
  intros Hcfg. unfold run.
  by rewrite (error_analysis_initialize_resets self1 self2 ctx Hcfg).
Qed.

Lemma error_analysis_update_config (self self' : t) (ctx : Context)
    (batch : Batch) (k : kind_arg) :
  update self ctx batch k = Ok self' → config self' = config self.
Proof.
  unfold update. destruct k as [k|]; [|discriminate].
  destruct (foldM _ _ _); [|discriminate]. simpl.
  destruct (task_type _); simpl; try discriminate.
  - destruct (match k with TRAIN => _ | TEST => _ end); simpl; [|discriminate].
    destruct k; by intros [= <-].
  - destruct (match k with TRAIN => _ | TEST => _ end); simpl; [|discriminate].
    destruct k; by intros [= <-].
Qed.

(** No run changes the configuration. *)
Lemma error_analysis_run_config (self self' : t) (ctx : Context)
    (calls : list (DatasetKind * Batch)) (out : outcome) :
  run self ctx calls = Ok (self', out) → config self' = config self.
Proof.
  unfold run. intros H.
  apply bind_Ok_inv in H as (self0 & Hinit & H).
  apply bind_Ok_inv in H as (self1 & Hfeed & H).
  apply bind_Ok_inv in H as (out' & _ & H). injection H as <- <-.
  assert (config self0 = config self) as <-.
  { unfold initialize_run in Hinit.
    destruct (assert_task_type _ _); [|discriminate].
    by injection Hinit as <-. }
  clear Hinit. revert self0 Hfeed. unfold feed.
  induction calls as [|[k batch] calls IH]; intros self0 Hfeed.
  - by injection Hfeed as <-.
  - cbn [foldM] in Hfeed. apply bind_Ok_inv in Hfeed as (s & Hs & Hfeed).
    rewrite (IH _ Hfeed). by eapply error_analysis_update_config.
Qed.

End ErrorAnalysisRuns.

Section DriftRuns.
Import TrainTestPredictionDrift.
Context {env : Env}.

Lemma drift_initialize_resets (self1 self2 : t) (ctx : Context) :
  config self1 = config self2 →
  initialize_run self1 ctx = initialize_run self2 ctx.
Proof.
  intros Hcfg. unfold initialize_run.
  unfold config in Hcfg. injection Hcfg as -> -> -> ->. reflexivity.
Qed.

(** A run of an instance that was run before is the run of an instance
    with the same configuration fresh from the constructor. *)
Lemma drift_run_as_fresh (self1 self2 : t) (ctx : Context)
    (calls : list (DatasetKind * Batch)) :
  config self1 = config self2 → run self1 ctx calls = run self2 ctx calls.
Proof.
  intros Hcfg. unfold run.
  by rewrite (drift_initialize_resets self1 self2 ctx Hcfg).
Qed.

(** No run changes the configuration. *)
Lemma drift_run_config (self self' : t) (ctx : Context)
    (calls : list (DatasetKind * Batch)) (res : CheckResult) :
  run self ctx calls = Ok (self', res) → config self' = config self.
Proof.
  unfold run. intros H.
  apply bind_Ok_inv in H as (self0 & Hinit & H).
  apply bind_Ok_inv in H as (self1 & Hfeed & H).
  destruct (initialize_run_ready _ _ _ Hinit) as (ps & Hready & Hcfg0).
  destruct (feed_ready ctx calls self0 ps ∅ ∅ Hready)
    as (self1' & tr & te & Hfeed' & Hready1 & Hcfg1 & _).
  assert (self1' = self1) as -> by congruence.
  pose proof (compute_ready ctx self1 ps tr te Hready1) as Hc.
  destruct (foldM (compute_property ctx) (self1, [], []) ps)
    as [[[self2 vd] dd]|e] eqn:Hloop; [|congruence].
  destruct Hc as (figs & Heq & _). rewrite Heq in H. injection H as <- _.
  destruct (compute_loop ctx ps ps _ _ _ _ _ _ _ _ Hready1 Hloop) as (Hcfg2 & _).
  congruence.
Qed.

End DriftRuns.

(** ** ModelErrorAnalysis: the error model gives up *)

Section ErrorAnalysisCompute.
Import ModelErrorAnalysis.
Context {env : Env}.

(** C3.  When the error model raises a [DeepchecksProcessError],
    [compute] returns to its caller, and what it returns is the check
    failure that carries the check and that exception. *)
Theorem process_error_becomes_check_failure (self : t) (ctx : Context)
    (train_frame test_frame test_property_df : Frame) (msg : string) :
  DataFrame (_train_properties self) = Ok train_frame →
  DataFrame (_test_properties self) = Ok test_frame →
  select_columns test_frame (columns (dropna_columns_all train_frame)) =
    Ok test_property_df →
  model_error_contribution (dropna_columns_all train_frame)
    (_train_scores self) test_property_df (_test_scores self)
    (columns (dropna_columns_all train_frame)) []
    (min_error_model_score self) (random_state self) =
    Raise (DeepchecksProcessError msg) →
  compute self ctx = Ok (CheckFailure self (DeepchecksProcessError msg)).
Proof.
  intros Htrain Htest Hselect Hmodel. unfold compute.
  rewrite Htrain. simpl. rewrite Htest. simpl. rewrite Hselect. simpl.
  by rewrite Hmodel.
Qed.

(** Any other exception of the error model leaves [compute] as it is. *)
Lemma other_error_propagates (self : t) (ctx : Context)
    (train_frame test_frame test_property_df : Frame) (e : exception) :
  DataFrame (_train_properties self) = Ok train_frame →
  DataFrame (_test_properties self) = Ok test_frame →
  select_columns test_frame (columns (dropna_columns_all train_frame)) =
    Ok test_property_df →
  model_error_contribution (dropna_columns_all train_frame)
    (_train_scores self) test_property_df (_test_scores self)
    (columns (dropna_columns_all train_frame)) []
    (min_error_model_score self) (random_state self) = Raise e →
  (∀ msg, e ≠ DeepchecksProcessError msg) →
  compute self ctx = Raise e.
Proof.
  intros Htrain Htest Hselect Hmodel Hne. unfold compute.
  rewrite Htrain. simpl. rewrite Htest. simpl. rewrite Hselect. simpl.
  rewrite Hmodel. destruct e; try reflexivity. by destruct (Hne msg).
Qed.

End ErrorAnalysisCompute.

Section ErrorAnalysisExamples.
Import ModelErrorAnalysis ErrorSample.
#[local] Existing Instance sample_env.

Lemma process_error_becomes_check_failure_witness :
  compute empty_handed sample_context =
  Ok (CheckFailure empty_handed
        (DeepchecksProcessError "no usable feature columns")).
Proof.
  apply (@process_error_becomes_check_failure sample_env empty_handed
           sample_context [] [] []).
  - reflexivity.
  - reflexivity.
  - reflexivity.
  - reflexivity.
Defined.

End ErrorAnalysisExamples.

(** ** MixedDataTypes *)

Section MixedFacts.
Import MixedDataTypes.
Context {env : Env}.

Lemma dropna_present (column : list cell) :
  Forall (λ c, is_missing c = false) (dropna column).
Proof.
  apply Forall_forall. intros c Hc.
  by apply list_elem_of_filter in Hc as [Hc _].
Qed.

Lemma dropna_of_present (column_data : list cell) :
  Forall (λ c, is_missing c = false) column_data →
  dropna column_data = column_data.
Proof.
  induction 1 as [|c l Hc Hl IH]; [reflexivity|].
  unfold dropna in *. rewrite filter_cons, decide_True by done. by rewrite IH.
Qed.


Lemma is_float_returned (c : cell) (b : bool) :
  is_float c = Ok b → number_like c = b.
Proof. unfold number_like. intros ->. by destruct b. Qed.


Lemma apply_is_float_returned (column_data : list cell) (flags : list bool) :
  mapM is_float column_data = Ok flags → flags = number_like <$> column_data.
Proof.
  intros H. apply mapM_Ok_inv in H.
  induction H as [|c b l k Hc Hl IH]; [reflexivity|].
  rewrite fmap_cons, <- IH. f_equal. symmetry. by apply is_float_returned.
Qed.

Lemma sum_bools_fmap {A : Type} (f : A → bool) (l : list A) :
  sum_bools (f <$> l) = length (filter (λ a, f a = true) l).
Proof.
  unfold sum_bools. induction l as [|a l IH]; [reflexivity|].
  rewrite fmap_cons, !filter_cons.
  destruct (decide (f a = true)); simpl; by rewrite IH.
Qed.

Lemma filter_some {A : Type} (P : A → Prop) `{∀ a, Decision (P a)}
    (l : list A) :
  length (filter P l) ≠ 0%nat → ∃ a, a ∈ l ∧ P a.
Proof.
  destruct (filter P l) as [|a k] eqn:Hf; [done|]. intros _.
  exists a. apply and_comm, (list_elem_of_filter P). rewrite Hf.
  apply elem_of_cons. by left.
Qed.

Lemma filter_not_all {A : Type} (P : A → Prop) `{∀ a, Decision (P a)}
    (l : list A) :
  length (filter P l) ≠ length l → ∃ a, a ∈ l ∧ ¬ P a.
Proof.
  induction l as [|a l IH]; [done|].
  rewrite filter_cons. destruct (decide (P a)) as [Ha|Ha]; simpl.
  - intros Hne. destruct IH as (b & Hb & HPb); [congruence|].
    exists b. split; [apply elem_of_cons; by right|done].
  - intros _. exists a. split; [apply elem_of_cons; by left|done].
Qed.

(** The two ratios of a mixed column. *)
Lemma mixed_ratios (nums total : nat) :
  nums ≠ 0%nat → nums ≠ total → (nums ≤ total)%nat →
  ∃ strs_pct nums_pct : Q,
    true_divide (Z.abs (Z.of_nat nums - Z.of_nat total)) (Z.of_nat total) =
      Some strs_pct ∧
    true_divide (Z.of_nat nums) (Z.of_nat total) = Some nums_pct ∧
    (0 < strs_pct)%Q ∧ (strs_pct < 1)%Q ∧
    (0 < nums_pct)%Q ∧ (nums_pct < 1)%Q ∧
    (strs_pct + nums_pct == 1)%Q ∧
    (nums_pct == inject_Z (Z.of_nat nums) / inject_Z (Z.of_nat total))%Q ∧
    (strs_pct ==
       (inject_Z (Z.of_nat total) - inject_Z (Z.of_nat nums)) /
       inject_Z (Z.of_nat total))%Q.
Proof.
  intros H0 Hne Hle. unfold true_divide.
  assert (Ht : (Z.of_nat total =? 0)%Z = false) by (apply Z.eqb_neq; lia).
  rewrite Ht.
  assert (Habs : Z.abs (Z.of_nat nums - Z.of_nat total) =
                 (Z.of_nat total + - Z.of_nat nums)%Z) by lia.
  rewrite Habs, inject_Z_plus, inject_Z_opp.
  set (a := inject_Z (Z.of_nat nums)). set (b := inject_Z (Z.of_nat total)).
  assert (Ha : (0 < a)%Q).
  { unfold a. change 0%Q with (inject_Z 0). rewrite <- Zlt_Qlt. lia. }
  assert (Hab : (a < b)%Q).
  { unfold a, b. rewrite <- Zlt_Qlt. lia. }
  assert (Hb : (0 < b)%Q) by (by eapply Qlt_trans).
  assert (Hb0 : ¬ (b == 0)%Q).
  { intros Hb0. rewrite Hb0 in Hb. by apply Qlt_irrefl in Hb. }
  eexists _, _. split; [reflexivity|]. split; [reflexivity|].
  split; [|split; [|split; [|split; [|split; [|split]]]]].
  - apply Qlt_shift_div_l; [exact Hb|]. rewrite Qmult_0_l.
    apply (Qplus_lt_l _ _ a). ring_simplify. exact Hab.
  - apply Qlt_shift_div_r; [exact Hb|]. rewrite Qmult_1_l.
    apply (Qplus_lt_l _ _ a). ring_simplify.
    apply (Qplus_lt_l _ _ (- b)). ring_simplify. exact Ha.
  - apply Qlt_shift_div_l; [exact Hb|]. by rewrite Qmult_0_l.
  - apply Qlt_shift_div_r; [exact Hb|]. by rewrite Qmult_1_l.
  - field. exact Hb0.
  - reflexivity.
  - reflexivity.
Qed.

(** What the analysis returns on a column without missing values, when
    it returns. *)
Lemma returned_mix (column_data : list cell)
    (mix : list (string * option Q)) :
  Forall (λ c, is_missing c = false) column_data →
  _get_data_mix column_data = Ok mix →
  let total := length column_data in
  let nums := length (filter (λ c, number_like c = true) column_data) in
  mix = [] ∨
  ∃ strs_pct nums_pct : Q,
    mix = [("strings", Some strs_pct); ("numbers", Some nums_pct)] ∧
    (0 < strs_pct)%Q ∧ (strs_pct < 1)%Q ∧
    (0 < nums_pct)%Q ∧ (nums_pct < 1)%Q ∧
    (strs_pct + nums_pct == 1)%Q ∧
    (nums_pct == inject_Z (Z.of_nat nums) / inject_Z (Z.of_nat total))%Q ∧
    (strs_pct ==
       (inject_Z (Z.of_nat total) - inject_Z (Z.of_nat nums)) /
       inject_Z (Z.of_nat total))%Q ∧
    is_string_column column_data = true ∧
    (∃ c, c ∈ column_data ∧ is_float c = Ok true) ∧
    (∃ c, c ∈ column_data ∧ is_float c = Ok false).
Proof.
  intros Hpresent Hmix total nums. unfold _get_data_mix in Hmix.
  destruct (is_string_column column_data) eqn:Hstr;
    [|injection Hmix as <-; by left].
  unfold _check_mixed_percentage, count in Hmix.
  rewrite (dropna_of_present _ Hpresent) in Hmix.
  apply bind_Ok_inv in Hmix as (flags & Hflags & Hmix).
  pose proof (mapM_Ok_inv _ _ _ Hflags) as Heach.
  apply apply_is_float_returned in Hflags as ->.
  rewrite sum_bools_fmap in Hmix. fold total in Hmix. fold nums in Hmix.
  destruct (bool_decide (nums = total)) eqn:Hall;
    [injection Hmix as <-; by left|].
  destruct (bool_decide (nums = 0%nat)) eqn:Hnone;
    [injection Hmix as <-; by left|].
  apply bool_decide_eq_false in Hall, Hnone. cbn [orb] in Hmix.
  destruct (mixed_ratios nums total Hnone Hall (length_filter _ _))
    as (strs_pct & nums_pct & Hs & Hn & H1 & H2 & H3 & H4 & H5 & H6 & H7).
  rewrite Hs, Hn in Hmix. injection Hmix as <-.
  right. exists strs_pct, nums_pct.
  do 9 (split; [done|]).
  assert (Hreturned : ∀ c, c ∈ column_data → is_float c = Ok (number_like c)).
  { intros c Hc. apply list_elem_of_lookup in Hc as [i Hi].
    destruct (Forall2_lookup_l _ _ _ _ _ Heach Hi) as (b & Hb & Hfb).
    apply list_lookup_fmap_Some in Hb as (c' & -> & Hc').
    assert (c' = c) as -> by congruence. exact Hfb. }
  split.
  - destruct (filter_some (λ c, number_like c = true) column_data Hnone)
      as (c & Hc & Hnum).
    exists c. split; [exact Hc|]. by rewrite (Hreturned c Hc), Hnum.
  - destruct (filter_not_all (λ c, number_like c = true) column_data Hall)
      as (c & Hc & Hnum).
    exists c. split; [exact Hc|]. rewrite (Hreturned c Hc).
    by destruct (number_like c).
Qed.



(** What the loop of [run_logic] gets for one column, when the analysis
    returns. *)
Lemma prepared_column_mix (column : list cell)
    (mix : list (string * option Q)) :
  _get_data_mix (dropna column) = Ok mix → mix = [] ∨ is_mix mix.
Proof.
  intros Hmix.
  destruct (returned_mix _ _ (dropna_present column) Hmix)
    as [->|(s & n & -> & H1 & H2 & H3 & H4 & H5 & _)]; [by left|].
  right. exists s, n. by repeat split.
Qed.


End MixedFacts.

Section MixedRun.
Import MixedDataTypes.
Context {env : Env}.

Lemma od_set_Forall {K V : Type} `{EqDecision K} (P : K * V → Prop) (k : K)
    (v : V) (d : list (K * V)) :
  P (k, v) → Forall P d → Forall P (od_set k v d).
Proof.
  intros Hkv. induction 1 as [|[k' v'] d Hx Hd IH]; simpl.
  - by repeat constructor.
  - destruct (decide (k = k')); by constructor.
Qed.

(** Every column the check reports carries two such ratios. *)
Lemma run_logic_reports_mixes (self : t) (data : Frame)
    (result_dict : list (Hashable * list (string * option Q))) :
  run_logic self data = Ok result_dict →
  Forall (λ kv, is_mix (snd kv)) result_dict.
Proof.
  unfold run_logic. intros H. apply bind_Ok_inv in H as (df & _ & H).
  assert (Hnil : Forall (λ kv : Hashable * list (string * option Q),
                           is_mix (snd kv)) []) by constructor.
  revert H Hnil. generalize (@nil (Hashable * list (string * option Q))).
  induction df as [|[column_name column] df IH]; intros acc H Hacc.
  - by injection H as <-.
  - cbn [foldM] in H. apply bind_Ok_inv in H as (acc' & Hstep & H).
    apply (IH _ H). unfold run_logic_column in Hstep. cbn [fst snd] in Hstep.
    apply bind_Ok_inv in Hstep as (mix & Hmix & Hstep).
    destruct (prepared_column_mix column mix Hmix) as [->|Hshape].
    + by injection Hstep as <-.
    + pose proof Hshape as (s & n & -> & _).
      injection Hstep as <-. by apply od_set_Forall.
Qed.

End MixedRun.

Section MixedExamples.
Import MixedDataTypes MixedSample.
#[local] Existing Instance sample_env.

(** Two numbers in strings, one word and a missing value. *)
Example mix_of_prepared_column :
  _get_data_mix
    (dropna [Value (PStr "12"); Value (PStr "abc"); NaN; Value (PStr "7")])
  = Ok [("strings", Some (1 / 3)%Q); ("numbers", Some (2 / 3)%Q)].
Proof. reflexivity. Qed.

Example mix_of_numeric_strings :
  _get_data_mix (dropna [Value (PStr "12"); Value (PStr "7")]) = Ok [].
Proof. reflexivity. Qed.

(** The private helper applied to a column that still has its missing
    values counts them as numbers but not as rows. *)
Example mix_of_unprepared_column :
  _check_mixed_percentage [Value (PStr "abc"); NaN; NaN]
  = Ok [("strings", Some (1 / 1)%Q); ("numbers", Some (2 / 1)%Q)].
Proof. reflexivity. Qed.



End MixedExamples.

(** ** TrainTestPredictionDrift: further properties of a run *)

(** Unfolds one turn of the loop of [compute] in a hypothesis on the
    whole loop, for a ready instance. *)
Ltac loop_turn ctx self ps0 tr te vd dd q Hready H :=
  let self1 := fresh "self1" in
  let Hready1 := fresh "Hready1" in
  let Hcfg1 := fresh "Hcfg1" in
  let Hstep := fresh "Hstep" in
  let value := fresh "value" in
  let Hvalue := fresh "Hvalue" in
  cbn [foldM] in H;
  destruct (compute_property_ready ctx self ps0 tr te vd dd q Hready)
    as (self1 & Hready1 & Hcfg1 & Hstep);
  rewrite Hstep in H;
  destruct (TrainTestPredictionDrift.drift_value _ _ _ _)
    as [value|] eqn:Hvalue;
    [cbn [Py.bind mbind result_bind mret result_ret] in H | discriminate H].

Section DriftRunFacts.
Import TrainTestPredictionDrift.
Context {env : Env}.

Lemma od_set_keys {K V : Type} `{EqDecision K} (k : K) (v : V)
    (d : list (K * V)) :
  fst <$> od_set k v d =
  if decide (k ∈ fst <$> d) then fst <$> d else (fst <$> d) ++ [k].
Proof.
  induction d as [|[k' v'] d IH]; [reflexivity|].
  cbn [od_set]. rewrite !fmap_cons. cbn [fst].
  destruct (decide (k = k')) as [->|Hne].
  - rewrite fmap_cons, decide_True; [reflexivity|]. apply elem_of_cons. by left.
  - rewrite fmap_cons, IH. cbn [fst].
    destruct (decide (k ∈ fst <$> d)) as [Hin|Hnin].
    + rewrite decide_True; [reflexivity|]. apply elem_of_cons. by right.
    + rewrite decide_False; [reflexivity|].
      intros Hin. apply elem_of_cons in Hin as [?|?]; done.
Qed.

(** The loop of [compute] adds the names it meets, in order, to the keys
    of both dictionaries, when none of them is met twice or was there. *)
Lemma compute_loop_new_keys (ctx : Context) (ps0 ps : list prop) :
  ∀ (self : t) (tr te : buffers) (vd : list (string * drift_entry))
    (dd : list (string * Display)) self' vd' dd',
  ready self ps0 tr te →
  foldM (compute_property ctx) (self, vd, dd) ps = Ok (self', vd', dd') →
  NoDup ((fst <$> vd) ++ (name <$> ps)) →
  NoDup ((fst <$> dd) ++ (name <$> ps)) →
  fst <$> vd' = (fst <$> vd) ++ (name <$> ps) ∧
  fst <$> dd' = (fst <$> dd) ++ (name <$> ps).
Proof.
  induction ps as [|q ps IH]; intros self tr te vd dd self' vd' dd' Hready H Hv Hd.
  - injection H as <- <- <-. by rewrite !app_nil_r.
  - loop_turn ctx self ps0 tr te vd dd q Hready H.
    rewrite fmap_cons in Hv, Hd.
    assert (Hv' : name q ∉ fst <$> vd).
    { apply NoDup_app in Hv as (_ & Hv & _). intros Hin.
      apply (Hv _ Hin). apply elem_of_cons. by left. }
    assert (Hd' : name q ∉ fst <$> dd).
    { apply NoDup_app in Hd as (_ & Hd & _). intros Hin.
      apply (Hd _ Hin). apply elem_of_cons. by left. }
    destruct (IH _ _ _ _ _ _ _ _ Hready1 H) as [-> ->].
    + rewrite od_set_keys, decide_False by done.
      rewrite <- app_assoc. exact Hv.
    + rewrite od_set_keys, decide_False by done.
      rewrite <- app_assoc. exact Hd.
    + rewrite !od_set_keys, !decide_False by done.
      by rewrite <- !app_assoc.
Qed.

(** The loop of [compute] returns when the scorer returns for the
    columns of the properties it meets, their names being distinct. *)
Lemma compute_loop_returns (ctx : Context) (ps0 ps : list prop) :
  ∀ (self : t) (tr te : buffers) (vd : list (string * drift_entry))
    (dd : list (string * Display)),
  ready self ps0 tr te →
  NoDup (name <$> ps) →
  (∀ q, q ∈ ps → ∃ v,
     drift_value (get_column_type (output_type q))
       (scored_column (label_id_to_name (train ctx)) q tr)
       (scored_column (label_id_to_name (test ctx)) q te)
       (max_num_categories_for_drift self) = Ok v) →
  ∃ st, foldM (compute_property ctx) (self, vd, dd) ps = Ok st.
Proof.
  induction ps as [|q ps IH]; intros self tr te vd dd Hready Hnd Hscore.
  - by eexists.
  - cbn [foldM].
    destruct (compute_property_ready ctx self ps0 tr te vd dd q Hready)
      as (self1 & Hready1 & Hcfg1 & ->).
    destruct (Hscore q) as [v ->]; [apply elem_of_cons; by left|].
    cbn [Py.bind mbind result_bind mret result_ret].
    rewrite fmap_cons in Hnd. apply NoDup_cons in Hnd as [Hq Hnd].
    eapply IH; [exact Hready1|exact Hnd|].
    intros p Hp.
    assert (Hne : name p ≠ name q).
    { intros Heq. apply Hq. rewrite <- Heq. by apply list_elem_of_fmap_2. }
    destruct (Hscore p) as [w Hw]; [apply elem_of_cons; by right|].
    exists w.
    rewrite !(scored_column_ext _ p (stored_after _ q _) _)
      by (by apply stored_after_other).
    assert (max_num_categories_for_drift self1 =
            max_num_categories_for_drift self) as -> by
      (unfold config in Hcfg1; congruence).
    exact Hw.
Qed.

(** [compute] returns on a ready instance when the scorer always
    returns, and leaves a ready instance. *)
Lemma compute_returns (ctx : Context) (self : t) (ps : list prop)
    (tr te : buffers) :
  ready self ps tr te →
  (∀ c a b m, ∃ v, drift_value c a b m = Ok v) →
  ∃ self' res tr' te',
    compute self ctx = Ok (self', res) ∧ ready self' ps tr' te'.
Proof.
  intros Hready Hscore.
  pose proof (compute_ready ctx self ps tr te Hready) as H.
  destruct (compute_loop_total ctx ps ps Hscore self tr te [] [] Hready)
    as [[[self1 vd] dd] Hloop].
  rewrite Hloop in H. destruct H as (figs & Heq & _).
  destruct (compute_loop ctx ps ps _ _ _ _ _ _ _ _ Hready Hloop)
    as (_ & tr' & te' & Hready' & _).
  by eexists _, _, tr', te'.
Qed.

End DriftRunFacts.

Section DriftRunProperties.
Import TrainTestPredictionDrift.
Context {env : Env}.

(** A run raises only where [initialize_run] or the scorer does: when
    the scorer returns for every pair of columns, the run returns for
    every sequence of batches; no key or buffer is ever missing. *)
Theorem drift_run_returns (self self0 : t) (ctx : Context)
    (calls : list (DatasetKind * Batch)) :
  initialize_run self ctx = Ok self0 →
  (∀ c a b m, ∃ v, drift_value c a b m = Ok v) →
  ∃ self' res, run self ctx calls = Ok (self', res).
Proof.
  intros Hinit Hscore. unfold run. rewrite Hinit.
  cbn [mbind result_bind Py.bind].
  destruct (initialize_run_ready _ _ _ Hinit) as (ps & Hready & _).
  destruct (feed_ready ctx calls self0 ps ∅ ∅ Hready)
    as (self1 & tr & te & -> & Hready1 & _).
  cbn [mbind result_bind Py.bind].
  pose proof (compute_ready ctx self1 ps tr te Hready1) as H.
  destruct (compute_loop_total ctx ps ps Hscore self1 tr te [] [] Hready1)
    as [[[self2 vd] dd] Hloop].
  rewrite Hloop in H. destruct H as (figs & -> & _). by eexists _, _.
Qed.

(** The result of a run has one entry of the value and one chart per
    declared property: the keys of the value are the declared names in
    declaration order, and the display is the head note followed by as
    many charts as there are properties. *)
Theorem drift_run_value_keys (self self0 self' : t) (ctx : Context)
    (ps : list prop) (calls : list (DatasetKind * Batch)) (res : CheckResult) :
  initialize_run self ctx = Ok self0 →
  _prediction_properties self0 = Some ps →
  NoDup (name <$> ps) →
  run self ctx calls = Ok (self', res) →
  fst <$> value res = name <$> ps ∧
  header res = "Train Test Prediction Drift" ∧
  ∃ figs, display res = Headnote (name <$> ps) :: figs ∧
          length figs = length ps.
Proof.
  intros Hinit Hps Hnd Hrun. unfold run in Hrun. rewrite Hinit in Hrun.
  cbn [mbind result_bind Py.bind] in Hrun.
  destruct (initialize_run_ready _ _ _ Hinit) as (ps' & Hready & _).
  assert (ps' = ps) as ->.
  { destruct Hready as (Hps' & _). congruence. }
  destruct (feed_ready ctx calls self0 ps ∅ ∅ Hready)
    as (self1 & tr & te & Hfeed & Hready1 & _).
  rewrite Hfeed in Hrun. cbn [mbind result_bind Py.bind] in Hrun.
  pose proof (compute_ready ctx self1 ps tr te Hready1) as H.
  destruct (foldM (compute_property ctx) (self1, [], []) ps)
    as [[[self2 vd] dd]|e] eqn:Hloop; [|congruence].
  destruct H as (figs & Heq & Hfigs). rewrite Heq in Hrun.
  injection Hrun as <- <-. simpl.
  destruct (compute_loop_new_keys ctx ps ps _ _ _ _ _ _ _ _ Hready1 Hloop)
    as [Hkeys _]; [exact Hnd|exact Hnd|].
  split; [exact Hkeys|]. split; [reflexivity|].
  exists figs. split; [reflexivity|].
  apply Forall2_length in Hfigs. rewrite <- Hfigs.
  rewrite (Permutation_length (sorted_reverse_perm _ _)).
  by rewrite length_fmap.
Qed.

(** An exception of the scorer on one property ends [compute] with that
    exception: when the scorer returns for the properties declared
    before it and raises for it, [compute] raises what the scorer raised
    and gives no result for any property. *)
Theorem scorer_exception_aborts_compute (self : t) (ctx : Context)
    (ps1 ps2 : list prop) (p : prop) (tr te : buffers) (e : exception) :
  ready self (ps1 ++ p :: ps2) tr te →
  NoDup (name <$> ps1 ++ p :: ps2) →
  (∀ q, q ∈ ps1 → ∃ v,
     drift_value (get_column_type (output_type q))
       (scored_column (label_id_to_name (train ctx)) q tr)
       (scored_column (label_id_to_name (test ctx)) q te)
       (max_num_categories_for_drift self) = Ok v) →
  drift_value (get_column_type (output_type p))
    (scored_column (label_id_to_name (train ctx)) p tr)
    (scored_column (label_id_to_name (test ctx)) p te)
    (max_num_categories_for_drift self) = Raise e →
  compute self ctx = Raise e.
Proof.
  intros Hready Hnd Hbefore Hp.
  pose proof (compute_ready ctx self _ tr te Hready) as H.
  rewrite fmap_app, fmap_cons in Hnd.
  apply NoDup_app in Hnd as (Hnd1 & Hdisj & Hnd2).
  assert (Hp1 : name p ∉ name <$> ps1).
  { intros Hin. apply (Hdisj _ Hin). apply elem_of_cons. by left. }
  destruct (compute_loop_returns ctx _ ps1 self tr te [] [] Hready Hnd1 Hbefore)
    as [[[self1 vd] dd] Hloop1].
  destruct (compute_loop ctx _ ps1 _ _ _ _ _ _ _ _ Hready Hloop1)
    as (Hcfg & tr1 & te1 & Hready1 & Hframe & _).
  destruct (Hframe _ Hp1) as (Htr1 & Hte1 & _).
  assert (Hraise : foldM (compute_property ctx) (self, [], []) (ps1 ++ p :: ps2)
                   = Raise e).
  { rewrite foldM_app, Hloop1. cbn [mbind result_bind Py.bind foldM].
    destruct (compute_property_ready ctx self1 _ tr1 te1 vd dd p Hready1)
      as (self2 & _ & _ & ->).
    rewrite (scored_column_ext _ p tr1 tr Htr1),
            (scored_column_ext _ p te1 te Hte1).
    assert (max_num_categories_for_drift self1 =
            max_num_categories_for_drift self) as -> by
      (unfold config in Hcfg; congruence).
    by rewrite Hp. }
  by rewrite Hraise in H.
Qed.

(** [compute] is for one call per run: the declared names being
    pairwise distinct, it leaves the names in the buffer of a property
    of class ids, and a second call passes those names to
    [label_id_to_name] as if they were ids and scores the outcome. *)
Theorem second_compute_translates_again (self self1 self2 : t) (ctx : Context)
    (ps : list prop) (p : prop) (tr te : buffers) (res1 res2 : CheckResult) :
  ready self ps tr te →
  NoDup (name <$> ps) →
  p ∈ ps →
  output_type p = class_id →
  compute self ctx = Ok (self1, res1) →
  compute self1 ctx = Ok (self2, res2) →
  let twice (lookup : pyval → string) (column : list pyval) :=
    (λ name, PStr (lookup name))
    <$> ((λ class_id, PStr (lookup class_id)) <$> column) in
  ∃ score,
    drift_value (get_column_type class_id)
      (twice (label_id_to_name (train ctx)) (tr !!! name p))
      (twice (label_id_to_name (test ctx)) (te !!! name p))
      (max_num_categories_for_drift self) = Ok score ∧
    od_get (name p) (value res2) =
      Some (Entry score (scorer_name (get_column_type class_id))).
Proof.
  intros Hready Hnd Hp Hot Hc1 Hc2 twice.
  pose proof (compute_ready ctx self ps tr te Hready) as H1.
  destruct (foldM (compute_property ctx) (self, [], []) ps)
    as [[[self1' vd1] dd1]|e] eqn:Hloop1; [|congruence].
  destruct H1 as (figs1 & Heq1 & _). rewrite Heq1 in Hc1.
  injection Hc1 as <- <-.
  destruct (compute_loop ctx ps ps _ _ _ _ _ _ _ _ Hready Hloop1)
    as (Hcfg1 & tr1 & te1 & Hready1 & _ & Hentry1).
  destruct (Hentry1 Hnd p Hp) as (Htr1 & Hte1 & _).
  pose proof (compute_ready ctx self1' ps tr1 te1 Hready1) as H2.
  destruct (foldM (compute_property ctx) (self1', [], []) ps)
    as [[[self2' vd2] dd2]|e] eqn:Hloop2; [|congruence].
  destruct H2 as (figs2 & Heq2 & _). rewrite Heq2 in Hc2.
  injection Hc2 as <- <-.
  destruct (compute_loop ctx ps ps _ _ _ _ _ _ _ _ Hready1 Hloop2)
    as (_ & tr2 & te2 & _ & _ & Hentry2).
  destruct (Hentry2 Hnd p Hp) as (_ & _ & score & Hscore & Hvd & _).
  exists score. split; [|by rewrite Hot in Hvd].
  unfold scored_column in *. rewrite Hot in *. cbn in Htr1, Hte1, Hscore.
  rewrite Htr1, Hte1 in Hscore.
  assert (max_num_categories_for_drift self1' =
          max_num_categories_for_drift self) as <- by
    (unfold config in Hcfg1; congruence).
  exact Hscore.
Qed.

Lemma extend_properties_raise (batch : Batch) (ps : list prop)
    (d : option buffers) (e : exception) :
  foldM (extend_property batch) d ps = Raise e → e = TypeError "NoneType".
Proof.
  destruct d as [d|].
  - destruct (extend_properties batch ps d) as (d' & -> & _). discriminate.
  - destruct ps as [|p ps]; [discriminate|]. by intros [= <-].
Qed.

(** Updates with batches of different kinds commute: a TRAIN batch and a
    TEST batch leave the same instance, or raise the same exception, in
    either order of arrival. *)
Theorem updates_of_different_kinds_commute (self : t) (ctx : Context)
    (batch1 batch2 : Batch) :
  (update self ctx batch1 (Kind TRAIN) ≫= λ s, update s ctx batch2 (Kind TEST)) =
  (update self ctx batch2 (Kind TEST) ≫= λ s, update s ctx batch1 (Kind TRAIN)).
Proof.
  unfold update, mbind, result_bind, mret, result_ret.
  destruct (_prediction_properties self) as [ps|] eqn:Hps; [|reflexivity].
  cbn [not_none Py.bind].
  destruct (foldM (extend_property batch1) (_train_prediction_properties self) ps)
    as [tr'|e1] eqn:Htr;
  destruct (foldM (extend_property batch2) (_test_prediction_properties self) ps)
    as [te'|e2] eqn:Hte;
  cbn [Py.bind _prediction_properties
       _train_prediction_properties _test_prediction_properties
       user_prediction_properties max_num_categories_for_drift
       max_num_categories_for_display show_categories_by not_none];
  rewrite ?Hps; cbn [not_none Py.bind]; rewrite ?Htr, ?Hte;
  cbn [Py.bind]; try reflexivity.
  apply extend_properties_raise in Htr, Hte. congruence.
Qed.

End DriftRunProperties.

Section DriftRunExamples.
Import TrainTestPredictionDrift DriftSample.

Lemma drift_run_returns_witness :
  ∃ self' res,
    @run sample_env fresh sample_context
      [(TRAIN, batch1); (TEST, batch2)] = Ok (self', res).
Proof.
  apply (@drift_run_returns sample_env fresh started sample_context).
  - reflexivity.
  - intros c a b m. eexists. reflexivity.
Defined.

Lemma drift_run_value_keys_witness :
  ∃ self' res,
    @run sample_env fresh sample_context
      [(TRAIN, batch1); (TEST, batch2)] = Ok (self', res) ∧
    fst <$> value res =
      name <$> [samples_per_class; boxes_per_image; first_class] ∧
    header res = "Train Test Prediction Drift" ∧
    ∃ figs,
      display res =
        Headnote (name <$> [samples_per_class; boxes_per_image; first_class])
        :: figs ∧
      length figs = length [samples_per_class; boxes_per_image; first_class].
Proof.
  destruct (@run sample_env fresh sample_context
              [(TRAIN, batch1); (TEST, batch2)]) as [[self' res]|e] eqn:Hrun.
  - exists self', res. split; [reflexivity|].
    apply (@drift_run_value_keys sample_env fresh started self'
             sample_context _ [(TRAIN, batch1); (TEST, batch2)] res).
    + reflexivity.
    + reflexivity.
    + apply (bool_decide_unpack _). vm_compute. reflexivity.
    + exact Hrun.
  - vm_compute in Hrun. discriminate Hrun.
Defined.

Lemma scorer_exception_aborts_compute_witness :
  @compute strict_env lacking sample_context =
  Raise (DeepchecksValueError "empty column").
Proof.
  eapply (@scorer_exception_aborts_compute strict_env lacking sample_context
            [boxes_per_image] [first_class] samples_per_class).
  - repeat split; reflexivity.
  - apply (bool_decide_unpack _). vm_compute. reflexivity.
  - intros q Hq. apply list_elem_of_singleton in Hq as ->.
    eexists. reflexivity.
  - reflexivity.
Defined.

Lemma second_compute_translates_again_witness :
  ∃ self1 res1 self2 res2 tr te,
    _train_prediction_properties loaded = Some tr ∧
    _test_prediction_properties loaded = Some te ∧
    @compute sample_env loaded sample_context = Ok (self1, res1) ∧
    compute self1 sample_context = Ok (self2, res2) ∧
    ∃ score,
      @drift_value sample_env categorical
        ((λ name, PStr (class_names name))
         <$> ((λ class_id, PStr (class_names class_id))
              <$> tr !!! "Samples Per Class"))
        ((λ name, PStr (class_names name))
         <$> ((λ class_id, PStr (class_names class_id))
              <$> te !!! "Samples Per Class"))
        (Some 10%Z) = Ok score ∧
      od_get "Samples Per Class" (value res2) = Some (Entry score "PSI").
Proof.
  assert (Htotal : ∀ c a b m, ∃ v, @drift_value sample_env c a b m = Ok v)
    by (intros c a b m; eexists; reflexivity).
  destruct (@compute_returns sample_env sample_context loaded _ _ _
              (conj eq_refl (conj eq_refl eq_refl)) Htotal)
    as (self1 & res1 & tr1 & te1 & Hc1 & Hready1).
  destruct (@compute_returns sample_env sample_context self1 _ _ _
              Hready1 Htotal)
    as (self2 & res2 & _ & _ & Hc2 & _).
  exists self1, res1, self2, res2. eexists _, _.
  split; [reflexivity|]. split; [reflexivity|].
  split; [exact Hc1|]. split; [exact Hc2|].
  apply (@second_compute_translates_again sample_env loaded self1 self2
           sample_context
           [boxes_per_image; samples_per_class; first_class]
           samples_per_class _ _ res1 res2).
  - repeat split; reflexivity.
  - apply (bool_decide_unpack _). vm_compute. reflexivity.
  - apply elem_of_cons. right. apply elem_of_cons. by left.
  - reflexivity.
  - exact Hc1.
  - exact Hc2.
Defined.

(** After the second call the buffer holds the name given to names. *)
Example names_of_names :
  (λ r, _train_prediction_properties (fst r) ≫= (.!! "Samples Per Class"))
  <$> (@compute sample_env loaded sample_context
       ≫= λ r, compute (fst r) sample_context)
  = Ok (Some [PStr "other"; PStr "other"; PStr "other"; PStr "other";
              PStr "other"]).
Proof. vm_compute. reflexivity. Qed.

End DriftRunExamples.
(** ** TrainTestPredictionDrift: the condition on the drift scores *)

Section DriftCondition.
Import TrainTestPredictionDrift.
Context {env : Env}.

Lemma filter_nil_iff {A : Type} (P : A → Prop) `{∀ a, Decision (P a)}
    (l : list A) :
  filter P l = [] ↔ ∀ a, a ∈ l → ¬ P a.
Proof.
  split.
  - intros Hnil a Hin HP. by eapply filter_nil_not_elem_of.
  - induction l as [|a l IH]; intros Hall; [reflexivity|].
    rewrite filter_cons, decide_False.
    + apply IH. intros b Hb. apply Hall. apply elem_of_cons. by right.
    + apply Hall. apply elem_of_cons. by left.
Qed.

Lemma not_passing_nil (threshold : Q) (method : string)
    (result : list (string * drift_entry)) :
  not_passing threshold method result = [] ↔
  ∀ n e, (n, e) ∈ result → Method e = method →
         (Drift_score e <= threshold)%Q.
Proof.
  unfold not_passing. split.
  - intros Hnil n e Hin Hm. apply fmap_nil_inv in Hnil.
    apply Qnot_lt_le. intros Hlt.
    by apply (proj1 (filter_nil_iff _ _) Hnil (n, e) Hin).
  - intros Hall.
    assert (filter (λ kv : string * drift_entry,
                      (threshold < Drift_score (snd kv))%Q ∧
                      Method (snd kv) = method) result = []) as ->;
      [|reflexivity].
    apply filter_nil_iff. intros [n e] Hin [Hlt Hm]. simpl in *.
    by apply (Qlt_not_le _ _ Hlt), (Hall n e).
Qed.

(** The condition passes exactly when no property scored with PSI is
    above the PSI threshold and none scored with the Earth Mover's
    Distance is above the other threshold; a score equal to its
    threshold passes, an entry of any other method is not looked at, and
    the condition fails where it does not pass. *)
Theorem drift_condition_passes_iff (max_psi max_earth_movers : Q)
    (result : list (string * drift_entry)) :
  (category (condition max_psi max_earth_movers result) = PASS ↔
   ∀ n e, (n, e) ∈ result →
     (Method e = "PSI" → (Drift_score e <= max_psi)%Q) ∧
     (Method e = "Earth Mover's Distance" →
      (Drift_score e <= max_earth_movers)%Q)) ∧
  (category (condition max_psi max_earth_movers result) ≠ PASS →
   category (condition max_psi max_earth_movers result) = FAIL ∧
   details (condition max_psi max_earth_movers result) ≠ []).
Proof.
  pose proof (not_passing_nil max_psi "PSI" result) as Hpsi.
  pose proof (not_passing_nil max_earth_movers "Earth Mover's Distance" result)
    as Hemd.
  unfold condition.
  destruct (not_passing max_psi "PSI" result) as [|c cs];
    destruct (not_passing max_earth_movers "Earth Mover's Distance" result)
      as [|d ds]; simpl; (split; [split|]); try done.
  - intros _ n e Hin. split; intros Hm.
    + by apply (proj1 Hpsi eq_refl n e).
    + by apply (proj1 Hemd eq_refl n e).
  - intros Hall. assert (d :: ds = []); [|done].
    apply Hemd. intros n e Hin Hm. by apply (Hall n e).
  - intros Hall. assert (c :: cs = []); [|done].
    apply Hpsi. intros n e Hin Hm. by apply (Hall n e).
  - intros Hall. assert (c :: cs = []); [|done].
    apply Hpsi. intros n e Hin Hm. by apply (Hall n e).
Qed.

End DriftCondition.

Section DriftConditionExamples.
Import TrainTestPredictionDrift DriftSample.

(** The scores of [loaded] are 1, 4 and 1. *)
Example condition_on_loaded :
  (λ r, (category (condition 4 1 (value (snd r))),
         category (condition 3 1 (value (snd r))),
         details (condition 3 (1 / 2) (value (snd r)))))
  <$> @compute sample_env loaded sample_context
  = Ok (PASS, FAIL,
        [AbovePSI [("Samples Per Class", 4%Q)];
         AboveEarthMovers [("Number of Bounding Boxes Per Image", 1%Q)]]).
Proof. vm_compute. reflexivity. Qed.

End DriftConditionExamples.

(** ** ModelErrorAnalysis: accumulation *)

Section ErrorAnalysisAccumulation.
Import ModelErrorAnalysis.
Context {env : Env}.

Lemma error_extracted_by_name_cons (n : string) (p : prop) (ps : list prop)
    (batch : Batch) :
  extracted_by_name n (p :: ps) batch =
  (if decide (name p = n) then method p (images batch) else []) ++
  extracted_by_name n ps batch.
Proof.
  unfold extracted_by_name. rewrite filter_cons.
  destruct (decide (name p = n)); reflexivity.
Qed.

Lemma error_extracted_by_name_unique (p : prop) (ps : list prop)
    (batch : Batch) :
  NoDup (name <$> ps) → p ∈ ps →
  extracted_by_name (name p) ps batch = method p (images batch).
Proof.
  induction ps as [|q ps IH]; intros Hnd Hin.
  - by apply elem_of_nil in Hin.
  - rewrite fmap_cons in Hnd. apply NoDup_cons in Hnd as [Hq Hnd].
    rewrite error_extracted_by_name_cons.
    apply elem_of_cons in Hin as [->|Hin].
    + rewrite decide_True by done.
      assert (extracted_by_name (name q) ps batch = []) as ->;
        [|by rewrite app_nil_r].
      clear IH Hnd. induction ps as [|r ps IH]; [reflexivity|].
      rewrite fmap_cons in Hq. apply not_elem_of_cons in Hq as [Hne Hq].
      rewrite error_extracted_by_name_cons, decide_False by congruence.
      by apply IH.
    + rewrite decide_False.
      * by apply IH.
      * intros Heq. apply Hq. rewrite Heq. by apply list_elem_of_fmap_2.
Qed.

(** The first loop of [update] on an initialised buffer. *)
Lemma error_extend_properties (batch : Batch) (ps : list prop)
    (d : gmap string (list pyval)) :
  ∃ d', foldM (extend_property batch) (Some d) ps = Ok (Some d') ∧
        ∀ n, d' !!! n = d !!! n ++ extracted_by_name n ps batch.
Proof.
  revert d. induction ps as [|p ps IH]; intros d.
  - exists d. split; [reflexivity|]. intros n.
    unfold extracted_by_name. simpl. by rewrite app_nil_r.
  - simpl.
    destruct (IH (<[name p := d !!! name p ++ method p (images batch)]> d))
      as (d' & Hfold & Hd').
    exists d'. split; [exact Hfold|]. intros n.
    rewrite Hd', error_extracted_by_name_cons.
    destruct (decide (name p = n)) as [<-|Hne].
    + by rewrite lookup_total_insert_eq, <- app_assoc.
    + by rewrite lookup_total_insert_ne.
Qed.

(** One [update] of a ready instance on a dataset of a supported task
    type: the buffers of the batch's kind grow, the others and the
    configuration stay. *)
Lemma error_update_ready (self : t) (ctx : Context) (batch : Batch)
    (k : DatasetKind) (trp tep : gmap string (list pyval)) (trs tes : list Q) :
  ready self trp tep trs tes →
  task_type (dataset_of ctx k) ≠ OTHER_TASK →
  ∃ self' trp' tep' trs' tes',
    update self ctx batch (Kind k) = Ok self' ∧
    ready self' trp' tep' trs' tes' ∧ config self' = config self ∧
    (∀ n, trp' !!! n =
          trp !!! n ++
          (if decide (k = TRAIN)
           then extracted_by_name n (image_properties self) batch else [])) ∧
    (∀ n, tep' !!! n =
          tep !!! n ++
          (if decide (k = TEST)
           then extracted_by_name n (image_properties self) batch else [])) ∧
    trs' = trs ++ (if decide (k = TRAIN)
                   then batch_scores (task_type (train ctx)) batch else []) ∧
    tes' = tes ++ (if decide (k = TEST)
                   then batch_scores (task_type (test ctx)) batch else []).
Proof.
  intros (Htrp & Htep & Htrs & Htes) Htask. unfold update.
  destruct k; cbn [dataset_of] in Htask.
  - rewrite Htrp, Htrs.
    destruct (error_extend_properties batch (image_properties self) trp)
      as (d' & -> & Hd').
    cbn [mbind result_bind Py.bind].
    destruct (task_type (train ctx)) eqn:Ht; [| |done];
      cbn [mret result_ret Py.bind];
      eexists _, d', tep, _, tes; (split; [reflexivity|]);
      unfold ready, config, with_run_state, batch_scores; simpl;
      rewrite Htep, Htes, ?app_nil_r; repeat split; auto;
      intros n; by rewrite app_nil_r.
  - rewrite Htep, Htes.
    destruct (error_extend_properties batch (image_properties self) tep)
      as (d' & -> & Hd').
    cbn [mbind result_bind Py.bind].
    destruct (task_type (test ctx)) eqn:Ht; [| |done];
      cbn [mret result_ret Py.bind];
      eexists _, trp, d', trs, _; (split; [reflexivity|]);
      unfold ready, config, with_run_state, batch_scores; simpl;
      rewrite Htrp, Htrs, ?app_nil_r; repeat split; auto;
      intros n; by rewrite app_nil_r.
Qed.

Lemma error_batches_of_cons (k k' : DatasetKind) (batch : Batch)
    (calls : list (DatasetKind * Batch)) :
  batches_of k ((k', batch) :: calls) =
  (if decide (k' = k) then [batch] else []) ++ batches_of k calls.
Proof.
  unfold batches_of. rewrite filter_cons. simpl.
  destruct (decide (k' = k)); reflexivity.
Qed.

(** Any sequence of updates of a ready instance, on datasets of
    supported task types: what each buffer holds afterwards. *)
Lemma error_feed_ready (ctx : Context) (calls : list (DatasetKind * Batch))
    (self : t) (trp tep : gmap string (list pyval)) (trs tes : list Q) :
  ready self trp tep trs tes →
  task_type (train ctx) ≠ OTHER_TASK →
  task_type (test ctx) ≠ OTHER_TASK →
  ∃ self' trp' tep' trs' tes',
    feed self ctx calls = Ok self' ∧
    ready self' trp' tep' trs' tes' ∧ config self' = config self ∧
    (∀ n, trp' !!! n =
          trp !!! n ++
          concat (extracted_by_name n (image_properties self)
                  <$> batches_of TRAIN calls)) ∧
    (∀ n, tep' !!! n =
          tep !!! n ++
          concat (extracted_by_name n (image_properties self)
                  <$> batches_of TEST calls)) ∧
    trs' = trs ++ concat (batch_scores (task_type (train ctx))
                          <$> batches_of TRAIN calls) ∧
    tes' = tes ++ concat (batch_scores (task_type (test ctx))
                          <$> batches_of TEST calls).
Proof.
  intros Hready Htrain Htest. revert self trp tep trs tes Hready.
  induction calls as [|[k batch] calls IH];
    intros self trp tep trs tes Hready.
  - exists self, trp, tep, trs, tes. split; [reflexivity|].
    split; [exact Hready|]. split; [reflexivity|].
    simpl. rewrite !app_nil_r. repeat split; intros n; by rewrite app_nil_r.
  - destruct (error_update_ready self ctx batch k trp tep trs tes Hready)
      as (self1 & trp1 & tep1 & trs1 & tes1 & Hupd & Hready1 & Hcfg1 &
          Htrp1 & Htep1 & Htrs1 & Htes1).
    { by destruct k. }
    destruct (IH self1 trp1 tep1 trs1 tes1 Hready1)
      as (self2 & trp2 & tep2 & trs2 & tes2 & Hfeed & Hready2 & Hcfg2 &
          Htrp2 & Htep2 & Htrs2 & Htes2).
    assert (Hps : image_properties self1 = image_properties self) by
      (unfold config in Hcfg1; congruence).
    rewrite Hps in Htrp2, Htep2.
    exists self2, trp2, tep2, trs2, tes2. unfold feed in *.
    cbn [foldM fst snd]. rewrite Hupd. cbn [Py.bind].
    split; [exact Hfeed|]. split; [exact Hready2|]. split; [congruence|].
    rewrite !error_batches_of_cons. subst trs2 tes2 trs1 tes1.
    repeat split; try intros n; rewrite ?Htrp2, ?Htrp1, ?Htep2, ?Htep1;
      destruct k; simpl; rewrite <- ?app_assoc; simpl; by rewrite ?app_nil_r.
Qed.

Lemma error_initialize_run_ready (self self0 : t) (ctx : Context) :
  initialize_run self ctx = Ok self0 →
  ready self0 ∅ ∅ [] [] ∧ config self0 = config self.
Proof.
  unfold initialize_run. intros H.
  apply bind_Ok_inv in H as (u & _ & H). by injection H as <-.
Qed.

End ErrorAnalysisAccumulation.

Section ErrorAnalysisAccumulationProperties.
Import ModelErrorAnalysis.
Context {env : Env}.

(** After [initialize_run] and any sequence of updates on datasets of
    supported task types, the scores of each kind are the scores of its
    batches in arrival order, and the buffer of each image property
    (their names being distinct) holds the values of its method on the
    images of those batches. *)
Theorem error_analysis_accumulates (self self0 : t) (ctx : Context)
    (calls : list (DatasetKind * Batch)) :
  initialize_run self ctx = Ok self0 →
  task_type (train ctx) ≠ OTHER_TASK →
  task_type (test ctx) ≠ OTHER_TASK →
  NoDup (name <$> image_properties self) →
  ∃ self1 trp tep,
    feed self0 ctx calls = Ok self1 ∧
    _train_properties self1 = Some trp ∧
    _test_properties self1 = Some tep ∧
    _train_scores self1 =
      Some (concat (batch_scores (task_type (train ctx))
                    <$> batches_of TRAIN calls)) ∧
    _test_scores self1 =
      Some (concat (batch_scores (task_type (test ctx))
                    <$> batches_of TEST calls)) ∧
    ∀ p, p ∈ image_properties self →
      trp !!! name p =
        concat ((λ batch, method p (images batch)) <$> batches_of TRAIN calls) ∧
      tep !!! name p =
        concat ((λ batch, method p (images batch)) <$> batches_of TEST calls).
Proof.
  intros Hinit Htrain Htest Hnd.
  destruct (error_initialize_run_ready _ _ _ Hinit) as [Hready Hcfg].
  assert (Hps : image_properties self0 = image_properties self) by
    (unfold config in Hcfg; congruence).
  destruct (error_feed_ready ctx calls self0 ∅ ∅ [] [] Hready Htrain Htest)
    as (self1 & trp & tep & trs & tes & Hfeed & (Htrp & Htep & Htrs & Htes) &
        _ & Htrpn & Htepn & -> & ->).
  rewrite Hps in Htrpn, Htepn.
  exists self1, trp, tep. do 5 (split; [assumption|]).
  intros p Hp. split.
  - rewrite Htrpn, lookup_total_empty. simpl. f_equal.
    apply list_fmap_ext. intros _ batch _.
    by apply error_extracted_by_name_unique.
  - rewrite Htepn, lookup_total_empty. simpl. f_equal.
    apply list_fmap_ext. intros _ batch _.
    by apply error_extracted_by_name_unique.
Qed.

Lemma concat_fmap_length {A B C : Type} (f : A → list B) (g : A → list C)
    (l : list A) :
  (∀ a, length (f a) = length (g a)) →
  length (concat (f <$> l)) = length (concat (g <$> l)).
Proof.
  intros H. induction l as [|a l IH]; [reflexivity|].
  rewrite !fmap_cons. simpl. by rewrite !length_app, IH, H.
Qed.

(** The rows stay aligned: when every image property yields one value
    per sample of a batch and the scoring functions one score per
    sample, then after any sequence of updates every buffer of a kind is
    as long as the list of scores of that kind. *)
Theorem error_analysis_rows_aligned (self self0 self1 : t) (ctx : Context)
    (calls : list (DatasetKind * Batch)) (samples : Batch → nat)
    (trp tep : gmap string (list pyval)) (trs tes : list Q) :
  initialize_run self ctx = Ok self0 →
  task_type (train ctx) ≠ OTHER_TASK →
  task_type (test ctx) ≠ OTHER_TASK →
  NoDup (name <$> image_properties self) →
  (∀ p batch, p ∈ image_properties self →
     length (method p (images batch)) = samples batch) →
  (∀ task batch, task ≠ OTHER_TASK →
     length (batch_scores task batch) = samples batch) →
  feed self0 ctx calls = Ok self1 →
  ready self1 trp tep trs tes →
  ∀ p, p ∈ image_properties self →
    length (trp !!! name p) = length trs ∧
    length (tep !!! name p) = length tes.
Proof.
  intros Hinit Htrain Htest Hnd Hvalues Hscores Hfeed Hready1 p Hp.
  destruct (error_initialize_run_ready _ _ _ Hinit) as [Hready Hcfg].
  assert (Hps : image_properties self0 = image_properties self) by
    (unfold config in Hcfg; congruence).
  destruct (error_feed_ready ctx calls self0 ∅ ∅ [] [] Hready Htrain Htest)
    as (self1' & trp' & tep' & trs' & tes' & Hfeed' & Hready1' &
        _ & Htrpn & Htepn & -> & ->).
  assert (self1' = self1) as -> by congruence.
  destruct Hready1 as (H1 & H2 & H3 & H4).
  destruct Hready1' as (H1' & H2' & H3' & H4').
  assert (trp' = trp) as -> by congruence.
  assert (tep' = tep) as -> by congruence.
  assert (trs = concat (batch_scores (task_type (train ctx))
                        <$> batches_of TRAIN calls)) as -> by
    (simpl in H3'; congruence).
  assert (tes = concat (batch_scores (task_type (test ctx))
                        <$> batches_of TEST calls)) as -> by
    (simpl in H4'; congruence).
  rewrite Hps in Htrpn, Htepn.
  rewrite Htrpn, Htepn, !lookup_total_empty. simpl.
  split; apply concat_fmap_length; intros b;
    rewrite (error_extracted_by_name_unique p _ b Hnd Hp), (Hvalues p b Hp);
    symmetry; by apply Hscores.
Qed.

End ErrorAnalysisAccumulationProperties.

Section ErrorAnalysisOutcome.
Import ModelErrorAnalysis.
Context {env : Env}.

(** What [compute] can return.  A check failure is returned only for a
    [DeepchecksProcessError] raised by the error model, and carries the
    check itself and that exception; an exception of the step that
    builds the display is never turned into a failure.  In a check
    result the display is [None] or the head note followed by at least
    one chart. *)
Theorem error_analysis_compute_outcome (self : t) (ctx : Context)
    (out : outcome) :
  compute self ctx = Ok out →
  ∃ train_frame test_frame test_property_df,
    DataFrame (_train_properties self) = Ok train_frame ∧
    DataFrame (_test_properties self) = Ok test_frame ∧
    select_columns test_frame (columns (dropna_columns_all train_frame)) =
      Ok test_property_df ∧
    let fitted :=
      model_error_contribution (dropna_columns_all train_frame)
        (_train_scores self) test_property_df (_test_scores self)
        (columns (dropna_columns_all train_frame)) []
        (min_error_model_score self) (random_state self) in
    match out with
    | CheckFailure check e =>
        check = self ∧ fitted = Raise e ∧
        ∃ msg, e = DeepchecksProcessError msg
    | CheckResult value display =>
        ∃ error_fi predicted figures,
          fitted = Ok (error_fi, predicted) ∧
          error_model_display_dataframe error_fi predicted test_property_df
            [] (max_properties_to_show self) (min_property_contribution self)
            (n_display_samples self) (min_segment_size self)
            (random_state self) = Ok (figures, value) ∧
          display = match figures with
                    | [] => None
                    | _ => Some (Headnote :: (Figure <$> figures))
                    end ∧
          display ≠ Some [Headnote]
    end.
Proof.
  unfold compute. intros H.
  apply bind_Ok_inv in H as (train_frame & Htrain & H).
  apply bind_Ok_inv in H as (test_frame & Htest & H).
  apply bind_Ok_inv in H as (test_property_df & Hselect & H).
  exists train_frame, test_frame, test_property_df.
  do 3 (split; [assumption|]). cbv zeta.
  destruct (model_error_contribution _ _ _ _ _ _ _ _)
    as [[error_fi predicted]|e] eqn:Hfit.
  - apply bind_Ok_inv in H as ([figures value] & Hdisplay & H).
    injection H as <-. exists error_fi, predicted, figures.
    split; [reflexivity|]. split; [exact Hdisplay|]. split; [reflexivity|].
    by destruct figures.
  - destruct e; try discriminate H. injection H as <-. eauto.
Qed.

(** A run depends on the configuration of the instance alone, whatever
    an earlier run left in its buffers, and leaves the configuration as
    it found it. *)
Theorem error_analysis_runs_independent (self1 self2 : t) (ctx : Context)
    (calls : list (DatasetKind * Batch)) :
  config self1 = config self2 →
  run self1 ctx calls = run self2 ctx calls ∧
  ∀ self' out, run self1 ctx calls = Ok (self', out) →
               config self' = config self1.
Proof.
  intros Hcfg. split.
  - by apply error_analysis_run_as_fresh.
  - intros self' out. apply error_analysis_run_config.
Qed.

End ErrorAnalysisOutcome.

Section DriftRunsIndependent.
Import TrainTestPredictionDrift.
Context {env : Env}.

(** A run depends on the configuration of the instance alone, whatever
    an earlier run left in its buffers, and leaves the configuration as
    it found it. *)
Theorem drift_runs_independent (self1 self2 : t) (ctx : Context)
    (calls : list (DatasetKind * Batch)) :
  config self1 = config self2 →
  run self1 ctx calls = run self2 ctx calls ∧
  ∀ self' res, run self1 ctx calls = Ok (self', res) →
               config self' = config self1.
Proof.
  intros Hcfg. split.
  - by apply drift_run_as_fresh.
  - intros self' res. apply drift_run_config.
Qed.

End DriftRunsIndependent.

Section ErrorAnalysisMoreExamples.
Import ModelErrorAnalysis ErrorSample.

Lemma error_analysis_accumulates_witness :
  ∃ self1 trp tep,
    @feed sample_env
      (@with_run_state sample_env used (Some ∅) (Some ∅) (Some []) (Some []))
      sample_context
      [(TRAIN, [3; 4]%Z); (TEST, [8]%Z); (TRAIN, [6]%Z)] = Ok self1 ∧
    _train_properties self1 = Some trp ∧
    _test_properties self1 = Some tep ∧
    _train_scores self1 = Some [3%Q; 4%Q; 6%Q] ∧
    _test_scores self1 = Some [8%Q] ∧
    trp !!! "Brightness" = [PInt 3; PInt 4; PInt 6] ∧
    tep !!! "Brightness" = [PInt 8].
Proof.
  destruct (@error_analysis_accumulates sample_env used
              (@with_run_state sample_env used (Some ∅) (Some ∅)
                 (Some []) (Some []))
              sample_context
              [(TRAIN, [3; 4]%Z); (TEST, [8]%Z); (TRAIN, [6]%Z)])
    as (self1 & trp & tep & H1 & H2 & H3 & H4 & H5 & H6).
  - reflexivity.
  - discriminate.
  - discriminate.
  - apply (bool_decide_unpack _). vm_compute. reflexivity.
  - exists self1, trp, tep. do 5 (split; [assumption|]).
    refine (H6 (Property "Brightness" (λ imgs, PInt <$> imgs) continuous) _).
    apply elem_of_cons. by left.
Defined.

(** Two samples per TRAIN batch of two images, one per batch of one. *)
Lemma error_analysis_rows_aligned_witness :
  length ((<["Brightness" := [PInt 3; PInt 4; PInt 6]]> ∅ : gmap string (list pyval))
          !!! "Brightness") = length [3%Q; 4%Q; 6%Q] ∧
  length ((<["Brightness" := [PInt 8]]> ∅ : gmap string (list pyval))
          !!! "Brightness") = length [8%Q].
Proof.
  refine (@error_analysis_rows_aligned sample_env used
           (@with_run_state sample_env used (Some ∅) (Some ∅)
              (Some []) (Some []))
           (@with_run_state sample_env used
              (Some (<["Brightness" := [PInt 3; PInt 4; PInt 6]]> ∅))
              (Some (<["Brightness" := [PInt 8]]> ∅))
              (Some [3%Q; 4%Q; 6%Q]) (Some [8%Q]))
           sample_context
           [(TRAIN, [3; 4]%Z); (TEST, [8]%Z); (TRAIN, [6]%Z)]
           (λ batch, length batch)
           (<["Brightness" := [PInt 3; PInt 4; PInt 6]]> ∅)
           (<["Brightness" := [PInt 8]]> ∅)
           [3%Q; 4%Q; 6%Q] [8%Q]
           _ _ _ _ _ _ _ _
           (Property "Brightness" (λ imgs, PInt <$> imgs) continuous) _).
  - reflexivity.
  - discriminate.
  - discriminate.
  - apply (bool_decide_unpack _). vm_compute. reflexivity.
  - intros p batch Hp. apply list_elem_of_singleton in Hp as ->.
    simpl. by rewrite length_fmap.
  - intros task batch Htask. destruct task; [| |done]; simpl;
      by rewrite length_fmap.
  - vm_compute. reflexivity.
  - repeat split; reflexivity.
  - apply elem_of_cons. by left.
Defined.

Lemma error_analysis_compute_outcome_witness :
  ∃ train_frame test_frame test_property_df,
    @DataFrame sample_env (_train_properties empty_handed) = Ok train_frame ∧
    DataFrame (_test_properties empty_handed) = Ok test_frame ∧
    select_columns test_frame (columns (dropna_columns_all train_frame)) =
      Ok test_property_df ∧
    empty_handed = empty_handed ∧
    model_error_contribution (dropna_columns_all train_frame)
      (_train_scores empty_handed) test_property_df
      (_test_scores empty_handed)
      (columns (dropna_columns_all train_frame)) []
      (min_error_model_score empty_handed) (random_state empty_handed) =
      Raise (DeepchecksProcessError "no usable feature columns") ∧
    ∃ msg, DeepchecksProcessError "no usable feature columns" =
           DeepchecksProcessError msg.
Proof.
  apply (@error_analysis_compute_outcome sample_env empty_handed
           sample_context
           (CheckFailure empty_handed
              (DeepchecksProcessError "no usable feature columns"))).
  reflexivity.
Defined.

Lemma error_analysis_runs_independent_witness :
  @run sample_env used sample_context [(TRAIN, [3; 4]%Z); (TEST, [8]%Z)] =
  run fresh sample_context [(TRAIN, [3; 4]%Z); (TEST, [8]%Z)] ∧
  ∀ self' out,
    run used sample_context [(TRAIN, [3; 4]%Z); (TEST, [8]%Z)] =
      Ok (self', out) →
    config self' = config used.
Proof.
  apply (@error_analysis_runs_independent sample_env used fresh).
  reflexivity.
Defined.

End ErrorAnalysisMoreExamples.

Section DriftRunsIndependentExamples.
Import TrainTestPredictionDrift DriftSample.

Lemma drift_runs_independent_witness :
  @run sample_env loaded sample_context [(TRAIN, batch1); (TEST, batch2)] =
  run configured sample_context [(TRAIN, batch1); (TEST, batch2)] ∧
  ∀ self' res,
    run loaded sample_context [(TRAIN, batch1); (TEST, batch2)] =
      Ok (self', res) →
    config self' = config loaded.
Proof.
  apply (@drift_runs_independent sample_env loaded configured).
  reflexivity.
Defined.

End DriftRunsIndependentExamples.

(** ** SegmentPerformance: further properties of a run *)

Section SegmentRunProperties.
Import SegmentPerformance.
Context {env : Env}.

(** A check constructed with one of the two features only is accepted
    by the constructor and refused by every run: once the scorer and the
    features of the dataset are there and the dataset has two features,
    [run_logic] raises the value error, before any partitioning. *)
Theorem one_feature_accepted_then_refused (f : Hashable)
    (scorer : option (string * Scorer)) (k : Z) (ctx : Context)
    (dataset_type : string) (sc : Scorer) :
  (0 <= k)%Z →
  let dataset :=
    if String.eqb dataset_type "train" then train ctx else test ctx in
  get_single_scorer
    (match scorer with Some named => Some [named] | None => None end) =
    Ok sc →
  assert_features dataset = Ok tt →
  (2 <= length (features dataset))%nat →
  ∃ self1 self2,
    __init__ (Some f) None scorer (PInt k) = Ok self1 ∧
    __init__ None (Some f) scorer (PInt k) = Ok self2 ∧
    run_logic self1 ctx dataset_type =
      Raise (DeepchecksValueError
               "Must define both feature_1 and feature_2 or none of them") ∧
    run_logic self2 ctx dataset_type =
      Raise (DeepchecksValueError
               "Must define both feature_1 and feature_2 or none of them").
Proof.
  intros Hk dataset Hscorer Hassert Hlen.
  rewrite (init_max_segments (Some f) None)
    by (rewrite bool_decide_eq_false_2 by done; apply andb_false_r).
  rewrite (init_max_segments None (Some f)) by reflexivity.
  apply Z.ltb_ge in Hk. rewrite Hk.
  eexists _, _. split; [reflexivity|]. split; [reflexivity|].
  unfold run_logic. cbn [user_scorer feature_1 feature_2 max_segments].
  fold dataset. rewrite !Hscorer, Hassert.
  cbn [mbind result_bind Py.bind].
  apply Nat.ltb_ge in Hlen. by rewrite Hlen.
Qed.

(** The heat map of a run that returns: the scores and the counts have
    one row per segment of the first feature (the labels [y]) and one
    column per segment of the second (the labels [x]), and a cell whose
    segment has no row has no score: the scorer is not asked about an
    empty segment. *)
Theorem heat_map_shape (self self' : t) (ctx ctx' : Context)
    (dataset_type : string) (res : CheckResult) :
  run_logic self ctx dataset_type = Ok (self', ctx', res) →
  length (scores (value res)) = length (y res) ∧
  length (counts (value res)) = length (y res) ∧
  Forall (λ row, length row = length (x res)) (scores (value res)) ∧
  Forall (λ row, length row = length (x res)) (counts (value res)) ∧
  Forall2 (Forall2 (λ s c, c = 0%nat → s = None))
    (scores (value res)) (counts (value res)).
Proof.
  unfold run_logic. intros H.
  apply bind_Ok_inv in H as (sc & _ & H).
  apply bind_Ok_inv in H as (u & _ & H).
  destruct (length _ <? 2)%nat; [discriminate|].
  apply bind_Ok_inv in H as ([[[self1 ctx1] f1] f2] & _ & H).
  apply bind_Ok_inv in H as (filters1 & _ & H).
  apply bind_Ok_inv in H as (filters2 & _ & H).
  injection H as <- <- <-. cbn [value scores counts x y].
  rewrite !length_fmap. split; [reflexivity|]. split; [reflexivity|].
  split; [|split].
  - apply Forall_fmap, Forall_fmap, Forall_forall. intros f _. simpl.
    by rewrite !length_fmap.
  - apply Forall_fmap, Forall_fmap, Forall_forall. intros f _. simpl.
    by rewrite !length_fmap.
  - apply Forall2_fmap, Forall2_fmap, Forall_Forall2_diag, Forall_forall.
    intros f _.
    apply Forall2_fmap, Forall2_fmap, Forall_Forall2_diag, Forall_forall.
    intros g _. unfold cell. simpl.
    destruct (rows _ =? 0)%nat eqn:Hrows; simpl.
    + done.
    + by apply Nat.eqb_neq in Hrows.
Qed.

(** With the importances of the features in the context and no feature
    in the check, a run takes the two features that come first when the
    importances are sorted in descending order, whatever the order of
    the features in the dataset, and leaves the importances of the
    context sorted that way. *)
Theorem importance_picks_features (self self' : t) (ctx ctx' : Context)
    (dataset_type : string) (res : CheckResult)
    (importance : list (Hashable * Q)) :
  feature_1 self = None → feature_2 self = None →
  features_importance ctx = Some importance →
  run_logic self ctx dataset_type = Ok (self', ctx', res) →
  ∃ f1 f2 rest,
    fst <$> sort_values_descending importance = f1 :: f2 :: rest ∧
    value_feature_1 (value res) = f1 ∧ value_feature_2 (value res) = f2 ∧
    features_importance ctx' = Some (sort_values_descending importance) ∧
    train ctx' = train ctx ∧ test ctx' = test ctx ∧ model ctx' = model ctx.
Proof.
  intros H1 H2 Himp H. unfold run_logic in H. rewrite H1, H2, Himp in H.
  apply bind_Ok_inv in H as (sc & _ & H).
  apply bind_Ok_inv in H as (u & _ & H).
  destruct (length _ <? 2)%nat; [discriminate|].
  apply bind_Ok_inv in H as ([[[self1 ctx1] f1] f2] & Hpick & H).
  apply bind_Ok_inv in H as (filters1 & _ & H).
  apply bind_Ok_inv in H as (filters2 & _ & H).
  injection H as <- <- <-.
  apply bind_Ok_inv in Hpick as ([g1 g2] & Hfirst & Hpick).
  injection Hpick as <- <- <- <-.
  unfold first_two in Hfirst.
  destruct (fst <$> sort_values_descending importance) as [|a [|b rest]];
    try discriminate.
  injection Hfirst as <- <-. by exists a, b, rest.
Qed.

End SegmentRunProperties.

Section SegmentRunMoreExamples.
Import SegmentPerformance SegmentSample.
#[local] Existing Instance sample_env.

Lemma one_feature_accepted_then_refused_witness :
  ∃ self1 self2,
    @__init__ sample_env (Some (HStr "age")) None None (PInt 10) = Ok self1 ∧
    @__init__ sample_env None (Some (HStr "age")) None (PInt 10) = Ok self2 ∧
    run_logic self1 adults "train" =
      Raise (DeepchecksValueError
               "Must define both feature_1 and feature_2 or none of them") ∧
    run_logic self2 adults "train" =
      Raise (DeepchecksValueError
               "Must define both feature_1 and feature_2 or none of them").
Proof.
  apply (@one_feature_accepted_then_refused sample_env (HStr "age") None
           10%Z adults "train" tt).
  - done.
  - reflexivity.
  - reflexivity.
  - simpl. lia.
Defined.

Lemma heat_map_shape_witness :
  ∃ self' ctx' res,
    @run_logic sample_env fresh adults "train" = Ok (self', ctx', res) ∧
    length (scores (value res)) = length (y res) ∧
    length (counts (value res)) = length (y res) ∧
    Forall (λ row, length row = length (x res)) (scores (value res)) ∧
    Forall (λ row, length row = length (x res)) (counts (value res)) ∧
    Forall2 (Forall2 (λ s c, c = 0%nat → s = None))
      (scores (value res)) (counts (value res)).
Proof.
  eexists _, _, _. split; [reflexivity|].
  eapply (@heat_map_shape sample_env fresh _ adults _ "train"). reflexivity.
Defined.

Lemma importance_picks_features_witness :
  ∃ self' ctx' res,
    @run_logic sample_env fresh ranked "train" = Ok (self', ctx', res) ∧
    ∃ f1 f2 rest,
      fst <$> sort_values_descending
                [(HStr "sex", 0.5%Q); (HStr "age", 0.3%Q);
                 (HStr "income", 0.2%Q)] = f1 :: f2 :: rest ∧
      value_feature_1 (value res) = f1 ∧ value_feature_2 (value res) = f2 ∧
      features_importance ctx' =
        Some (sort_values_descending
                [(HStr "sex", 0.5%Q); (HStr "age", 0.3%Q);
                 (HStr "income", 0.2%Q)]) ∧
      train ctx' = train ranked ∧ test ctx' = test ranked ∧
      model ctx' = model ranked.
Proof.
  eexists _, _, _. split; [reflexivity|].
  eapply (@importance_picks_features sample_env fresh _ ranked _ "train").
  - reflexivity.
  - reflexivity.
  - reflexivity.
  - reflexivity.
Defined.

(** The features of the dataset come in another order. *)
Example importance_over_dataset_order :
  (λ r, (value_feature_1 (value (snd r)), value_feature_2 (value (snd r))))
  <$> @run_logic sample_env fresh ranked "train"
  = Ok (HStr "sex", HStr "age").
Proof. reflexivity. Qed.

End SegmentRunMoreExamples.

(** ** MixedDataTypes: the value of a run and its condition *)

Section MixedRunProperties.
Import MixedDataTypes.
Context {env : Env}.

Lemma od_set_fresh {K V : Type} `{EqDecision K} (k : K) (v : V)
    (d : list (K * V)) :
  k ∉ fst <$> d → od_set k v d = d ++ [(k, v)].
Proof.
  induction d as [|[k' v'] d IH]; intros Hk; [reflexivity|].
  rewrite fmap_cons in Hk. apply not_elem_of_cons in Hk as [Hne Hk].
  simpl. rewrite decide_False by done. by rewrite IH.
Qed.

Lemma reported_keys (df : list (Hashable * list cell)) :
  fst <$> omap reported df ⊆ fst <$> df.
Proof.
  induction df as [|[n column] df IH]; [done|].
  simpl. unfold reported at 1. cbn [fst snd].
  destruct (_get_data_mix (dropna column)) as [[|entry mix]|e]; simpl.
  - by apply list_subseteq_cons.
  - intros x Hx. apply elem_of_cons in Hx as [->|Hx].
    + apply elem_of_cons. by left.
    + apply elem_of_cons. right. by apply IH.
  - by apply list_subseteq_cons.
Qed.

Lemma run_logic_loop (df : list (Hashable * list cell)) :
  ∀ acc res : list (Hashable * list (string * option Q)),
  NoDup ((fst <$> acc) ++ (fst <$> df)) →
  foldM run_logic_column acc df = Ok res →
  res = acc ++ omap reported df.
Proof.
  induction df as [|[n column] df IH]; intros acc res Hnd H.
  - injection H as <-. simpl. by rewrite app_nil_r.
  - cbn [foldM] in H. apply bind_Ok_inv in H as (acc' & Hstep & H).
    unfold run_logic_column in Hstep. cbn [fst snd] in Hstep.
    apply bind_Ok_inv in Hstep as (mix & Hmix & Hstep).
    simpl omap. unfold reported at 1. cbn [fst snd]. rewrite Hmix.
    rewrite fmap_cons in Hnd. cbn [fst] in Hnd.
    destruct mix as [|entry mix].
    + injection Hstep as <-. apply IH; [|exact H].
      apply NoDup_app in Hnd as (H1 & H2 & H3).
      apply NoDup_cons in H3 as [_ H3]. apply NoDup_app. split; [done|].
      split; [|done]. intros x Hx Hin. apply (H2 x Hx).
      apply elem_of_cons. by right.
    + injection Hstep as <-.
      assert (Hn : n ∉ fst <$> acc).
      { apply NoDup_app in Hnd as (_ & H2 & _). intros Hin.
        apply (H2 n Hin). apply elem_of_cons. by left. }
      rewrite (od_set_fresh n _ acc Hn) in H.
      apply IH in H.
      * by rewrite H, <- app_assoc.
      * rewrite fmap_app. simpl. rewrite <- app_assoc. exact Hnd.
Qed.

(** The value of a run that returns lists, in the order of the columns
    of the selected frame (their names being distinct), exactly the
    columns whose prepared data has a mix, each with that mix. *)
Theorem mixed_run_value (self : t) (data : Frame)
    (df : list (Hashable * list cell))
    (result_dict : list (Hashable * list (string * option Q))) :
  select_from_dataframe data (columns self) (ignore_columns self) = Ok df →
  NoDup (fst <$> df) →
  run_logic self data = Ok result_dict →
  result_dict = omap reported df ∧
  fst <$> result_dict ⊆ fst <$> df ∧
  ∀ n column, (n, column) ∈ df →
    (n ∈ fst <$> result_dict ↔
     ∃ entry mix,
       _get_data_mix (dropna column) = Ok (entry :: mix)).
Proof.
  intros Hselect Hnd Hrun. unfold run_logic in Hrun. rewrite Hselect in Hrun.
  cbn [mbind result_bind Py.bind] in Hrun.
  apply run_logic_loop in Hrun; [|exact Hnd]. simpl in Hrun. subst result_dict.
  split; [reflexivity|]. split; [apply reported_keys|].
  intros n column Hin. split.
  - intros Hn. apply list_elem_of_fmap in Hn as ([n' mix'] & -> & Hrep).
    apply list_elem_of_omap in Hrep as ([n2 column2] & Hin2 & Hrep).
    unfold reported in Hrep. cbn [fst snd] in Hrep.
    destruct (_get_data_mix (dropna column2)) as [[|entry mix]|e] eqn:Hmix;
      try discriminate.
    injection Hrep as <- <-. cbn [fst] in *.
    assert (column2 = column) as ->.
    { clear -Hnd Hin Hin2. induction df as [|[m c] df IH].
      - by apply elem_of_nil in Hin.
      - rewrite fmap_cons in Hnd. apply NoDup_cons in Hnd as [Hm Hnd].
        apply elem_of_cons in Hin as [[= -> ->]|Hin];
          apply elem_of_cons in Hin2 as [[= ->]|Hin2]; auto.
        + destruct Hm. by apply (list_elem_of_fmap_2 fst) in Hin2.
        + subst. destruct Hm. by apply (list_elem_of_fmap_2 fst) in Hin. }
    eauto.
  - intros (entry & mix & Hmix).
    apply list_elem_of_fmap. exists (n, entry :: mix). split; [reflexivity|].
    apply list_elem_of_omap. exists (n, column). split; [exact Hin|].
    unfold reported. cbn [fst snd]. by rewrite Hmix.
Qed.

End MixedRunProperties.

Section MixedCondition.
Import MixedDataTypes.
Context {env : Env}.

Lemma min_Q_of_mix (s n : Q) :
  (0 < s)%Q → (0 < n)%Q → (s + n == 1)%Q → (min_Q s n <= 1 # 2)%Q.
Proof.
  intros Hs Hn Hsum. unfold min_Q.
  destruct (Qlt_le_dec n s) as [Hlt|Hle]; lra.
Qed.

Lemma condition_column_of_mix (ratio_range : Q * Q) (acc : list Hashable)
    (item : Hashable * list (string * option Q)) :
  is_mix (snd item) →
  condition_column ratio_range acc item =
  Ok (if in_range (fst ratio_range) (snd ratio_range)
           (rarer_ratio (snd item))
      then acc ++ [fst item] else acc).
Proof.
  intros (s & n & Hmix & _). unfold condition_column, rarer_ratio, ratio.
  rewrite Hmix. cbn.
  repeat case_decide; try done. cbn. by repeat case_match.
Qed.

Lemma condition_loop (ratio_range : Q * Q)
    (result_dict : list (Hashable * list (string * option Q))) :
  Forall (λ kv, is_mix (snd kv)) result_dict →
  ∀ acc,
    foldM (condition_column ratio_range) acc result_dict =
    Ok (acc ++
        (fst <$> filter (λ item, in_range (fst ratio_range) (snd ratio_range)
                                   (rarer_ratio (snd item)) = true)
                   result_dict)).
Proof.
  induction 1 as [|item l Hitem Hl IH]; intros acc.
  - simpl. by rewrite app_nil_r.
  - cbn [foldM]. rewrite (condition_column_of_mix _ _ _ Hitem).
    cbn [Py.bind]. rewrite IH, filter_cons.
    destruct (in_range _ _ _) eqn:Hin.
    + rewrite decide_True by done. rewrite fmap_cons. by rewrite <- app_assoc.
    + rewrite decide_False; [reflexivity|]. by intros [=].
Qed.

(** The condition on the value of a run returns (the two keys it reads
    are always there), passes or warns, and warns exactly about the
    reported columns whose rarer ratio is strictly between the two
    bounds; a ratio equal to a bound does not count. *)
Theorem rare_type_condition_on_run (self : t) (data : Frame)
    (result_dict : list (Hashable * list (string * option Q)))
    (low high : Q) :
  run_logic self data = Ok result_dict →
  ∃ c,
    condition (low, high) result_dict = Ok c ∧
    (category c = PASS ∨ category c = WARN) ∧
    (category c = PASS ↔ details c = []) ∧
    ∀ col, col ∈ details c ↔
      ∃ s n,
        (col, [("strings", Some s); ("numbers", Some n)]) ∈ result_dict ∧
        (low < min_Q s n)%Q ∧ (min_Q s n < high)%Q.
Proof.
  intros Hrun. pose proof (run_logic_reports_mixes _ _ _ Hrun) as Hmix.
  unfold condition. rewrite (condition_loop (low, high) _ Hmix).
  cbn [mbind result_bind Py.bind app fst snd].
  set (failing := fst <$> filter _ result_dict).
  assert (Hfailing : ∀ col, col ∈ failing ↔
    ∃ s n,
      (col, [("strings", Some s); ("numbers", Some n)]) ∈ result_dict ∧
      (low < min_Q s n)%Q ∧ (min_Q s n < high)%Q).
  { intros col. unfold failing. rewrite list_elem_of_fmap. split.
    - intros ([col' mix] & -> & Hin). apply list_elem_of_filter in Hin as [Hr Hin].
      cbn [fst snd] in *.
      eapply Forall_forall in Hmix; [|exact Hin].
      destruct Hmix as (s & n & Heq & _). cbn in Heq. subst mix.
      exists s, n. split; [exact Hin|].
      unfold rarer_ratio in Hr. cbn in Hr.
      repeat case_decide; try done. cbn in Hr.
      apply andb_prop in Hr as [Hlow Hhigh].
      by apply bool_decide_eq_true in Hlow, Hhigh.
    - intros (s & n & Hin & Hlow & Hhigh).
      exists (col, [("strings", Some s); ("numbers", Some n)]).
      split; [reflexivity|]. apply list_elem_of_filter. split; [|exact Hin].
      unfold rarer_ratio. cbn.
      repeat case_decide; try done. cbn.
      by rewrite !bool_decide_eq_true_2. }
  destruct failing as [|col cols]; eexists; (split; [reflexivity|]); cbn.
  - split; [by left|]. split; [done|]. exact Hfailing.
  - split; [by right|]. split; [done|]. exact Hfailing.
Qed.

(** The rarer of the two ratios of a reported column is at most one
    half; so a range whose lower bound is one half or more never
    warns. *)
Theorem rarer_ratio_at_most_half (self : t) (data : Frame)
    (result_dict : list (Hashable * list (string * option Q))) :
  run_logic self data = Ok result_dict →
  (∀ col mix, (col, mix) ∈ result_dict →
     ∃ s n, mix = [("strings", Some s); ("numbers", Some n)] ∧
            rarer_ratio mix = Some (min_Q s n) ∧
            (0 < min_Q s n)%Q ∧ (min_Q s n <= 1 # 2)%Q) ∧
  ∀ low high, (1 # 2 <= low)%Q →
    condition (low, high) result_dict = Ok (Condition PASS []).
Proof.
  intros Hrun. pose proof (run_logic_reports_mixes _ _ _ Hrun) as Hmix.
  assert (Hhalf : ∀ col mix, (col, mix) ∈ result_dict →
     ∃ s n, mix = [("strings", Some s); ("numbers", Some n)] ∧
            rarer_ratio mix = Some (min_Q s n) ∧
            (0 < min_Q s n)%Q ∧ (min_Q s n <= 1 # 2)%Q).
  { intros col mix Hin. eapply Forall_forall in Hmix; [|exact Hin].
    destruct Hmix as (s & n & Heq & Hs & _ & Hn & _ & Hsum).
    cbn in Heq. subst mix.
    exists s, n. split; [reflexivity|].
    split; [unfold rarer_ratio; cbn; by repeat case_decide|].
    split; [|by apply min_Q_of_mix].
    unfold min_Q. by destruct (Qlt_le_dec n s). }
  split; [exact Hhalf|]. intros low high Hlow.
  unfold condition. rewrite (condition_loop (low, high) _ Hmix).
  cbn [mbind result_bind Py.bind app fst snd].
  assert (filter (λ item : Hashable * list (string * option Q),
                    in_range low high (rarer_ratio (snd item)) = true)
            result_dict = []) as ->; [|reflexivity].
  apply filter_nil_iff. intros [col mix] Hin Hr. cbn [snd] in Hr.
  destruct (Hhalf col mix Hin) as (s & n & _ & Hrarer & _ & Hle).
  rewrite Hrarer in Hr. cbn in Hr. apply andb_prop in Hr as [H1 _].
  apply bool_decide_eq_true in H1. lra.
Qed.



End MixedCondition.

Section MixedConditionExamples.
Import MixedDataTypes MixedSample.

(** Of the three columns of the frame, the numeric one is not reported;
    of the five ages one is missing and one of the four others is a
    word. *)
Lemma mixed_run_value_witness :
  [(HStr "age", [("strings", Some (1 # 4)); ("numbers", Some (3 # 4))]);
   (HInt 7, [("strings", Some (1 # 2)); ("numbers", Some (1 # 2))])] =
    omap (@reported sample_env) table ∧
  [HStr "age"; HInt 7] ⊆ fst <$> table.
Proof.
  destruct (@mixed_run_value sample_env check table table
              [(HStr "age", [("strings", Some (1 # 4)); ("numbers", Some (3 # 4))]);
               (HInt 7, [("strings", Some (1 # 2)); ("numbers", Some (1 # 2))])])
    as (Hvalue & Hsub & _).
  - reflexivity.
  - apply (bool_decide_unpack _). vm_compute. reflexivity.
  - vm_compute. reflexivity.
  - split; [exact Hvalue|exact Hsub].
Defined.

(** The value of the run on the frame, judged with the range from one
    fifth to one third. *)
Lemma rare_type_condition_on_run_witness :
  ∃ c,
    @condition (1 # 5, 1 # 3)
      [(HStr "age", [("strings", Some (1 # 4)); ("numbers", Some (3 # 4))]);
       (HInt 7, [("strings", Some (1 # 2)); ("numbers", Some (1 # 2))])]
      = Ok c ∧
    (category c = PASS ∨ category c = WARN) ∧
    (category c = PASS ↔ details c = []).
Proof.
  destruct (@rare_type_condition_on_run sample_env check table
              [(HStr "age", [("strings", Some (1 # 4)); ("numbers", Some (3 # 4))]);
               (HInt 7, [("strings", Some (1 # 2)); ("numbers", Some (1 # 2))])]
              (1 # 5) (1 # 3))
    as (c & Hc & Hcat & Hpass & _).
  - vm_compute. reflexivity.
  - exists c. split; [exact Hc|]. split; [exact Hcat|exact Hpass].
Defined.

Lemma rarer_ratio_at_most_half_witness :
  @condition (1 # 2, 1)%Q
    [(HStr "age", [("strings", Some (1 # 4)); ("numbers", Some (3 # 4))]);
     (HInt 7, [("strings", Some (1 # 2)); ("numbers", Some (1 # 2))])]
    = Ok (Condition PASS []).
Proof.
  refine (proj2 (@rarer_ratio_at_most_half sample_env check table _ _)
            (1 # 2)%Q 1%Q _).
  - vm_compute. reflexivity.
  - apply Qle_refl.
Defined.


(** An integer beyond the range of a float ahead of the [None]: the
    [OverflowError] comes first. *)
Example huge_integer_before_none :
  @_get_data_mix sample_env
    [Value (PStr "a"); Value (PInt (2 ^ 1024)); NoneValue] =
  Raise (OverflowError "int too large to convert to float") ∧
  @is_float sample_env (Value (PInt (2 ^ 1024 - 2 ^ 970 - 1))) = Ok true.
Proof. split; vm_compute; reflexivity. Qed.

End MixedConditionExamples.

(** ** SimpleClassificationDataset: the class maps and the items *)

Section DatasetFacts.
Import SimpleClassificationData.

Lemma ltb_trans (a b c : string) :
  String.ltb a b = true → String.ltb b c = true → String.ltb a c = true.
Proof.
  unfold String.ltb. intros Hab Hbc.
  destruct (String.compare a b) eqn:Hab'; try discriminate.
  destruct (String.compare b c) eqn:Hbc'; try discriminate.
  apply String_as_OT.cmp_lt in Hab', Hbc'.
  pose proof (String_as_OT.lt_trans _ _ _ Hab' Hbc') as Hac.
  apply String_as_OT.cmp_lt in Hac. unfold String_as_OT.cmp in Hac.
  by rewrite Hac.
Qed.

Lemma ltb_irrefl (a : string) : String.ltb a a = false.
Proof.
  unfold String.ltb.
  destruct (String.compare a a) eqn:H; try reflexivity.
  apply String_as_OT.cmp_lt in H.
  by destruct (String_as_OT.lt_not_eq _ _ H).
Qed.

Lemma ltb_connected (a b : string) :
  String.ltb b a = false → a ≠ b → String.ltb a b = true.
Proof.
  unfold String.ltb. intros Hba Hne. rewrite String.compare_antisym in Hba.
  destruct (String.compare a b) eqn:H; try done.
  by apply String.compare_eq_iff in H.
Qed.

Lemma insert_perm (x : string) (l : list string) : insert x l ≡ₚ x :: l.
Proof.
  induction l as [|y l IH]; [reflexivity|]. simpl.
  destruct (String.ltb y x); [|reflexivity].
  rewrite IH. apply Permutation_swap.
Qed.

Lemma sorted_perm (l : list string) : sorted l ≡ₚ l.
Proof.
  induction l as [|x l IH]; [reflexivity|]. simpl.
  by rewrite insert_perm, IH.
Qed.

Lemma insert_sorted (x : string) (l : list string) :
  x ∉ l →
  StronglySorted (λ a b, String.ltb a b = true) l →
  StronglySorted (λ a b, String.ltb a b = true) (insert x l).
Proof.
  intros Hx Hl. induction Hl as [|y l Hl IH Hy]; simpl.
  - by repeat constructor.
  - apply not_elem_of_cons in Hx as [Hne Hx].
    destruct (String.ltb y x) eqn:Hyx.
    + constructor; [by apply IH|].
      apply Forall_forall. intros z Hz.
      rewrite (insert_perm x l) in Hz.
      apply elem_of_cons in Hz as [->|Hz]; [done|].
      eapply Forall_forall in Hy; [exact Hy|done].
    + assert (Hxy : String.ltb x y = true) by by apply ltb_connected.
      constructor; [by constructor|].
      constructor; [done|].
      eapply Forall_impl; [exact Hy|]. intros z Hz. simpl in Hz.
      by apply (ltb_trans x y z).
Qed.

Lemma sorted_strongly (l : list string) :
  NoDup l → StronglySorted (λ a b, String.ltb a b = true) (sorted l).
Proof.
  induction 1 as [|x l Hx Hl IH]; simpl; [constructor|].
  apply insert_sorted; [|exact IH]. by rewrite sorted_perm.
Qed.

Lemma strongly_sorted_lookup (l : list string) (i j : nat) (a b : string) :
  StronglySorted (λ a b, String.ltb a b = true) l →
  l !! i = Some a → l !! j = Some b → (i < j)%nat → String.ltb a b = true.
Proof.
  intros Hl. revert i j.
  induction Hl as [|x l Hl IH Hx]; intros i j Hi Hj Hlt; [done|].
  destruct i as [|i], j as [|j]; try lia; simpl in *.
  - injection Hi as ->. eapply Forall_forall in Hx; [exact Hx|].
    by eapply list_elem_of_lookup_2.
  - apply (IH i j); [done|done|lia].
Qed.

Lemma dict_from {K V : Type} `{EqDecision K} (pairs : list (K * V)) :
  ∀ acc,
    NoDup ((fst <$> acc) ++ (fst <$> pairs)) →
    foldl (λ d kv, od_set (fst kv) (snd kv) d) acc pairs = acc ++ pairs.
Proof.
  induction pairs as [|[k v] pairs IH]; intros acc Hnd.
  - by rewrite app_nil_r.
  - simpl. rewrite fmap_cons in Hnd. simpl in Hnd.
    assert (Hk : k ∉ fst <$> acc).
    { apply NoDup_app in Hnd as (_ & Hnd & _). intros Hin.
      apply (Hnd k Hin). apply elem_of_cons. by left. }
    rewrite (od_set_fresh k v acc Hk), IH.
    + by rewrite <- app_assoc.
    + rewrite fmap_app. simpl. by rewrite <- app_assoc.
Qed.

Lemma dict_distinct {K V : Type} `{EqDecision K} (pairs : list (K * V)) :
  NoDup (fst <$> pairs) → dict pairs = pairs.
Proof. intros Hnd. unfold dict. by rewrite dict_from. Qed.

Lemma od_get_zip {K V : Type} `{EqDecision K} (ks : list K) (vs : list V)
    (k : K) (v : V) :
  NoDup ks → length ks = length vs →
  od_get k (zip ks vs) = Some v ↔
  ∃ j, ks !! j = Some k ∧ vs !! j = Some v.
Proof.
  revert vs. induction ks as [|k' ks IH]; intros vs Hnd Hlen.
  - simpl. split; [done|]. by intros (j & Hj & _).
  - destruct vs as [|v' vs]; [done|]. simpl in *.
    apply NoDup_cons in Hnd as [Hk' Hnd].
    destruct (decide (k = k')) as [->|Hne].
    + split.
      * intros [= ->]. by exists 0%nat.
      * intros ([|j] & Hj & Hv); simpl in *; [congruence|].
        destruct Hk'. by eapply list_elem_of_lookup_2.
    + rewrite IH by (done || lia). split.
      * intros (j & Hj & Hv). by exists (S j).
      * intros ([|j] & Hj & Hv); simpl in *; [congruence|]. by exists j.
Qed.

Lemma zip_swap {A B : Type} (l : list A) (k : list B) :
  (λ kv : A * B, (snd kv, fst kv)) <$> zip l k = zip k l.
Proof.
  revert k. induction l as [|a l IH]; intros [|b k]; simpl; try done.
  by rewrite IH.
Qed.

Lemma range_lookup (n j : nat) (i : Z) :
  range n !! j = Some i ↔ i = Z.of_nat j ∧ (j < n)%nat.
Proof.
  unfold range. rewrite lookup_seqZ. lia.
Qed.

Context {env : Env}.

(** What the constructor leaves in the two maps. *)
Lemma init_maps (root : string) (train : bool)
    (ts : option (Image → Z → result (Image * Z)))
    (tf : option (Image → result Image)) (ttf : option (Z → result Z))
    (ext : string) (self : t) :
  __init__ root train ts tf ttf ext = Ok self →
  ∃ classes,
    images self ≠ [] ∧
    NoDup classes ∧
    StronglySorted (λ a b, String.ltb a b = true) classes ∧
    (∀ c, c ∈ classes ↔ ∃ img, img ∈ images self ∧ parent_name img = c) ∧
    classes_map self = zip classes (range (length classes)) ∧
    reverse_classes_map self = zip (range (length classes)) classes.
Proof.
  unfold __init__. destruct (negb _); [done|].
  destruct (VisionDataset _ _ _ _) as [[[ts' tf'] ttf']|e]; [|done].
  cbn [mbind dataset_result_bind bind mret dataset_result_ret].
  set (imgs := if train then _ else _).
  destruct (length imgs =? 0)%nat eqn:Hlen; [done|].
  intros [= <-]. cbn [images classes_map reverse_classes_map].
  set (classes := sorted (remove_dups (parent_name <$> imgs))).
  assert (Hnd : NoDup classes).
  { unfold classes. rewrite sorted_perm. apply NoDup_remove_dups. }
  assert (Hrange : length classes = length (range (length classes))).
  { unfold range. rewrite length_seqZ. lia. }
  assert (Hmap : dict (zip classes (range (length classes))) =
                 zip classes (range (length classes))).
  { apply dict_distinct. rewrite fst_zip by lia. exact Hnd. }
  exists classes. split.
  { intros ->. done. }
  split; [exact Hnd|]. split.
  { apply sorted_strongly, NoDup_remove_dups. }
  split.
  { intros c. unfold classes. rewrite sorted_perm, elem_of_remove_dups.
    rewrite list_elem_of_fmap. split.
    - intros (img & -> & Himg). by exists img.
    - intros (img & Himg & <-). by exists img. }
  split; [exact Hmap|].
  rewrite Hmap, zip_swap. apply dict_distinct.
  rewrite fst_zip by lia. unfold range. apply NoDup_seqZ.
Qed.

(** Every folder of an image has an index, and the reverse map undoes
    the class map. *)
Lemma init_targets (root : string) (train : bool)
    (ts : option (Image → Z → result (Image * Z)))
    (tf : option (Image → result Image)) (ttf : option (Z → result Z))
    (ext : string) (self : t) :
  __init__ root train ts tf ttf ext = Ok self →
  images self ≠ [] ∧
  (∀ img, img ∈ images self →
     ∃ i, od_get (parent_name img) (classes_map self) = Some i) ∧
  (∀ c i, od_get c (classes_map self) = Some i ↔
          od_get i (reverse_classes_map self) = Some c).
Proof.
  intros Hinit.
  destruct (init_maps _ _ _ _ _ _ _ Hinit)
    as (classes & Hne & Hnd & _ & Hclasses & -> & ->).
  assert (Hlen : length (range (length classes)) = length classes).
  { unfold range. rewrite length_seqZ. lia. }
  assert (Hndr : NoDup (range (length classes))) by apply NoDup_seqZ.
  split; [exact Hne|]. split.
  - intros img Himg.
    assert (Hc : parent_name img ∈ classes) by (apply Hclasses; eauto).
    apply list_elem_of_lookup in Hc as [j Hj].
    exists (Z.of_nat j). apply od_get_zip; [done|lia|].
    exists j. split; [done|]. apply range_lookup. split; [done|].
    by apply lookup_lt_Some in Hj.
  - intros c i. rewrite !od_get_zip by (done || lia).
    split; intros (j & Hj1 & Hj2); by exists j.
Qed.

End DatasetFacts.

Section DatasetProperties.
Import SimpleClassificationData.
Context {env : Env}.

(** The two maps of a constructed dataset are inverse to each other:
    every folder name of an image has an index, the indexes are the
    integers from zero up to the number of classes, every index leads
    back to the folder name it was given to, and every class is the
    folder of some image. *)
Theorem class_maps_inverse (root : string) (train : bool)
    (ts : option (Image → Z → result (Image * Z)))
    (tf : option (Image → result Image)) (ttf : option (Z → result Z))
    (ext : string) (self : t) :
  __init__ root train ts tf ttf ext = Ok self →
  (∀ img, img ∈ images self →
     ∃ i, od_get (parent_name img) (classes_map self) = Some i) ∧
  (∀ c i, od_get c (classes_map self) = Some i ↔
          od_get i (reverse_classes_map self) = Some c) ∧
  (∀ c i, od_get c (classes_map self) = Some i →
     ∃ img, img ∈ images self ∧ parent_name img = c) ∧
  fst <$> reverse_classes_map self = range (length (classes_map self)) ∧
  snd <$> classes_map self = range (length (classes_map self)).
Proof.
  intros Hinit.
  destruct (init_targets _ _ _ _ _ _ _ Hinit) as (_ & Hall & Hinv).
  split; [exact Hall|]. split; [exact Hinv|]. clear Hall Hinv.
  destruct (init_maps _ _ _ _ _ _ _ Hinit)
    as (classes & _ & Hnd & _ & Hclasses & -> & ->).
  assert (Hlen : length (range (length classes)) = length classes).
  { unfold range. rewrite length_seqZ. lia. }
  split.
  { intros c i Hget. apply od_get_zip in Hget as (j & Hj & _); [|done|lia].
    apply Hclasses. by eapply list_elem_of_lookup_2. }
  rewrite length_zip, Hlen, Nat.min_id.
  split; [by rewrite fst_zip by lia|by rewrite snd_zip by lia].
Qed.

(** The indexes follow the order of the folder names: of two classes
    the one whose name is smaller, as strings are compared, has the
    smaller index. *)
Theorem class_indices_follow_names (root : string) (train : bool)
    (ts : option (Image → Z → result (Image * Z)))
    (tf : option (Image → result Image)) (ttf : option (Z → result Z))
    (ext : string) (self : t) (c1 c2 : string) (i1 i2 : Z) :
  __init__ root train ts tf ttf ext = Ok self →
  od_get c1 (classes_map self) = Some i1 →
  od_get c2 (classes_map self) = Some i2 →
  (i1 < i2)%Z ↔ String.ltb c1 c2 = true.
Proof.
  intros Hinit H1 H2.
  destruct (init_maps _ _ _ _ _ _ _ Hinit)
    as (classes & _ & Hnd & Hsorted & _ & Hmap & _).
  rewrite Hmap in H1, H2.
  assert (Hlen : length classes = length (range (length classes))).
  { unfold range. rewrite length_seqZ. lia. }
  apply od_get_zip in H1 as (j1 & Hj1 & Hi1); [|done|done].
  apply od_get_zip in H2 as (j2 & Hj2 & Hi2); [|done|done].
  apply range_lookup in Hi1 as [-> _]. apply range_lookup in Hi2 as [-> _].
  split.
  - intros Hlt. apply (strongly_sorted_lookup classes j1 j2); try done. lia.
  - intros Hlt. destruct (decide (j1 < j2)%nat) as [?|Hge]; [lia|].
    destruct (decide (j1 = j2)) as [->|Hne].
    + assert (c1 = c2) as -> by congruence.
      by rewrite ltb_irrefl in Hlt.
    + assert (Hgt : String.ltb c2 c1 = true).
      { apply (strongly_sorted_lookup classes j2 j1); try done. lia. }
      pose proof (ltb_trans _ _ _ Hlt Hgt) as Hcc.
      by rewrite ltb_irrefl in Hcc.
Qed.

(** An item of a dataset constructed without transforms.  An index from
    minus the length up to the length (excluded) is answered, a negative
    one counting from the end, with the image of the file at that place
    and a target that the reverse map leads back to the folder of the
    file; the lookup of the folder never raises.  Any other index raises
    an index error, and the dataset is never empty. *)
Theorem getitem_within_bounds (root : string) (train : bool) (ext : string)
    (self : t) (index : Z) :
  __init__ root train None None None ext = Ok self →
  transforms self = None → transform self = None →
  target_transform self = None →
  let n := Z.of_nat (__len__ self) in
  (0 < n)%Z ∧
  ((- n <= index < n)%Z →
   ∃ image_file target,
     images self !! Z.to_nat (index `mod` n) = Some image_file ∧
     od_get target (reverse_classes_map self) = Some (parent_name image_file) ∧
     __getitem__ self index =
       (image ← cvtColor (imread image_file); mret (image, target))) ∧
  ((index < - n ∨ n <= index)%Z →
   __getitem__ self index = Raise (IndexError "list index out of range")).
Proof.
  intros Hinit Hts Htf Httf n.
  destruct (init_targets _ _ _ _ _ _ _ Hinit) as (Hne & Hall & Hinv).
  assert (Hn : (0 < n)%Z).
  { unfold n, __len__. destruct (images self); [done|simpl; lia]. }
  split; [exact Hn|]. split.
  - intros Hindex.
    assert (Hi : (0 <= index `mod` n < n)%Z) by (apply Z.mod_pos_bound; lia).
    destruct (lookup_lt_is_Some_2 (images self) (Z.to_nat (index `mod` n)))
      as [image_file Hfile]; [unfold n, __len__ in *; lia|].
    destruct (Hall image_file) as [target Htarget];
      [by eapply list_elem_of_lookup_2|].
    exists image_file, target. split; [exact Hfile|].
    split; [by apply Hinv|].
    unfold __getitem__, list_getitem. fold (__len__ self). fold n.
    assert ((if (index <? 0)%Z then (index + n)%Z else index) = (index `mod` n)%Z)
      as ->.
    { destruct (index <? 0)%Z eqn:Hneg.
      - apply Z.ltb_lt in Hneg. symmetry.
        rewrite <- (Z.mod_add index 1 n), Z.mul_1_l by lia.
        apply Z.mod_small. lia.
      - apply Z.ltb_ge in Hneg. symmetry. apply Z.mod_small. lia. }
    assert (((index `mod` n <? 0)%Z || (n <=? index `mod` n)%Z) = false) as ->.
    { apply orb_false_intro; [apply Z.ltb_ge|apply Z.leb_gt]; lia. }
    rewrite Hfile.
    cbn [mbind dataset_result_bind bind mret dataset_result_ret].
    destruct (cvtColor (imread image_file)) as [image|e]; [|reflexivity].
    cbn [mbind dataset_result_bind bind mret dataset_result_ret].
    unfold dict_getitem. rewrite Htarget.
    cbn [mbind dataset_result_bind bind mret dataset_result_ret].
    by rewrite Hts, Htf, Httf.
  - intros Hindex. unfold __getitem__, list_getitem.
    fold (__len__ self). fold n.
    assert (((if (index <? 0)%Z then (index + n)%Z else index) <? 0)%Z
            || (n <=? (if (index <? 0)%Z then (index + n)%Z else index))%Z
            = true) as ->; [|reflexivity].
    destruct (index <? 0)%Z eqn:Hneg.
    + apply Z.ltb_lt in Hneg. apply orb_true_intro. left. apply Z.ltb_lt. lia.
    + apply Z.ltb_ge in Hneg. apply orb_true_intro. right. apply Z.leb_le. lia.
Qed.

End DatasetProperties.

Section DatasetExamples.
Import SimpleClassificationData DatasetSample.

(** The train images of the stand-in: two classes, the cats first. *)
Lemma class_maps_inverse_witness :
  ∃ self,
    @__init__ sample_env "/data" true None None None "jpg" = Ok self ∧
    classes_map self = [("cat", 0%Z); ("dog", 1%Z)] ∧
    fst <$> reverse_classes_map self = range (length (classes_map self)) ∧
    snd <$> classes_map self = range (length (classes_map self)).
Proof.
  destruct (@__init__ sample_env "/data" true None None None "jpg")
    as [self|e] eqn:Hinit; [|discriminate Hinit].
  exists self. split; [reflexivity|].
  split; [by injection Hinit as <-|].
  exact (proj2 (proj2 (proj2
    (@class_maps_inverse sample_env "/data" true None None None "jpg" self
       Hinit)))).
Defined.

Lemma class_indices_follow_names_witness :
  ∃ self,
    @__init__ sample_env "/data" true None None None "jpg" = Ok self ∧
    ((0 < 1)%Z ↔ String.ltb "cat" "dog" = true).
Proof.
  destruct (@__init__ sample_env "/data" true None None None "jpg")
    as [self|e] eqn:Hinit; [|discriminate Hinit].
  exists self. split; [reflexivity|].
  apply (@class_indices_follow_names sample_env "/data" true None None None
           "jpg" self "cat" "dog" 0%Z 1%Z Hinit);
    by injection Hinit as <-.
Defined.

(** The last item of the stand-in, by its index from the end. *)
Lemma getitem_within_bounds_witness :
  ∃ self,
    @__init__ sample_env "/data" true None None None "jpg" = Ok self ∧
    (0 < Z.of_nat (__len__ self))%Z ∧
    ((Z.of_nat (__len__ self) <= 3)%Z →
     @__getitem__ sample_env self 3 =
       Raise (IndexError "list index out of range")).
Proof.
  destruct (@__init__ sample_env "/data" true None None None "jpg")
    as [self|e] eqn:Hinit; [|discriminate Hinit].
  exists self. split; [reflexivity|].
  destruct (@getitem_within_bounds sample_env "/data" true "jpg" self 3 Hinit)
    as (Hlen & _ & Hout); [by injection Hinit as <-..|].
  split; [exact Hlen|]. intros Hindex. apply Hout. right. exact Hindex.
Defined.

Example getitem_from_the_end :
  ∃ self,
    @__init__ sample_env "/data" true None None None "jpg" = Ok self ∧
    @__getitem__ sample_env self (-1) = Ok ("fido.jpg", 1%Z) ∧
    @__getitem__ sample_env self 2 = Ok ("fido.jpg", 1%Z) ∧
    @__getitem__ sample_env self 0 = Ok ("tom.jpg", 0%Z) ∧
    @__getitem__ sample_env self (-4) =
      Raise (IndexError "list index out of range") ∧
    @__init__ sample_env "/data" false None None None "jpg" =
      Raise (Builtin (ValueError "/data - is empty or has incorrect structure")).
Proof. eexists. repeat split; reflexivity. Qed.

End DatasetExamples.
